(** * MallocChecker: a shallow embedding of the heap-lifecycle checker

    The development follows
    [clang/lib/StaticAnalyzer/Checkers/MallocChecker.cpp].  The checker is a
    plugin of the static analyzer's symbolic execution engine: the engine
    owns symbolic values, the environment, the store and the constraints;
    the checker owns four tables stored in the program state and a set of
    callbacks that map a state to a new state.

    The engine is not part of the checker.  Its API is taken as a class of
    operations ([Engine]), and the values it hands to the checker are
    modelled by what the checker observes of them.  The definitions come
    first, the lemmas and theorems follow, and the last part runs the
    callbacks on concrete inputs. *)

From Stdlib Require Import ZArith.
From stdpp Require Import gmap list fin_maps strings.

Set Default Proof Using "Type".

(** ** Symbols, statements, families *)

(** [SymbolRef] and [const Stmt *] are compared by identity only. *)
Abbreviation SymbolRef := positive.
Abbreviation StmtRef := positive.

(** [enum AllocationFamily]. *)
Inductive AllocationFamily :=
  | AF_None
  | AF_Malloc
  | AF_CXXNew
  | AF_CXXNewArray
  | AF_IfNameIndex
  | AF_Alloca
  | AF_InnerBuffer.

#[global] Instance AllocationFamily_eq_dec : EqDecision AllocationFamily.
Proof. solve_decision. Defined.

(** ** [class RefState] *)

Module RefState.

(** [enum Kind]. *)
Inductive Kind :=
  | Allocated
  | AllocatedOfSizeZero
  | Released
  | Relinquished
  | Escaped.

#[global] Instance Kind_eq_dec : EqDecision Kind.
Proof. solve_decision. Defined.

(** The three data members [S], [K] and [Family]. *)
Record t := mk { Stmt : StmtRef; K : Kind; Family : AllocationFamily }.

#[global] Instance t_eq_dec : EqDecision t.
Proof. solve_decision. Defined.

Definition isAllocated (rs : t) : bool := bool_decide (K rs = Allocated).
Definition isAllocatedOfSizeZero (rs : t) : bool :=
  bool_decide (K rs = AllocatedOfSizeZero).
Definition isReleased (rs : t) : bool := bool_decide (K rs = Released).
Definition isRelinquished (rs : t) : bool :=
  bool_decide (K rs = Relinquished).
Definition isEscaped (rs : t) : bool := bool_decide (K rs = Escaped).
Definition getAllocationFamily (rs : t) : AllocationFamily := Family rs.
Definition getStmt (rs : t) : StmtRef := Stmt rs.

Definition getAllocated (family : AllocationFamily) (s : StmtRef) : t :=
  mk s Allocated family.
Definition getAllocatedOfSizeZero (rs : t) : t :=
  mk (getStmt rs) AllocatedOfSizeZero (getAllocationFamily rs).
Definition getReleased (family : AllocationFamily) (s : StmtRef) : t :=
  mk s Released family.
Definition getRelinquished (family : AllocationFamily) (s : StmtRef) : t :=
  mk s Relinquished family.
Definition getEscaped (rs : t) : t :=
  mk (getStmt rs) Escaped (getAllocationFamily rs).

End RefState.

(** ** Realloc pairs *)

(** [enum OwnershipAfterReallocKind]. *)
Inductive OwnershipAfterReallocKind :=
  | OAR_ToBeFreedAfterFailure
  | OAR_FreeOnFailure
  | OAR_DoNotTrackAfterFailure.

#[global] Instance OwnershipAfterReallocKind_eq_dec :
  EqDecision OwnershipAfterReallocKind.
Proof. solve_decision. Defined.

(** [struct ReallocPair]: the from-pointer and what happens to it when the
    reallocation fails. *)
Record ReallocPair := mkReallocPair {
  ReallocatedSym : SymbolRef;
  Kind : OwnershipAfterReallocKind
}.

#[global] Instance ReallocPair_eq_dec : EqDecision ReallocPair.
Proof. solve_decision. Defined.

(** ** Symbolic values, as the checker observes them *)

(** The memory space of a region, as far as [FreeMemAux] tells them apart. *)
Inductive MemSpace :=
  | UnknownSpaceRegion
  | HeapSpaceRegion
  | OtherSpaceRegion.

(** [RegionOffset], the result of [MemRegion::getAsOffset]. *)
Record RegionOffset := mkRegionOffset {
  isValid : bool;
  hasSymbolicOffset : bool;
  getOffset : Z
}.

(** A [MemRegion] is owned by the engine.  The record holds the answers to
    the queries the checker makes on it. *)
Record MemRegion := mkMemRegion {
  (** [dyn_cast<SymbolicRegion>(R)]: the region itself is symbolic. *)
  asSymbolicRegion : option SymbolRef;
  (** [dyn_cast<SymbolicRegion>(R->StripCasts())]. *)
  StripCasts_asSymbolicRegion : option SymbolRef;
  (** [isa<BlockDataRegion>(R->StripCasts())]. *)
  isBlockDataRegion : bool;
  (** [isa<AllocaRegion>(R->StripCasts())]. *)
  isAllocaRegion : bool;
  (** [R->StripCasts()->getMemorySpace()]. *)
  getMemorySpace : MemSpace;
  (** [dyn_cast<SymbolicRegion>(R->StripCasts()->getBaseRegion())]. *)
  getBaseRegion_asSymbolicRegion : option SymbolRef;
  (** [R->StripCasts()->getAsOffset()]. *)
  getAsOffset : RegionOffset
}.

(** [SVal] and the subclasses the checker distinguishes. *)
Inductive SVal :=
  | UndefinedVal
  | UnknownVal
  | nonloc_ConcreteInt (V : Z)
  | nonloc_SymbolVal (sym : SymbolRef)
  | loc_ConcreteInt (V : Z)
  | loc_GotoLabel
  | loc_MemRegionVal (R : MemRegion).

Definition isUndef (V : SVal) : bool :=
  match V with UndefinedVal => true | _ => false end.
Definition isUnknown (V : SVal) : bool :=
  match V with UnknownVal => true | _ => false end.
Definition isUnknownOrUndef (V : SVal) : bool := isUnknown V || isUndef V.

(** [V.getAs<DefinedOrUnknownSVal>()] succeeds. *)
Definition isDefinedOrUnknownSVal (V : SVal) : bool := negb (isUndef V).
(** [V.getAs<DefinedSVal>()] succeeds. *)
Definition isDefinedSVal (V : SVal) : bool := negb (isUnknownOrUndef V).
(** [V.getAs<Loc>()] succeeds. *)
Definition isLoc (V : SVal) : bool :=
  match V with
  | loc_ConcreteInt _ | loc_GotoLabel | loc_MemRegionVal _ => true
  | _ => false
  end.
(** [V.getAs<NonLoc>()] succeeds. *)
Definition isNonLoc (V : SVal) : bool :=
  match V with
  | nonloc_ConcreteInt _ | nonloc_SymbolVal _ => true
  | _ => false
  end.

Definition getAsRegion (V : SVal) : option MemRegion :=
  match V with loc_MemRegionVal R => Some R | _ => None end.

(** [SVal::getAsLocSymbol()] with [IncludeBaseRegions = false]. *)
Definition getAsLocSymbol (V : SVal) : option SymbolRef :=
  match V with
  | loc_MemRegionVal R => StripCasts_asSymbolicRegion R
  | _ => None
  end.

(** [SVal::getAsSymbol()] with [IncludeBaseRegions = false]. *)
Definition getAsSymbol (V : SVal) : option SymbolRef :=
  match V with
  | nonloc_SymbolVal sym => Some sym
  | _ => getAsLocSymbol V
  end.

(** [ConditionTruthVal]: an optional boolean. *)
Abbreviation ConditionTruthVal := (option bool).
Definition isConstrainedTrue (v : ConditionTruthVal) : bool :=
  match v with Some true => true | _ => false end.

(** ** The program state *)

(** The four traits registered with [REGISTER_MAP_WITH_PROGRAMSTATE] and
    [REGISTER_SET_WITH_PROGRAMSTATE], next to the part of the state that the
    engine owns (environment, store, constraints). *)
Record ProgramState (Core : Type) := mkProgramState {
  core : Core;
  RegionState : gmap SymbolRef RefState.t;
  ReallocSizeZeroSymbols : gset SymbolRef;
  ReallocPairs : gmap SymbolRef ReallocPair;
  FreeReturnValue : gmap SymbolRef SymbolRef
}.
Arguments mkProgramState {Core}.
Arguments core {Core}.
Arguments RegionState {Core}.
Arguments ReallocSizeZeroSymbols {Core}.
Arguments ReallocPairs {Core}.
Arguments FreeReturnValue {Core}.

(** [ProgramStateRef]: a reference that may be null. *)
Abbreviation ProgramStateRef Core := (option (ProgramState Core)).

Section StateUpdates.
Context {Core : Type}.
Implicit Type st : ProgramState Core.

(** [state->set<RegionState>(RS)]: replace the whole map. *)
Definition set_RegionStateMap st (RS : gmap SymbolRef RefState.t) :=
  mkProgramState (core st) RS (ReallocSizeZeroSymbols st) (ReallocPairs st)
                 (FreeReturnValue st).

(** [state->set<RegionState>(sym, rs)]. *)
Definition set_RegionState st (sym : SymbolRef) (rs : RefState.t) :=
  set_RegionStateMap st (<[sym := rs]> (RegionState st)).

(** [state->remove<RegionState>(sym)]. *)
Definition remove_RegionState st (sym : SymbolRef) :=
  set_RegionStateMap st (delete sym (RegionState st)).

(** [state->add<ReallocSizeZeroSymbols>(sym)]. *)
Definition add_ReallocSizeZeroSymbols st (sym : SymbolRef) :=
  mkProgramState (core st) (RegionState st)
                 ({[sym]} ∪ ReallocSizeZeroSymbols st) (ReallocPairs st)
                 (FreeReturnValue st).

(** [state->set<ReallocPairs>(sym, p)]. *)
Definition set_ReallocPairs st (sym : SymbolRef) (p : ReallocPair) :=
  mkProgramState (core st) (RegionState st) (ReallocSizeZeroSymbols st)
                 (<[sym := p]> (ReallocPairs st)) (FreeReturnValue st).

(** [state->remove<ReallocPairs>(sym)]. *)
Definition remove_ReallocPairs st (sym : SymbolRef) :=
  mkProgramState (core st) (RegionState st) (ReallocSizeZeroSymbols st)
                 (delete sym (ReallocPairs st)) (FreeReturnValue st).

(** [state->set<FreeReturnValue>(sym, ret)]. *)
Definition set_FreeReturnValue st (sym ret : SymbolRef) :=
  mkProgramState (core st) (RegionState st) (ReallocSizeZeroSymbols st)
                 (ReallocPairs st) (<[sym := ret]> (FreeReturnValue st)).

(** [state->remove<FreeReturnValue>(sym)]. *)
Definition remove_FreeReturnValue st (sym : SymbolRef) :=
  mkProgramState (core st) (RegionState st) (ReallocSizeZeroSymbols st)
                 (ReallocPairs st) (delete sym (FreeReturnValue st)).

End StateUpdates.

(** ** The engine's API *)

Inductive BinaryOperatorKind := BO_And | BO_Mul.

(** The operations of the host engine that the modelled callbacks use.
    [iter] is the traversal order of [llvm::ImmutableMap] (by key address in
    the engine): any enumeration of the entries, each one once. *)
Class Engine := mkEngine {
  Core : Type;
  (** [ConstraintManager::isNull(State, Sym)]; it reads the constraints. *)
  isNull : Core → SymbolRef → ConditionTruthVal;
  (** [State->assume(Cond)], both sides. *)
  assume : ProgramState Core → SVal →
           ProgramStateRef Core * ProgramStateRef Core;
  (** [State->assume(Cond, true)]. *)
  assumeTrue : ProgramState Core → SVal → ProgramStateRef Core;
  (** [SValBuilder::evalEQ(State, L, R)]. *)
  evalEQ : ProgramState Core → SVal → SVal → SVal;
  (** [SValBuilder::evalBinOp] / [evalBinOpNN]. *)
  evalBinOp : ProgramState Core → BinaryOperatorKind → SVal → SVal → SVal;
  (** [State->BindExpr(E, LCtx, V)]. *)
  BindExpr : ProgramState Core → StmtRef → SVal → ProgramState Core;
  (** [State->bindDefaultInitial(loc, V, LCtx)]. *)
  bindDefaultInitial : ProgramState Core → SVal → SVal → ProgramState Core;
  (** [SValBuilder::getConjuredHeapSymbolVal(E, LCtx, Count)]. *)
  getConjuredHeapSymbolVal : StmtRef → SVal;
  (** [SValBuilder::makeIntVal(V, E->getType())]. *)
  makeIntVal : Z → StmtRef → SVal;
  (** [SValBuilder::makeZeroVal(E->getType())]. *)
  makeZeroVal : StmtRef → SVal;
  (** [SymbolicRegion::getExtent]. *)
  getExtent : SymbolRef → SVal;
  (** [SymBase->getType()->isFunctionPointerType()]. *)
  isFunctionPointerType : SymbolRef → bool;
  iter : ∀ A, gmap SymbolRef A → list (SymbolRef * A);
  iter_perm : ∀ A (m : gmap SymbolRef A), iter A m ≡ₚ map_to_list m
}.
Arguments iter {_ A}.

(** ** Expressions, contexts, diagnostics *)

(** [CallExpr], by what the checker asks of it.  [getArg] is not range
    checked, as in the source. *)
Record CallExpr := mkCallExpr {
  CE_stmt : StmtRef;
  getNumArgs : nat;
  getArg : nat → StmtRef;
  (** [Loc::isLocType(CE->getType())]. *)
  isLocType : bool
}.

(** [CXXNewExpr]. *)
Record CXXNewExpr := mkCXXNewExpr {
  NE_stmt : StmtRef;
  isArray : bool;
  getArraySize : StmtRef
}.

(** The expressions handed to [ProcessZeroAllocCheck]. *)
Inductive Expr :=
  | E_CallExpr (CE : CallExpr)
  | E_CXXNewExpr (NE : CXXNewExpr).

Definition Expr_stmt (E : Expr) : StmtRef :=
  match E with
  | E_CallExpr CE => CE_stmt CE
  | E_CXXNewExpr NE => NE_stmt NE
  end.

(** [MallocChecker::CheckKind]. *)
Inductive CheckKind :=
  | CK_MallocChecker
  | CK_NewDeleteChecker
  | CK_NewDeleteLeaksChecker
  | CK_MismatchedDeallocatorChecker
  | CK_InnerPointerChecker.

#[global] Instance CheckKind_eq_dec : EqDecision CheckKind.
Proof. solve_decision. Defined.

(** The bug types of the checker ([BT_DoubleFree], ...). *)
Inductive BugType :=
  | BT_DoubleFree
  | BT_Leak
  | BT_BadFree
  | BT_FreeAlloca
  | BT_MismatchedDealloc
  | BT_OffsetFree.

#[global] Instance BugType_eq_dec : EqDecision BugType.
Proof. solve_decision. Defined.

(** What a callback does besides returning a state: reports handed to
    [C.emitReport] (bug type, check kind, interesting symbol) and calls of
    [SymbolManager::addSymbolDependency]. *)
Inductive Event :=
  | emitReport (BT : BugType) (CK : CheckKind) (Sym : option SymbolRef)
  | addSymbolDependency (Primary Dependent : SymbolRef).

#[global] Instance Event_eq_dec : EqDecision Event.
Proof. solve_decision. Defined.

(** A report of the given bug type, whatever its check kind and symbol. *)
Definition isReportOf (BT : BugType) (e : Event) : bool :=
  match e with
  | emitReport BT' _ _ => bool_decide (BT' = BT)
  | addSymbolDependency _ _ => false
  end.

(** A leak report on the given symbol. *)
Definition isLeakReportOn (Sym : SymbolRef) (e : Event) : bool :=
  match e with
  | emitReport BT_Leak _ (Some Sym') => bool_decide (Sym' = Sym)
  | _ => false
  end.

(** [llvm::Triple::OSType], the four systems the checker knows and the
    rest. *)
Inductive OSType := FreeBSD | NetBSD | OpenBSD | Linux | OtherOS.

(** The data members of [MallocChecker] that the modelled code reads:
    the sub-checker switches and the [mutable] cache of the kernel zero
    flag. *)
Record MallocChecker := mkMallocChecker {
  ChecksEnabled : CheckKind → bool;
  KernelZeroFlagVal : option Z
}.

(** [PointerEscapeKind]. *)
Inductive PointerEscapeKind :=
  | PSK_EscapeOnBind
  | PSK_DirectEscapeOnCall
  | PSK_IndirectEscapeOnCall
  | PSK_EscapeOutParameters
  | PSK_EscapeOther.

#[global] Instance PointerEscapeKind_eq_dec : EqDecision PointerEscapeKind.
Proof. solve_decision. Defined.

(** The outcome of [mayFreeAnyEscapedMemoryOrIsModeledExplicitly(Call,
    State, EscapingSymbol)] on the call at hand: its result and what it
    stores in [EscapingSymbol]. *)
Record EscapePolicy := mkEscapePolicy {
  mayFreeAnyEscapedMemoryOrIsModeledExplicitly : bool;
  EscapingSymbol : option SymbolRef
}.

(** [CheckerContext], by what the checker asks of it. *)
Record CheckerContext {eng : Engine} := mkCheckerContext {
  (** [C.getState()]. *)
  getState : ProgramState Core;
  (** [C.getSVal(E)]. *)
  getSVal : StmtRef → SVal;
  (** [C.generateErrorNode()] yields a node. *)
  generateErrorNode : bool;
  (** [C.generateNonFatalErrorNode(...)] yields a node. *)
  generateNonFatalErrorNode : bool;
  (** [C.getASTContext().getTargetInfo().getTriple().getOS()]. *)
  getOS : OSType;
  (** The static [getAllocationFamily(MemFunctionInfo, C, S)]: the family
      of the allocator or deallocator that statement [S] calls. *)
  getAllocationFamily : StmtRef → AllocationFamily
}.

(** ** The assumption hook *)

Section Checker.
Context {eng : Engine}.
Abbreviation State := (ProgramState Core).
Abbreviation StateRef := (option (ProgramState Core)).

(** The test [CMgr.isNull(state, Sym).isConstrainedTrue()]. *)
Definition AllocFailed (state : State) (Sym : SymbolRef) : bool :=
  isConstrainedTrue (isNull (core state) Sym).

(** Body of the first loop of [evalAssume]: a tracked symbol that is
    assumed to be null is removed from consideration. *)
Definition evalAssume_RegionState_body
    (state : State) (I : SymbolRef * RefState.t) : State :=
  if AllocFailed state I.1 then remove_RegionState state I.1 else state.

(** Body of the second loop of [evalAssume]: realloc returned null, the
    pointer being reallocated gets its state back. *)
Definition evalAssume_ReallocPairs_body
    (state : State) (I : SymbolRef * ReallocPair) : State :=
  if negb (AllocFailed state I.1) then state
  else
    let ReallocSym := ReallocatedSym I.2 in
    let state :=
      match RegionState state !! ReallocSym with
      | Some RS =>
          if RefState.isReleased RS then
            match Kind I.2 with
            | OAR_ToBeFreedAfterFailure =>
                set_RegionState state ReallocSym
                  (RefState.getAllocated (RefState.getAllocationFamily RS)
                                         (RefState.getStmt RS))
            | OAR_DoNotTrackAfterFailure =>
                remove_RegionState state ReallocSym
            | OAR_FreeOnFailure => state
            end
          else state
      | None => state
      end in
    remove_ReallocPairs state I.1.

(** The first loop of [evalAssume], over the region table as it is on
    entry. *)
Definition evalAssume_RegionState_loop (state : State) : State :=
  let RS := RegionState state in
  foldl evalAssume_RegionState_body state (iter RS).

(** The second loop of [evalAssume], over the realloc pairs. *)
Definition evalAssume_ReallocPairs_loop (state : State) : State :=
  let RP := ReallocPairs state in
  foldl evalAssume_ReallocPairs_body state (iter RP).

(** [MallocChecker::evalAssume]. *)
Definition evalAssume (state : State) (Cond : SVal) (Assumption : bool)
    : State :=
  evalAssume_ReallocPairs_loop (evalAssume_RegionState_loop state).

(** What one iteration of the second loop makes of the record of the
    from-pointer. *)
Definition restoreOnFailure (k : OwnershipAfterReallocKind)
    (o : option RefState.t) : option RefState.t :=
  match o with
  | Some RS =>
      if RefState.isReleased RS then
        match k with
        | OAR_ToBeFreedAfterFailure =>
            Some (RefState.getAllocated (RefState.getAllocationFamily RS)
                                        (RefState.getStmt RS))
        | OAR_DoNotTrackAfterFailure => None
        | OAR_FreeOnFailure => Some RS
        end
      else Some RS
  | None => None
  end.

(** A record that is absent, or present in another state than
    [Released]. *)
Definition notReleased (o : option RefState.t) : Prop :=
  ∀ RS, o = Some RS → RefState.isReleased RS = false.

(** ** Allocation *)

(** [SValBuilder::makeZeroVal(Ctx.CharTy)]. *)
Definition ZeroVal_CharTy : SVal := nonloc_ConcreteInt 0.

(** [MallocUpdateRefState]: set the symbol of the return value to
    [Allocated].  [assert(Sym)] stands where the embedding gives no state. *)
Definition MallocUpdateRefState (C : CheckerContext) (E : StmtRef)
    (State : StateRef) (Family : AllocationFamily) (RetVal : option SVal)
    : StateRef :=
  match State with
  | None => None
  | Some State =>
      let RetVal := default (getSVal C E) RetVal in
      if negb (isLoc RetVal) then None
      else
        match getAsLocSymbol RetVal with
        | None => None
        | Some Sym =>
            Some (set_RegionState State Sym (RefState.getAllocated Family E))
        end
  end.

(** [MallocChecker::MallocMemAux], the overload that takes the size as an
    [SVal]. *)
Definition MallocMemAux (C : CheckerContext) (CE : CallExpr)
    (Size Init : SVal) (State : StateRef) (Family : AllocationFamily)
    : StateRef :=
  match State with
  | None => None
  | Some State =>
      (* We expect the malloc functions to return a pointer. *)
      if negb (isLocType CE) then None
      else
        let RetVal := getConjuredHeapSymbolVal (CE_stmt CE) in
        let State := BindExpr State (CE_stmt CE) RetVal in
        let State := bindDefaultInitial State RetVal Init in
        match getAsRegion RetVal ≫= asSymbolicRegion with
        | None => None
        | Some R =>
            let State :=
              if isDefinedOrUnknownSVal Size
              then assumeTrue State (evalEQ State (getExtent R) Size)
              else Some State in
            MallocUpdateRefState C (CE_stmt CE) State Family None
        end
  end.

(** [MallocChecker::MallocMemAux], the overload that takes the size as an
    expression. *)
Definition MallocMemAux_Expr (C : CheckerContext) (CE : CallExpr)
    (SizeEx : StmtRef) (Init : SVal) (State : StateRef)
    (Family : AllocationFamily) : StateRef :=
  match State with
  | None => None
  | Some _ => MallocMemAux C CE (getSVal C SizeEx) Init State Family
  end.

(** ** Diagnostics *)

(** [getCheckIfTracked(Family, IsALeakCheck)]. *)
Definition getCheckIfTracked (this : MallocChecker)
    (Family : AllocationFamily) (IsALeakCheck : bool) : option CheckKind :=
  match Family with
  | AF_Malloc | AF_Alloca | AF_IfNameIndex =>
      if ChecksEnabled this CK_MallocChecker then Some CK_MallocChecker
      else None
  | AF_CXXNew | AF_CXXNewArray =>
      if IsALeakCheck then
        if ChecksEnabled this CK_NewDeleteLeaksChecker
        then Some CK_NewDeleteLeaksChecker else None
      else
        if ChecksEnabled this CK_NewDeleteChecker
        then Some CK_NewDeleteChecker else None
  | AF_InnerBuffer =>
      if ChecksEnabled this CK_InnerPointerChecker
      then Some CK_InnerPointerChecker else None
  | AF_None => None
  end.

(** [getCheckIfTracked(C, AllocDeallocStmt, IsALeakCheck)]. *)
Definition getCheckIfTracked_Stmt (this : MallocChecker) (C : CheckerContext)
    (AllocDeallocStmt : StmtRef) (IsALeakCheck : bool) : option CheckKind :=
  getCheckIfTracked this (getAllocationFamily C AllocDeallocStmt) IsALeakCheck.

(** [getCheckIfTracked(C, Sym, IsALeakCheck)]; it reads [C.getState()]. *)
Definition getCheckIfTracked_Sym (this : MallocChecker) (C : CheckerContext)
    (Sym : SymbolRef) (IsALeakCheck : bool) : option CheckKind :=
  if bool_decide (Sym ∈ ReallocSizeZeroSymbols (getState C))
  then Some CK_MallocChecker
  else
    match RegionState (getState C) !! Sym with
    | Some RS =>
        getCheckIfTracked this (RefState.getAllocationFamily RS) IsALeakCheck
    | None => None
    end.

(** The tail shared by the reports: a report is emitted when the engine
    yields an error node. *)
Definition reportOn (C : CheckerContext) (BT : BugType)
    (CheckKind : option CheckKind) (Sym : option SymbolRef) : list Event :=
  match CheckKind with
  | None => []
  | Some CK => if generateErrorNode C then [emitReport BT CK Sym] else []
  end.

(** [MallocChecker::ReportBadFree]. *)
Definition ReportBadFree (this : MallocChecker) (C : CheckerContext)
    (DeallocExpr : StmtRef) : list Event :=
  if negb (ChecksEnabled this CK_MallocChecker) &&
     negb (ChecksEnabled this CK_NewDeleteChecker)
  then []
  else reportOn C BT_BadFree
         (getCheckIfTracked_Stmt this C DeallocExpr false) None.

(** [MallocChecker::ReportFreeAlloca]. *)
Definition ReportFreeAlloca (this : MallocChecker) (C : CheckerContext)
    : list Event :=
  if ChecksEnabled this CK_MallocChecker
  then reportOn C BT_FreeAlloca (Some CK_MallocChecker) None
  else if ChecksEnabled this CK_MismatchedDeallocatorChecker
  then reportOn C BT_FreeAlloca (Some CK_MismatchedDeallocatorChecker) None
  else [].

(** [MallocChecker::ReportMismatchedDealloc]. *)
Definition ReportMismatchedDealloc (this : MallocChecker)
    (C : CheckerContext) (Sym : SymbolRef) : list Event :=
  if negb (ChecksEnabled this CK_MismatchedDeallocatorChecker) then []
  else reportOn C BT_MismatchedDealloc
         (Some CK_MismatchedDeallocatorChecker) (Some Sym).

(** [MallocChecker::ReportOffsetFree]. *)
Definition ReportOffsetFree (this : MallocChecker) (C : CheckerContext)
    (AllocExpr : StmtRef) : list Event :=
  if negb (ChecksEnabled this CK_MallocChecker) &&
     negb (ChecksEnabled this CK_NewDeleteChecker)
  then []
  else reportOn C BT_OffsetFree
         (getCheckIfTracked_Stmt this C AllocExpr false) None.

(** [MallocChecker::ReportDoubleFree]. *)
Definition ReportDoubleFree (this : MallocChecker) (C : CheckerContext)
    (Sym : SymbolRef) : list Event :=
  if negb (ChecksEnabled this CK_MallocChecker) &&
     negb (ChecksEnabled this CK_NewDeleteChecker)
  then []
  else reportOn C BT_DoubleFree
         (getCheckIfTracked_Sym this C Sym false) (Some Sym).

(** [MallocChecker::ReportFunctionPointerFree]. *)
Definition ReportFunctionPointerFree (this : MallocChecker)
    (C : CheckerContext) (FreeExpr : StmtRef) : list Event :=
  if negb (ChecksEnabled this CK_MallocChecker) then []
  else reportOn C BT_BadFree
         (getCheckIfTracked_Stmt this C FreeExpr false) None.

(** ** Deallocation *)

(** [didPreviousFreeFail]: the result, and the symbol stored in
    [RetStatusSymbol]. *)
Definition didPreviousFreeFail (State : State) (Sym : SymbolRef)
    : bool * option SymbolRef :=
  match FreeReturnValue State !! Sym with
  | Some Ret => (isConstrainedTrue (isNull (core State) Ret), Some Ret)
  | None => (false, None)
  end.

(** The checks of [FreeMemAux] under [if (RsBase)].  [Some evs]: one of them
    called a report function, with events [evs], and the function returns
    [nullptr]; [None]: control leaves the block. *)
Definition FreeMemAux_RsBase (this : MallocChecker) (C : CheckerContext)
    (ParentExpr : StmtRef) (State : State) (R : MemRegion)
    (SymBase : SymbolRef) (RsBase : RefState.t) : option (list Event) :=
  (* Memory returned by alloca() shouldn't be freed. *)
  if bool_decide (RefState.getAllocationFamily RsBase = AF_Alloca) then
    Some (ReportFreeAlloca this C)
  (* Check for double free first. *)
  else if (RefState.isReleased RsBase || RefState.isRelinquished RsBase) &&
          negb (didPreviousFreeFail State SymBase).1 then
    Some (ReportDoubleFree this C SymBase)
  else if RefState.isAllocated RsBase ||
          RefState.isAllocatedOfSizeZero RsBase ||
          RefState.isEscaped RsBase then
    let DeallocMatchesAlloc :=
      bool_decide (RefState.getAllocationFamily RsBase
                   = getAllocationFamily C ParentExpr) in
    if negb DeallocMatchesAlloc then
      Some (ReportMismatchedDealloc this C SymBase)
    else
      let Offset := getAsOffset R in
      if isValid Offset && negb (hasSymbolicOffset Offset) &&
         negb (getOffset Offset =? 0)%Z
      then Some (ReportOffsetFree this C (RefState.getStmt RsBase))
      else None
  else None.

(** [FreeMemAux] from the lookup of the base symbol on: the checks on its
    record, the check of a function pointer, and the update of the tables.
    The result is the returned state, the value stored in the reference
    parameter [IsKnownToBeAllocated], and the events. *)
Definition FreeMemAux_SymBase (this : MallocChecker) (C : CheckerContext)
    (ParentExpr : StmtRef) (State : State) (R : MemRegion)
    (SymBase : SymbolRef) (Hold : bool) (ReturnsNullOnFailure : bool)
    : StateRef * bool * list Event :=
  let RsBase := RegionState State !! SymBase in
  let IsKnownToBeAllocated :=
    match RsBase with
    | Some RsBase => RefState.isAllocated RsBase ||
                     RefState.isAllocatedOfSizeZero RsBase
    | None => false
    end in
  match RsBase ≫= FreeMemAux_RsBase this C ParentExpr State R SymBase with
  | Some evs => (None, IsKnownToBeAllocated, evs)
  | None =>
    if isFunctionPointerType SymBase
    then (None, IsKnownToBeAllocated,
          ReportFunctionPointerFree this C ParentExpr)
    else
      (* Clean out the info on previous call to free return info. *)
      let State := remove_FreeReturnValue State SymBase in
      (* Keep track of the return value. *)
      let '(State, evs) :=
        if ReturnsNullOnFailure then
          match getAsSymbol (getSVal C ParentExpr) with
          | Some RetStatusSymbol =>
              (set_FreeReturnValue State SymBase RetStatusSymbol,
               [addSymbolDependency SymBase RetStatusSymbol])
          | None => (State, [])
          end
        else (State, []) in
      let Family :=
        match RsBase with
        | Some RsBase => RefState.getAllocationFamily RsBase
        | None => getAllocationFamily C ParentExpr
        end in
      if Hold then
        (Some (set_RegionState State SymBase
                 (RefState.getRelinquished Family ParentExpr)),
         IsKnownToBeAllocated, evs)
      else
        (Some (set_RegionState State SymBase
                 (RefState.getReleased Family ParentExpr)),
         IsKnownToBeAllocated, evs)
  end.

(** [MallocChecker::FreeMemAux], the overload that takes the argument
    expression: from the value of the argument to its base symbol, then
    [FreeMemAux_SymBase].  Where the function returns before it assigns
    [IsKnownToBeAllocated], the reference parameter keeps its value. *)
Definition FreeMemAux_Expr (this : MallocChecker) (C : CheckerContext)
    (ArgExpr ParentExpr : StmtRef) (State : StateRef) (Hold : bool)
    (IsKnownToBeAllocated : bool) (ReturnsNullOnFailure : bool)
    : StateRef * bool * list Event :=
  match State with
  | None => (None, IsKnownToBeAllocated, [])
  | Some State =>
    let ArgVal := getSVal C ArgExpr in
    if negb (isDefinedOrUnknownSVal ArgVal)
    then (None, IsKnownToBeAllocated, [])
    else if negb (isLoc ArgVal) then (None, IsKnownToBeAllocated, [])
    else
      (* The explicit NULL case, no operation is performed. *)
      let '(notNullState, nullState) := assume State ArgVal in
      if bool_decide (is_Some nullState) &&
         negb (bool_decide (is_Some notNullState))
      then (None, IsKnownToBeAllocated, [])
      else if isUnknownOrUndef ArgVal then (None, IsKnownToBeAllocated, [])
      else
        match getAsRegion ArgVal with
        | None => (None, IsKnownToBeAllocated, ReportBadFree this C ParentExpr)
        | Some R =>
          if isBlockDataRegion R
          then (None, IsKnownToBeAllocated, ReportBadFree this C ParentExpr)
          else
            match getMemorySpace R with
            | OtherSpaceRegion =>
                (None, IsKnownToBeAllocated,
                 if isAllocaRegion R then ReportFreeAlloca this C
                 else ReportBadFree this C ParentExpr)
            | UnknownSpaceRegion | HeapSpaceRegion =>
              match getBaseRegion_asSymbolicRegion R with
              | None => (None, IsKnownToBeAllocated, [])
              | Some SymBase =>
                  FreeMemAux_SymBase this C ParentExpr State R SymBase Hold
                                     ReturnsNullOnFailure
              end
            end
        end
  end.

(** [MallocChecker::FreeMemAux], the overload that takes the call and the
    index of the argument. *)
Definition FreeMemAux (this : MallocChecker) (C : CheckerContext)
    (CE : CallExpr) (State : StateRef) (Num : nat) (Hold : bool)
    (IsKnownToBeAllocated : bool) (ReturnsNullOnFailure : bool)
    : StateRef * bool * list Event :=
  match State with
  | None => (None, IsKnownToBeAllocated, [])
  | Some _ =>
      if getNumArgs CE <? Num + 1 then (None, IsKnownToBeAllocated, [])
      else FreeMemAux_Expr this C (getArg CE Num) (CE_stmt CE) State Hold
                           IsKnownToBeAllocated ReturnsNullOnFailure
  end.

(** ** Reallocation *)

(** [MallocChecker::evalMulForBufferSize]. *)
Definition evalMulForBufferSize (C : CheckerContext)
    (Blocks BlockBytes : StmtRef) : SVal :=
  evalBinOp (getState C) BO_Mul (getSVal C Blocks) (getSVal C BlockBytes).

(** The policy chosen in the default case of [ReallocMemAux]. *)
Definition ReallocMemAux_Kind (ShouldFreeOnFail IsKnownToBeAllocated : bool)
    : OwnershipAfterReallocKind :=
  if ShouldFreeOnFail then OAR_FreeOnFailure
  else if negb IsKnownToBeAllocated then OAR_DoNotTrackAfterFailure
  else OAR_ToBeFreedAfterFailure.

(** [MallocChecker::ReallocMemAux]. *)
Definition ReallocMemAux (this : MallocChecker) (C : CheckerContext)
    (CE : CallExpr) (ShouldFreeOnFail : bool) (State : StateRef)
    (SuffixWithN : bool) : StateRef * list Event :=
  match State with
  | None => (None, [])
  | Some State =>
    if SuffixWithN && (getNumArgs CE <? 3) then (None, [])
    else if getNumArgs CE <? 2 then (None, [])
    else
      let arg0Expr := getArg CE 0 in
      let Arg0Val := getSVal C arg0Expr in
      if negb (isDefinedOrUnknownSVal Arg0Val) then (None, [])
      else
        let PtrEQ := evalEQ State Arg0Val (loc_ConcreteInt 0) in
        let Arg1 := getArg CE 1 in
        let TotalSize :=
          if SuffixWithN then evalMulForBufferSize C Arg1 (getArg CE 2)
          else getSVal C Arg1 in
        if negb (isDefinedOrUnknownSVal TotalSize) then (None, [])
        else
          let SizeZero := evalEQ State TotalSize (nonloc_ConcreteInt 0) in
          let '(StatePtrIsNull, StatePtrNotNull) := assume State PtrEQ in
          let '(StateSizeIsZero, StateSizeNotZero) := assume State SizeZero in
          let PrtIsNull := bool_decide (is_Some StatePtrIsNull) &&
                           negb (bool_decide (is_Some StatePtrNotNull)) in
          let SizeIsZero := bool_decide (is_Some StateSizeIsZero) &&
                            negb (bool_decide (is_Some StateSizeNotZero)) in
          if PrtIsNull && negb SizeIsZero then
            (MallocMemAux C CE TotalSize UndefinedVal StatePtrIsNull AF_Malloc,
             [])
          else if PrtIsNull && SizeIsZero then (Some State, [])
          else
            match getAsSymbol Arg0Val, getAsSymbol (getSVal C (CE_stmt CE)) with
            | Some FromPtr, Some ToPtr =>
              let IsKnownToBeAllocated := false in
              (* If the size is 0, free the memory. *)
              let '(stateFree0, IsKnownToBeAllocated, evs0) :=
                if SizeIsZero
                then FreeMemAux this C CE StateSizeIsZero 0 false
                                IsKnownToBeAllocated false
                else (None, IsKnownToBeAllocated, []) in
              match stateFree0 with
              | Some stateFree => (Some stateFree, evs0)
              | None =>
                (* Default behavior. *)
                let '(stateFree, IsKnownToBeAllocated, evs1) :=
                  FreeMemAux this C CE (Some State) 0 false
                             IsKnownToBeAllocated false in
                match stateFree with
                | None => (None, evs0 ++ evs1)
                | Some _ =>
                  match MallocMemAux C CE TotalSize UnknownVal stateFree
                                     AF_Malloc with
                  | None => (None, evs0 ++ evs1)
                  | Some stateRealloc =>
                    let Kind := ReallocMemAux_Kind ShouldFreeOnFail
                                                   IsKnownToBeAllocated in
                    (Some (set_ReallocPairs stateRealloc ToPtr
                             (mkReallocPair FromPtr Kind)),
                     evs0 ++ evs1 ++ [addSymbolDependency ToPtr FromPtr])
                  end
                end
              end
            | _, _ => (None, [])
            end
  end.

(** ** The zero-size check *)

(** The size argument that [ProcessZeroAllocCheck] picks: argument
    [IndexOfSizeArg] of a call, the array size of an array new-expression,
    none for another new-expression. *)
Definition ProcessZeroAllocCheck_Arg (E : Expr) (IndexOfSizeArg : nat)
    : option StmtRef :=
  match E with
  | E_CallExpr CE => Some (getArg CE IndexOfSizeArg)
  | E_CXXNewExpr NE => if isArray NE then Some (getArraySize NE) else None
  end.

(** [MallocChecker::ProcessZeroAllocCheck]. *)
Definition ProcessZeroAllocCheck (C : CheckerContext) (E : Expr)
    (IndexOfSizeArg : nat) (State : StateRef) (RetVal : option SVal)
    : StateRef :=
  match State with
  | None => None
  | Some State =>
    let RetVal := default (getSVal C (Expr_stmt E)) RetVal in
    match ProcessZeroAllocCheck_Arg E IndexOfSizeArg with
    | None => Some State
    | Some Arg =>
      let ArgVal := getSVal C Arg in
      if negb (isDefinedSVal ArgVal) then Some State
      else
        (* Check if the allocation size is 0. *)
        let Zero := makeZeroVal Arg in
        let '(TrueState, FalseState) :=
          assume State (evalEQ State ArgVal Zero) in
        match TrueState, FalseState with
        | Some TrueState, None =>
          match getAsLocSymbol RetVal with
          | None => Some State
          | Some Sym =>
            match RegionState State !! Sym with
            | Some RS =>
                if RefState.isAllocated RS then
                  Some (set_RegionState TrueState Sym
                          (RefState.getAllocatedOfSizeZero RS))
                else Some State
            | None => Some (add_ReallocSizeZeroSymbols TrueState Sym)
            end
          end
        | _, _ =>
          (* Assume the value is non-zero going forward. *)
          FalseState
        end
    end
  end.

(** ** Kernel allocators *)

(** The zero flag of the kernel allocator of each system: [M_ZERO] on the
    BSDs, [__GFP_ZERO] on Linux. *)
Definition KernelZeroFlagOf (OS : OSType) : option Z :=
  match OS with
  | FreeBSD => Some 0x0100%Z
  | NetBSD => Some 0x0002%Z
  | OpenBSD => Some 0x0008%Z
  | Linux => Some 0x8000%Z
  | OtherOS => None
  end.

(** [MallocChecker::performKernelMalloc].  The result is the optional
    state and the value left in the cache [KernelZeroFlagVal]. *)
Definition performKernelMalloc (this : MallocChecker) (CE : CallExpr)
    (C : CheckerContext) (State : State) : option StateRef * option Z :=
  let OS := getOS C in
  let KernelZeroFlagVal :=
    match KernelZeroFlagVal this with
    | Some v => Some v
    | None => KernelZeroFlagOf OS
    end in
  match KernelZeroFlagVal with
  | None =>
      (* Fall back to normal malloc behavior on platforms where we don't
         know M_ZERO. *)
      (None, KernelZeroFlagVal)
  | Some ZeroFlagVal =>
    if getNumArgs CE <? 2 then (None, KernelZeroFlagVal)
    else
      let FlagsEx := getArg CE (getNumArgs CE - 1) in
      let V := getSVal C FlagsEx in
      if negb (isNonLoc V) then (None, KernelZeroFlagVal)
      else
        let Flags := V in
        let ZeroFlag := makeIntVal ZeroFlagVal FlagsEx in
        let MaskedFlagsUC := evalBinOp State BO_And Flags ZeroFlag in
        if isUnknownOrUndef MaskedFlagsUC then (None, KernelZeroFlagVal)
        else
          let MaskedFlags := MaskedFlagsUC in
          (* Check if maskedFlags is non-zero. *)
          let '(TrueState, FalseState) := assume State MaskedFlags in
          (* If M_ZERO is set, treat this like calloc (initialized). *)
          match TrueState, FalseState with
          | Some TrueState, None =>
              (Some (MallocMemAux_Expr C CE (getArg CE 0) ZeroVal_CharTy
                                       (Some TrueState) AF_Malloc),
               KernelZeroFlagVal)
          | _, _ => (None, KernelZeroFlagVal)
          end
  end.

(** The arm of [checkPostStmt] for call expressions shared by malloc with
    three arguments and by kmalloc: [performKernelMalloc], and ordinary
    malloc modelling when it yields nothing. *)
Definition checkPostStmt_KernelMalloc (this : MallocChecker) (CE : CallExpr)
    (C : CheckerContext) (State : State) : StateRef * option Z :=
  let '(MaybeState, KernelZeroFlagVal) := performKernelMalloc this CE C State in
  match MaybeState with
  | Some State' => (State', KernelZeroFlagVal)
  | None =>
      (MallocMemAux_Expr C CE (getArg CE 0) UndefinedVal (Some State)
                         AF_Malloc,
       KernelZeroFlagVal)
  end.

(** ** Dead symbols and leaks *)

(** [MallocChecker::reportLeak]. *)
Definition reportLeak (this : MallocChecker) (C : CheckerContext)
    (Sym : SymbolRef) : list Event :=
  if negb (ChecksEnabled this CK_MallocChecker) &&
     negb (ChecksEnabled this CK_NewDeleteLeaksChecker)
  then []
  else
    match RegionState (getState C) !! Sym with
    | None => []
    | Some RS =>
        let Family := RefState.getAllocationFamily RS in
        if bool_decide (Family = AF_Alloca) then []
        else
          match getCheckIfTracked this Family true with
          | None => []
          | Some CheckKind => [emitReport BT_Leak CheckKind (Some Sym)]
          end
    end.

(** A tracked symbol leaks when it dies [Allocated] or
    [AllocatedOfSizeZero]. *)
Definition leaks (isDead : SymbolRef → bool) (I : SymbolRef * RefState.t)
    : bool :=
  isDead I.1 &&
  (RefState.isAllocated I.2 || RefState.isAllocatedOfSizeZero I.2).

(** Body of the first loop of [checkDeadSymbols], on the pair of [RS] and
    [Errors]. *)
Definition checkDeadSymbols_RegionState_body (isDead : SymbolRef → bool)
    (acc : gmap SymbolRef RefState.t * list SymbolRef)
    (I : SymbolRef * RefState.t)
    : gmap SymbolRef RefState.t * list SymbolRef :=
  let '(RS, Errors) := acc in
  if isDead I.1 then
    let Errors :=
      if RefState.isAllocated I.2 || RefState.isAllocatedOfSizeZero I.2
      then Errors ++ [I.1] else Errors in
    (* Remove the dead symbol from the map. *)
    (delete I.1 RS, Errors)
  else (RS, Errors).

(** The first loop of [checkDeadSymbols]: the cleaned region table and the
    leak candidates. *)
Definition checkDeadSymbols_RegionState_loop (isDead : SymbolRef → bool)
    (OldRS : gmap SymbolRef RefState.t)
    : gmap SymbolRef RefState.t * list SymbolRef :=
  foldl (checkDeadSymbols_RegionState_body isDead) (OldRS, []) (iter OldRS).

(** Cleanup of the realloc pairs map. *)
Definition checkDeadSymbols_ReallocPairs_body (isDead : SymbolRef → bool)
    (state : State) (I : SymbolRef * ReallocPair) : State :=
  if isDead I.1 || isDead (ReallocatedSym I.2)
  then remove_ReallocPairs state I.1 else state.

(** Cleanup of the FreeReturnValue map. *)
Definition checkDeadSymbols_FreeReturnValue_body (isDead : SymbolRef → bool)
    (state : State) (I : SymbolRef * SymbolRef) : State :=
  if isDead I.1 || isDead I.2
  then remove_FreeReturnValue state I.1 else state.

(** [MallocChecker::checkDeadSymbols].  [isDead] is [SymReaper.isDead].
    The result is the state of the transition that is added ([None] when
    the callback returns without one) and the events. *)
Definition checkDeadSymbols (this : MallocChecker)
    (isDead : SymbolRef → bool) (C : CheckerContext)
    : StateRef * list Event :=
  let state := getState C in
  let OldRS := RegionState state in
  let '(RS, Errors) := checkDeadSymbols_RegionState_loop isDead OldRS in
  if bool_decide (RS = OldRS) then (None, [])
  else
    let RP := ReallocPairs state in
    let state :=
      foldl (checkDeadSymbols_ReallocPairs_body isDead) state (iter RP) in
    let FR := FreeReturnValue state in
    let state :=
      foldl (checkDeadSymbols_FreeReturnValue_body isDead) state (iter FR) in
    (* Generate leak node. *)
    let evs :=
      if bool_decide (Errors ≠ []) && generateNonFatalErrorNode C
      then Errors ≫= reportLeak this C
      else [] in
    (Some (set_RegionStateMap state RS), evs).

(** ** Pointer escape *)

(** [checkIfNewOrNewArrayFamily]. *)
Definition checkIfNewOrNewArrayFamily (RS : RefState.t) : bool :=
  bool_decide (RefState.getAllocationFamily RS = AF_CXXNewArray) ||
  bool_decide (RefState.getAllocationFamily RS = AF_CXXNew).

(** Body of the loop of [checkPointerEscapeAux]. *)
Definition checkPointerEscapeAux_body (EscapingSymbol : option SymbolRef)
    (IsConstPointerEscape : bool) (State : State) (sym : SymbolRef) : ProgramState Core :=
  if bool_decide (is_Some EscapingSymbol) &&
     negb (bool_decide (EscapingSymbol = Some sym))
  then State
  else
    match RegionState State !! sym with
    | Some RS =>
        if (RefState.isAllocated RS || RefState.isAllocatedOfSizeZero RS) &&
           (negb IsConstPointerEscape || checkIfNewOrNewArrayFamily RS)
        then set_RegionState State sym (RefState.getEscaped RS)
        else State
    | None => State
    end.

(** The record that the loop body leaves for a symbol it visits. *)
Definition escapeRecord (IsConstPointerEscape : bool)
    (o : option RefState.t) : option RefState.t :=
  match o with
  | Some RS =>
      if (RefState.isAllocated RS || RefState.isAllocatedOfSizeZero RS) &&
         (negb IsConstPointerEscape || checkIfNewOrNewArrayFamily RS)
      then Some (RefState.getEscaped RS) else Some RS
  | None => None
  end.

(** The test on [EscapingSymbol] in the loop: no symbol is singled out, or
    this one is. *)
Definition isEscaping (EscapingSymbol : option SymbolRef) (sym : SymbolRef)
    : bool :=
  negb (bool_decide (is_Some EscapingSymbol) &&
        negb (bool_decide (EscapingSymbol = Some sym))).

(** [MallocChecker::checkPointerEscapeAux].  [Escaped] is the traversal of
    the set of invalidated symbols; [Call] is what the escape policy
    answers for the call. *)
Definition checkPointerEscapeAux (State : State) (Escaped : list SymbolRef)
    (Call : EscapePolicy) (Kind : PointerEscapeKind)
    (IsConstPointerEscape : bool) : ProgramState Core :=
  let direct := bool_decide (Kind = PSK_DirectEscapeOnCall) in
  (* The policy is only asked on a direct escape on a call. *)
  let EscapingSymbol := if direct then EscapingSymbol Call else None in
  if direct &&
     negb (mayFreeAnyEscapedMemoryOrIsModeledExplicitly Call) &&
     negb (bool_decide (is_Some EscapingSymbol))
  then State
  else
    foldl (checkPointerEscapeAux_body EscapingSymbol IsConstPointerEscape)
          State Escaped.

(** [MallocChecker::checkPointerEscape]. *)
Definition checkPointerEscape (State : State) (Escaped : list SymbolRef)
    (Call : EscapePolicy) (Kind : PointerEscapeKind) : ProgramState Core :=
  checkPointerEscapeAux State Escaped Call Kind false.

(** [MallocChecker::checkConstPointerEscape]. *)
Definition checkConstPointerEscape (State : State) (Escaped : list SymbolRef)
    (Call : EscapePolicy) (Kind : PointerEscapeKind) : ProgramState Core :=
  checkPointerEscapeAux State Escaped Call Kind true.

(** ** Notions used in the statements about [FreeMemAux] *)

(** The call reaches the lookup of the base symbol: the argument is a
    region that is not known to be null, is no block, lies in the unknown or
    the heap space, and has a symbolic base. *)
Definition reachesSymBase (C : CheckerContext) (ArgExpr : StmtRef)
    (State : State) (R : MemRegion) (SymBase : SymbolRef) : Prop :=
  getSVal C ArgExpr = loc_MemRegionVal R ∧
  bool_decide (is_Some (assume State (loc_MemRegionVal R)).2) &&
    negb (bool_decide (is_Some (assume State (loc_MemRegionVal R)).1))
    = false ∧
  isBlockDataRegion R = false ∧
  getMemorySpace R ≠ OtherSpaceRegion ∧
  getBaseRegion_asSymbolicRegion R = Some SymBase.

(** [FreeMemAux] calls [ReportDoubleFree]: the record is not of the alloca
    family, it is [Released] or [Relinquished], and the previous free did
    not definitely fail. *)
Definition requestsDoubleFree (State : State) (SymBase : SymbolRef)
    (RsBase : RefState.t) : bool :=
  negb (bool_decide (RefState.getAllocationFamily RsBase = AF_Alloca)) &&
  (RefState.isReleased RsBase || RefState.isRelinquished RsBase) &&
  negb (didPreviousFreeFail State SymBase).1.


End Checker.

(** ** A small engine

    An instance of the engine's API on which the callbacks can be run:
    the constraints record which symbols are known to be null or non-null,
    concrete integers are decided, everything else is left open. *)

Definition toyRegion (sym : SymbolRef) : MemRegion :=
  mkMemRegion (Some sym) (Some sym) false false HeapSpaceRegion (Some sym)
              (mkRegionOffset true false 0).

Definition toyEngine : Engine := {|
  Core := gmap SymbolRef bool;
  isNull c sym := c !! sym;
  assume st V :=
    match V with
    | nonloc_ConcreteInt z | loc_ConcreteInt z =>
        if (z =? 0)%Z then (None, Some st) else (Some st, None)
    | _ => (Some st, Some st)
    end;
  assumeTrue st V := Some st;
  evalEQ st L R :=
    match L, R with
    | nonloc_ConcreteInt x, nonloc_ConcreteInt y =>
        nonloc_ConcreteInt (if (x =? y)%Z then 1 else 0)
    | _, _ => UnknownVal
    end;
  evalBinOp st op L R :=
    match op, L, R with
    | BO_And, nonloc_ConcreteInt x, nonloc_ConcreteInt y =>
        nonloc_ConcreteInt (Z.land x y)
    | BO_Mul, nonloc_ConcreteInt x, nonloc_ConcreteInt y =>
        nonloc_ConcreteInt (x * y)
    | _, _, _ => UnknownVal
    end;
  BindExpr st E V := st;
  bindDefaultInitial st L V := st;
  getConjuredHeapSymbolVal E := loc_MemRegionVal (toyRegion E);
  makeIntVal V E := nonloc_ConcreteInt V;
  makeZeroVal E := nonloc_ConcreteInt 0;
  getExtent sym := UnknownVal;
  isFunctionPointerType sym := false;
  iter A m := map_to_list m;
  iter_perm A m := reflexivity (map_to_list m)
|}.

(** A state of the small engine. *)
Definition toyState (c : gmap SymbolRef bool)
    (RS : gmap SymbolRef RefState.t) (RP : gmap SymbolRef ReallocPair)
    (FR : gmap SymbolRef SymbolRef) : @ProgramState (@Core toyEngine) :=
  mkProgramState c RS ∅ RP FR.

(** A context of the small engine: every expression [E] evaluates to the
    heap region of symbol [E], except those listed in [vals]. *)
Definition toyContext (st : @ProgramState (@Core toyEngine))
    (vals : gmap StmtRef SVal) (family : AllocationFamily) (OS : OSType)
    : @CheckerContext toyEngine :=
  @mkCheckerContext toyEngine st
    (λ E, default (loc_MemRegionVal (toyRegion E)) (vals !! E))
    true true OS (λ _, family).

(** Checker switches: all sub-checkers on, and only the mismatched
    deallocator checker on. *)
Definition allChecks : MallocChecker := mkMallocChecker (λ _, true) None.

(** ** Notions used in the further statements *)

(** Every record of [new] belongs to a symbol that [old] tracks, with the
    same allocation family and the same originating statement. *)
Definition keepsOrigin (old new : gmap SymbolRef RefState.t) : Prop :=
  ∀ sym RS', new !! sym = Some RS' →
    ∃ RS, old !! sym = Some RS ∧
          RefState.getAllocationFamily RS' = RefState.getAllocationFamily RS ∧
          RefState.getStmt RS' = RefState.getStmt RS.

(** An event that is a report handed to [C.emitReport]. *)
Definition isReport (e : Event) : bool :=
  match e with
  | emitReport _ _ _ => true
  | addSymbolDependency _ _ => false
  end.

(** The test of [FreeMemAux] on the offset of the freed region: a known
    offset other than zero. *)
Definition hasNonZeroOffset (R : MemRegion) : bool :=
  isValid (getAsOffset R) && negb (hasSymbolicOffset (getAsOffset R)) &&
  negb (getOffset (getAsOffset R) =? 0)%Z.

Section EngineFrame.
Context {eng : Engine}.


End EngineFrame.

(** ** Resource managing functions *)

(** [IdentifierInfo] pointers are unique per spelling, so an identifier is
    its spelling; a null pointer is [None]. *)
Abbreviation IdentifierInfo := string.

(** [OverloadedOperatorKind], as far as the checker tells them apart. *)
Inductive OverloadedOperatorKind :=
  | OO_None
  | OO_New
  | OO_Delete
  | OO_Array_New
  | OO_Array_Delete
  | OO_Other.

#[global] Instance OverloadedOperatorKind_eq_dec :
  EqDecision OverloadedOperatorKind.
Proof. solve_decision. Defined.

(** [OwnershipAttr::OwnershipKind]. *)
Inductive OwnershipKind := Holds | Returns | Takes.

#[global] Instance OwnershipKind_eq_dec : EqDecision OwnershipKind.
Proof. solve_decision. Defined.

(** [OwnershipAttr]: kind, module, and the AST indices of its arguments. *)
Record OwnershipAttr := mkOwnershipAttr {
  getOwnKind : OwnershipKind;
  getModule : IdentifierInfo;
  args : list nat
}.

(** An attribute of a declaration: an ownership attribute or another
    one. *)
Inductive Attr :=
  | A_Ownership (Att : OwnershipAttr)
  | A_Other.

(** [FunctionDecl], by what the checker asks of it. *)
Record FunctionDecl := mkFunctionDecl {
  (** [FD->getKind() == Decl::Function]. *)
  isDeclFunction : bool;
  (** [FD->getIdentifier()]. *)
  getIdentifier : option IdentifierInfo;
  (** [FD->attrs()]. *)
  getAttrs : list Attr;
  (** [FD->getOverloadedOperator()]. *)
  getOverloadedOperator : OverloadedOperatorKind;
  (** [FD->getLocation().isValid()]. *)
  getLocation_isValid : bool;
  (** [SourceManager::isInSystemHeader(FD->getLocation())]. *)
  isInSystemHeader : bool
}.

(** [FD->hasAttrs()]. *)
Definition hasAttrs (FD : FunctionDecl) : bool :=
  match getAttrs FD with [] => false | _ => true end.

(** [FD->specific_attrs<OwnershipAttr>()]. *)
Definition specific_attrs_OwnershipAttr (FD : FunctionDecl)
    : list OwnershipAttr :=
  getAttrs FD ≫= λ a, match a with A_Ownership Att => [Att] | A_Other => [] end.

(** [MemoryOperationKind]. *)
Inductive MemoryOperationKind := MOK_Allocate | MOK_Free | MOK_Any.

(** [MemFunctionInfoTy]: the [Optimistic] option and the identifier cache.
    The mutable pointers [II_alloca], [II_malloc], ... are all null until
    [initIdentifierInfo] has run, and are the identifiers of the spellings
    below from then on; [initialized] tells which. *)
Record MemFunctionInfoTy := mkMemFunctionInfoTy {
  ShouldIncludeOwnershipAnnotatedFunctions : bool;
  initialized : bool
}.

Module II.
Definition alloca : IdentifierInfo := "alloca".
Definition malloc : IdentifierInfo := "malloc".
Definition free : IdentifierInfo := "free".
Definition realloc : IdentifierInfo := "realloc".
Definition reallocf : IdentifierInfo := "reallocf".
Definition calloc : IdentifierInfo := "calloc".
Definition valloc : IdentifierInfo := "valloc".
Definition strdup : IdentifierInfo := "strdup".
Definition strndup : IdentifierInfo := "strndup".
Definition wcsdup : IdentifierInfo := "wcsdup".
Definition kmalloc : IdentifierInfo := "kmalloc".
Definition kfree : IdentifierInfo := "kfree".
Definition if_nameindex : IdentifierInfo := "if_nameindex".
Definition if_freenameindex : IdentifierInfo := "if_freenameindex".
Definition win_strdup : IdentifierInfo := "_strdup".
Definition win_wcsdup : IdentifierInfo := "_wcsdup".
Definition win_alloca : IdentifierInfo := "_alloca".
Definition g_malloc : IdentifierInfo := "g_malloc".
Definition g_malloc0 : IdentifierInfo := "g_malloc0".
Definition g_realloc : IdentifierInfo := "g_realloc".
Definition g_try_malloc : IdentifierInfo := "g_try_malloc".
Definition g_try_malloc0 : IdentifierInfo := "g_try_malloc0".
Definition g_try_realloc : IdentifierInfo := "g_try_realloc".
Definition g_free : IdentifierInfo := "g_free".
Definition g_memdup : IdentifierInfo := "g_memdup".
Definition g_malloc_n : IdentifierInfo := "g_malloc_n".
Definition g_malloc0_n : IdentifierInfo := "g_malloc0_n".
Definition g_realloc_n : IdentifierInfo := "g_realloc_n".
Definition g_try_malloc_n : IdentifierInfo := "g_try_malloc_n".
Definition g_try_malloc0_n : IdentifierInfo := "g_try_malloc0_n".
Definition g_try_realloc_n : IdentifierInfo := "g_try_realloc_n".
End II.

(** The field [MemFunctionInfoTy::II_malloc]: null before
    [initIdentifierInfo], the identifier of malloc after it. *)
Definition II_malloc (this : MemFunctionInfoTy) : option IdentifierInfo :=
  if initialized this then Some II.malloc else None.

(** [MemFunctionInfoTy::initIdentifierInfo]: it returns at once when
    [II_malloc] is set, and sets every identifier of the cache
    otherwise. *)
Definition initIdentifierInfo (this : MemFunctionInfoTy)
    : MemFunctionInfoTy :=
  match II_malloc this with
  | Some _ => this
  | None =>
      mkMemFunctionInfoTy (ShouldIncludeOwnershipAnnotatedFunctions this) true
  end.

(** The comparison [FunI == II_name] of identifier pointers, behind the
    call of [initIdentifierInfo] that [isCMemFunction] and [checkPostStmt]
    make before they compare: the cached pointer is the identifier of the
    spelling. *)
Definition isII (FunI : option IdentifierInfo) (name : IdentifierInfo)
    : bool :=
  bool_decide (FunI = Some name).

(** The name tests of [isCMemFunction], one per family and direction. *)
Definition isMallocFreeName (FunI : option IdentifierInfo) : bool :=
  isII FunI II.free || isII FunI II.realloc || isII FunI II.reallocf ||
  isII FunI II.g_free || isII FunI II.kfree.

Definition isMallocAllocName (FunI : option IdentifierInfo) : bool :=
  isII FunI II.malloc || isII FunI II.realloc || isII FunI II.reallocf ||
  isII FunI II.calloc || isII FunI II.valloc || isII FunI II.strdup ||
  isII FunI II.win_strdup || isII FunI II.strndup || isII FunI II.wcsdup ||
  isII FunI II.win_wcsdup || isII FunI II.kmalloc ||
  isII FunI II.g_malloc || isII FunI II.g_malloc0 ||
  isII FunI II.g_realloc || isII FunI II.g_try_malloc ||
  isII FunI II.g_try_malloc0 || isII FunI II.g_try_realloc ||
  isII FunI II.g_memdup || isII FunI II.g_malloc_n ||
  isII FunI II.g_malloc0_n || isII FunI II.g_realloc_n ||
  isII FunI II.g_try_malloc_n || isII FunI II.g_try_malloc0_n ||
  isII FunI II.g_try_realloc_n.

Definition isIfNameIndexFreeName (FunI : option IdentifierInfo) : bool :=
  isII FunI II.if_freenameindex.

Definition isIfNameIndexAllocName (FunI : option IdentifierInfo) : bool :=
  isII FunI II.if_nameindex.

Definition isAllocaAllocName (FunI : option IdentifierInfo) : bool :=
  isII FunI II.alloca || isII FunI II.win_alloca.

(** The loop of [isCMemFunction] over the ownership attributes: it
    returns [true] at the first attribute of a kind that is asked for. *)
Fixpoint isCMemFunction_attrs (CheckFree CheckAlloc : bool)
    (l : list OwnershipAttr) : bool :=
  match l with
  | [] => false
  | Att :: l =>
      match getOwnKind Att with
      | Takes | Holds =>
          if CheckFree then true
          else isCMemFunction_attrs CheckFree CheckAlloc l
      | Returns =>
          if CheckAlloc then true
          else isCMemFunction_attrs CheckFree CheckAlloc l
      end
  end.

(** [MemFunctionInfoTy::isCMemFunction]. *)
Definition isCMemFunction (this : MemFunctionInfoTy)
    (FD : option FunctionDecl) (Family : AllocationFamily)
    (MemKind : MemoryOperationKind) : bool :=
  match FD with
  | None => false
  | Some FD =>
    let CheckFree :=
      match MemKind with MOK_Any | MOK_Free => true | _ => false end in
    let CheckAlloc :=
      match MemKind with MOK_Any | MOK_Allocate => true | _ => false end in
    let FunI := getIdentifier FD in
    if isDeclFunction FD &&
       (bool_decide (Family = AF_Malloc) && CheckFree) &&
       isMallocFreeName FunI then true
    else if isDeclFunction FD &&
       (bool_decide (Family = AF_Malloc) && CheckAlloc) &&
       isMallocAllocName FunI then true
    else if isDeclFunction FD &&
       (bool_decide (Family = AF_IfNameIndex) && CheckFree) &&
       isIfNameIndexFreeName FunI then true
    else if isDeclFunction FD &&
       (bool_decide (Family = AF_IfNameIndex) && CheckAlloc) &&
       isIfNameIndexAllocName FunI then true
    else if isDeclFunction FD &&
       (bool_decide (Family = AF_Alloca) && CheckAlloc) &&
       isAllocaAllocName FunI then true
    else if negb (bool_decide (Family = AF_Malloc)) then false
    else if ShouldIncludeOwnershipAnnotatedFunctions this && hasAttrs FD
    then isCMemFunction_attrs CheckFree CheckAlloc
           (specific_attrs_OwnershipAttr FD)
    else false
  end.

(** [MemFunctionInfoTy::isStandardNewDelete]. *)
Definition isStandardNewDelete (FD : option FunctionDecl) : bool :=
  match FD with
  | None => false
  | Some FD =>
    match getOverloadedOperator FD with
    | OO_New | OO_Array_New | OO_Delete | OO_Array_Delete =>
        (* This is standard if and only if it's not defined in a user
           file. *)
        negb (getLocation_isValid FD) || isInSystemHeader FD
    | OO_None | OO_Other => false
    end
  end.

(** [MemFunctionInfoTy::isMemFunction]. *)
Definition isMemFunction (this : MemFunctionInfoTy)
    (FD : option FunctionDecl) : bool :=
  if isCMemFunction this FD AF_Malloc MOK_Any then true
  else if isCMemFunction this FD AF_IfNameIndex MOK_Any then true
  else if isCMemFunction this FD AF_Alloca MOK_Any then true
  else if isStandardNewDelete FD then true
  else false.

(** A statement, by what the static [getAllocationFamily] asks of it.  A
    call carries [C.getCalleeDecl(CE)] and, for when that is null, the
    function declaration that [CE->getCalleeDecl()] is. *)
Inductive StmtKind :=
  | S_CallExpr (CalleeDecl CalleeDecl_CE : option FunctionDecl)
  | S_CXXNewExpr (isArray : bool)
  | S_CXXDeleteExpr (isArrayForm : bool)
  | S_ObjCMessageExpr
  | S_Other.

(** The static [getAllocationFamily(MemFunctionInfo, C, S)]. *)
Definition getAllocationFamilyOf (MemFunctionInfo : MemFunctionInfoTy)
    (S : option StmtKind) : AllocationFamily :=
  match S with
  | None => AF_None
  | Some (S_CallExpr FD FD_CE) =>
    let FD := match FD with Some FD => Some FD | None => FD_CE end in
    if isCMemFunction MemFunctionInfo FD AF_Malloc MOK_Any then AF_Malloc
    else
      let Kind := default OO_None (getOverloadedOperator <$> FD) in
      if isStandardNewDelete FD &&
         (bool_decide (Kind = OO_New) || bool_decide (Kind = OO_Delete))
      then AF_CXXNew
      else if isStandardNewDelete FD &&
              (bool_decide (Kind = OO_Array_New) ||
               bool_decide (Kind = OO_Array_Delete))
      then AF_CXXNewArray
      else if isCMemFunction MemFunctionInfo FD AF_IfNameIndex MOK_Any
      then AF_IfNameIndex
      else if isCMemFunction MemFunctionInfo FD AF_Alloca MOK_Any
      then AF_Alloca
      else AF_None
  | Some (S_CXXNewExpr isArray) =>
      if isArray then AF_CXXNewArray else AF_CXXNew
  | Some (S_CXXDeleteExpr isArrayForm) =>
      if isArrayForm then AF_CXXNewArray else AF_CXXNew
  | Some S_ObjCMessageExpr => AF_Malloc
  | Some S_Other => AF_None
  end.

(** ** Uses of released and of zero-sized memory *)

(** The reports of the use checks: [BT_UseFree] and [BT_UseZerroAllocated]
    are kept per check kind, [BT_DoubleDelete] is registered under
    [CK_NewDeleteChecker]; all mark the symbol as interesting.  A
    use-after-free report carries the family it reads from the record of
    the symbol, which selects its message. *)
Inductive UseReport :=
  | emitUseFree (CK : CheckKind) (Sym : SymbolRef) (AF : AllocationFamily)
  | emitDoubleDelete (Sym : SymbolRef)
  | emitUseZeroAllocated (CK : CheckKind) (Sym : SymbolRef).

#[global] Instance UseReport_eq_dec : EqDecision UseReport.
Proof. solve_decision. Defined.

(** [CallEvent], by what [checkPreCall] asks of it: the three casts, with
    the value of [this] or the callee declaration they give access to, and
    the values of the arguments. *)
Record CallEvent := mkCallEvent {
  (** [dyn_cast<CXXDestructorCall>(&Call)], and [DC->getCXXThisVal()]. *)
  asCXXDestructorCall : option SVal;
  (** [dyn_cast<AnyFunctionCall>(&Call)], and [FC->getDecl()]. *)
  asAnyFunctionCall : option (option FunctionDecl);
  (** [dyn_cast<CXXInstanceCall>(&Call)], and [CC->getCXXThisVal()]. *)
  asCXXInstanceCall : option SVal;
  (** [Call.getArgSVal(I)] for [I] below [Call.getNumArgs()]. *)
  getArgSVals : list SVal
}.

Section UseChecks.
Context {eng : Engine}.
Abbreviation State := (ProgramState Core).
Abbreviation StateRef := (option (ProgramState Core)).

(** [allocation_state::markReleased]. *)
Definition markReleased (State : State) (Sym : SymbolRef) (Origin : StmtRef)
    : ProgramState Core :=
  let Family := AF_InnerBuffer in
  set_RegionState State Sym (RefState.getReleased Family Origin).

(** The static [isReleased(Sym, C)]. *)
Definition isReleased (Sym : SymbolRef) (C : CheckerContext) : bool :=
  match RegionState (getState C) !! Sym with
  | Some RS => RefState.isReleased RS
  | None => false
  end.

(** [MallocChecker::ReportUseAfterFree].  The function dereferences the
    record of the symbol without a test; [None] stands for a call in which
    there is no record to dereference. *)
Definition ReportUseAfterFree (this : MallocChecker) (C : CheckerContext)
    (Sym : SymbolRef) : option (list UseReport) :=
  if negb (ChecksEnabled this CK_MallocChecker) &&
     negb (ChecksEnabled this CK_NewDeleteChecker) &&
     negb (ChecksEnabled this CK_InnerPointerChecker)
  then Some []
  else
    match getCheckIfTracked_Sym this C Sym false with
    | None => Some []
    | Some CheckKind =>
        if generateErrorNode C then
          match RegionState (getState C) !! Sym with
          | Some RS =>
              let AF := RefState.getAllocationFamily RS in
              Some [emitUseFree CheckKind Sym AF]
          | None => None
          end
        else Some []
    end.

(** [MallocChecker::ReportDoubleDelete]. *)
Definition ReportDoubleDelete (this : MallocChecker) (C : CheckerContext)
    (Sym : SymbolRef) : list UseReport :=
  if negb (ChecksEnabled this CK_NewDeleteChecker) then []
  else
    match getCheckIfTracked_Sym this C Sym false with
    | None => []
    | Some _ => if generateErrorNode C then [emitDoubleDelete Sym] else []
    end.

(** [MallocChecker::ReportUseZeroAllocated]. *)
Definition ReportUseZeroAllocated (this : MallocChecker)
    (C : CheckerContext) (Sym : SymbolRef) : list UseReport :=
  if negb (ChecksEnabled this CK_MallocChecker) &&
     negb (ChecksEnabled this CK_NewDeleteChecker)
  then []
  else
    match getCheckIfTracked_Sym this C Sym false with
    | None => []
    | Some CheckKind =>
        if generateErrorNode C then [emitUseZeroAllocated CheckKind Sym]
        else []
    end.

(** [MallocChecker::checkUseAfterFree]: the result and the reports. *)
Definition checkUseAfterFree (this : MallocChecker) (Sym : SymbolRef)
    (C : CheckerContext) : option (bool * list UseReport) :=
  if isReleased Sym C then
    evs ← ReportUseAfterFree this C Sym; Some (true, evs)
  else Some (false, []).

(** [MallocChecker::checkUseZeroAllocated]. *)
Definition checkUseZeroAllocated (this : MallocChecker) (Sym : SymbolRef)
    (C : CheckerContext) : list UseReport :=
  match RegionState (getState C) !! Sym with
  | Some RS =>
      if RefState.isAllocatedOfSizeZero RS
      then ReportUseZeroAllocated this C Sym else []
  | None =>
      if bool_decide (Sym ∈ ReallocSizeZeroSymbols (getState C))
      then ReportUseZeroAllocated this C Sym else []
  end.

(** [MallocChecker::checkDoubleDelete]. *)
Definition checkDoubleDelete (this : MallocChecker) (Sym : SymbolRef)
    (C : CheckerContext) : bool * list UseReport :=
  if isReleased Sym C then (true, ReportDoubleDelete this C Sym)
  else (false, []).

(** [MallocChecker::checkLocation]; [Sym] is [l.getLocSymbolInBase()]. *)
Definition checkLocation (this : MallocChecker) (Sym : option SymbolRef)
    (C : CheckerContext) : option (list UseReport) :=
  match Sym with
  | Some Sym =>
      '(_, evs) ← checkUseAfterFree this Sym C;
      Some (evs ++ checkUseZeroAllocated this Sym C)
  | None => Some []
  end.

(** The loop of [checkPreCall] over the arguments: it stops at the first
    argument that is used after free. *)
Fixpoint checkPreCall_args (this : MallocChecker) (C : CheckerContext)
    (Args : list SVal) : option (list UseReport) :=
  match Args with
  | [] => Some []
  | ArgSVal :: Args =>
      if isLoc ArgSVal then
        match getAsSymbol ArgSVal with
        | None => checkPreCall_args this C Args
        | Some Sym =>
            '(used, evs) ← checkUseAfterFree this Sym C;
            if used : bool then Some evs else checkPreCall_args this C Args
        end
      else checkPreCall_args this C Args
  end.

(** [MallocChecker::checkPreCall]. *)
Definition checkPreCall (this : MallocChecker)
    (MemFunctionInfo : MemFunctionInfoTy) (Call : CallEvent)
    (C : CheckerContext) : option (list UseReport) :=
  let DoubleDelete :=
    match asCXXDestructorCall Call with
    | Some ThisVal =>
        match getAsSymbol ThisVal with
        | None => Some []
        | Some Sym =>
            let r := checkDoubleDelete this Sym C in
            if r.1 then Some r.2 else None
        end
    | None => None
    end in
  match DoubleDelete with
  | Some evs => Some evs
  | None =>
    (* We will check for double free in the post visit. *)
    let Skip :=
      match asAnyFunctionCall Call with
      | Some FD =>
          match FD with
          | None => true
          | Some _ =>
              ChecksEnabled this CK_MallocChecker &&
              (isCMemFunction MemFunctionInfo FD AF_Malloc MOK_Free ||
               isCMemFunction MemFunctionInfo FD AF_IfNameIndex MOK_Free)
          end
      | None => false
      end in
    if Skip then Some []
    else
      (* Check if the callee of a method is deleted. *)
      let Callee :=
        match asCXXInstanceCall Call with
        | Some ThisVal =>
            match getAsSymbol ThisVal with
            | None => Some (Some [])
            | Some Sym =>
                '(used, evs) ← checkUseAfterFree this Sym C;
                Some (if used : bool then Some evs else None)
            end
        | None => Some None
        end in
      match Callee with
      | None => None
      | Some (Some evs) => Some evs
      | Some None =>
          (* Check arguments for being used after free. *)
          checkPreCall_args this C (getArgSVals Call)
      end
  end.

(** ** The bug visitor's view of a transition *)

(** The kinds of statement that the visitor's predicates tell apart. *)
Inductive VisitedStmt :=
  | VS_CallExpr
  | VS_CXXNewExpr
  | VS_CXXDeleteExpr
  | VS_ObjCMessageExpr
  | VS_ObjCPropertyRefExpr
  | VS_Other.

#[global] Instance VisitedStmt_eq_dec : EqDecision VisitedStmt.
Proof. solve_decision. Defined.

(** A record that is present and [Allocated] or [AllocatedOfSizeZero]. *)
Definition isLive (RS : option RefState.t) : bool :=
  match RS with
  | Some RS => RefState.isAllocated RS || RefState.isAllocatedOfSizeZero RS
  | None => false
  end.

(** [MallocBugVisitor::isAllocated]. *)
Definition Visitor_isAllocated (RSCurr RSPrev : option RefState.t)
    (Stmt : option VisitedStmt) : bool :=
  match Stmt with
  | Some VS_CallExpr | Some VS_CXXNewExpr => true
  | _ => false
  end &&
  isLive RSCurr &&
  match RSPrev with
  | None => true
  | Some RSPrev =>
      negb (RefState.isAllocated RSPrev ||
            RefState.isAllocatedOfSizeZero RSPrev)
  end.

(** [MallocBugVisitor::isReleased]; its assertion is left out. *)
Definition Visitor_isReleased (RSCurr RSPrev : option RefState.t)
    (Stmt : option VisitedStmt) : bool :=
  match RSCurr with
  | Some RSCurr => RefState.isReleased RSCurr
  | None => false
  end &&
  match RSPrev with
  | None => true
  | Some RSPrev => negb (RefState.isReleased RSPrev)
  end.

(** [MallocBugVisitor::isRelinquished]. *)
Definition Visitor_isRelinquished (RSCurr RSPrev : option RefState.t)
    (Stmt : option VisitedStmt) : bool :=
  match Stmt with
  | Some VS_CallExpr | Some VS_ObjCMessageExpr
  | Some VS_ObjCPropertyRefExpr => true
  | _ => false
  end &&
  match RSCurr with
  | Some RSCurr => RefState.isRelinquished RSCurr
  | None => false
  end &&
  match RSPrev with
  | None => true
  | Some RSPrev => negb (RefState.isRelinquished RSPrev)
  end.

(** [MallocBugVisitor::hasReallocFailed]. *)
Definition Visitor_hasReallocFailed (RSCurr RSPrev : option RefState.t)
    (Stmt : option VisitedStmt) : bool :=
  match Stmt with
  | Some VS_CallExpr => false
  | _ => true
  end &&
  isLive RSCurr &&
  match RSPrev with
  | Some RSPrev =>
      negb (RefState.isAllocated RSPrev ||
            RefState.isAllocatedOfSizeZero RSPrev)
  | None => false
  end.

(** The loop of [findFailedReallocSymbol]. *)
Fixpoint findFailedReallocSymbol_loop (currMap : gmap SymbolRef ReallocPair)
    (l : list (SymbolRef * ReallocPair)) : option SymbolRef :=
  match l with
  | [] => None
  | Pair :: l =>
      let sym := Pair.1 in
      match currMap !! sym with
      | None => Some sym
      | Some _ => findFailedReallocSymbol_loop currMap l
      end
  end.

(** The static [findFailedReallocSymbol]. *)
Definition findFailedReallocSymbol (currState prevState : State)
    : option SymbolRef :=
  let currMap := ReallocPairs currState in
  let prevMap := ReallocPairs prevState in
  findFailedReallocSymbol_loop currMap (iter prevMap).

End UseChecks.

(** ** The post-call callback *)

(** [StringRef::contains]. *)
Definition contains (Str Other : string) : bool :=
  bool_decide (is_Some (String.index 0 Other Str)).

(** What the post-call callback is told about the call besides the call
    expression: [C.wasInlined], [C.getCalleeDecl(CE)], and the source text
    of the enclosing function from its beginning to its body, empty when
    there is none. *)
Record CallSite := mkCallSite {
  wasInlined : bool;
  getCalleeDecl : option FunctionDecl;
  FunctionStr : string
}.

(** The outcome of the post-call callback: the argument of
    [C.addTransition] when the callback calls it, the events, and the value
    left in the cache [KernelZeroFlagVal]. *)
Record PostStmt {eng : Engine} := mkPostStmt {
  transition : option (ProgramStateRef Core);
  events : list Event;
  zeroFlagCache : option Z
}.
Arguments mkPostStmt {eng}.

Section PostCall.
Context {eng : Engine}.
Abbreviation State := (ProgramState Core).
Abbreviation StateRef := (option (ProgramState Core)).

(** [MallocChecker::CallocMem]. *)
Definition CallocMem (C : CheckerContext) (CE : CallExpr) (State : StateRef)
    : StateRef :=
  match State with
  | None => None
  | Some _ =>
      if getNumArgs CE <? 2 then None
      else
        let zeroVal := ZeroVal_CharTy in
        let TotalSize := evalMulForBufferSize C (getArg CE 0) (getArg CE 1) in
        MallocMemAux C CE TotalSize zeroVal State AF_Malloc
  end.

(** [MallocChecker::MallocMemReturnsAttr].  The module of the attribute is
    compared with the cached [MemFunctionInfo.II_malloc], which no call of
    [initIdentifierInfo] precedes here: while the cache is not set, no
    module is equal to it. *)
Definition MallocMemReturnsAttr (MemFunctionInfo : MemFunctionInfoTy)
    (C : CheckerContext) (CE : CallExpr)
    (Att : OwnershipAttr) (State : StateRef) : StateRef :=
  match State with
  | None => None
  | Some _ =>
      if negb (bool_decide (Some (getModule Att) = II_malloc MemFunctionInfo))
      then None
      else
        match args Att with
        | Arg :: _ =>
            MallocMemAux_Expr C CE (getArg CE Arg) UndefinedVal State
                              AF_Malloc
        | [] => MallocMemAux C CE UnknownVal UndefinedVal State AF_Malloc
        end
  end.

(** Body of the loop of [FreeMemAttr], on the state, the variable
    [IsKnownToBeAllocated] and the events so far. *)
Definition FreeMemAttr_body (this : MallocChecker) (C : CheckerContext)
    (CE : CallExpr) (Att : OwnershipAttr)
    (acc : ProgramState Core * bool * list Event) (Arg : nat)
    : ProgramState Core * bool * list Event :=
  let '(State, IsKnownToBeAllocated, evs) := acc in
  let '(StateI, IsKnownToBeAllocated, evsI) :=
    FreeMemAux this C CE (Some State) Arg
               (bool_decide (getOwnKind Att = Holds)) IsKnownToBeAllocated
               false in
  (match StateI with Some StateI => StateI | None => State end,
   IsKnownToBeAllocated, evs ++ evsI).

(** [MallocChecker::FreeMemAttr].  The module test reads the cached
    [MemFunctionInfo.II_malloc] as in [MallocMemReturnsAttr]. *)
Definition FreeMemAttr (this : MallocChecker)
    (MemFunctionInfo : MemFunctionInfoTy) (C : CheckerContext)
    (CE : CallExpr) (Att : OwnershipAttr) (State : StateRef)
    : StateRef * list Event :=
  match State with
  | None => (None, [])
  | Some State =>
      if negb (bool_decide (Some (getModule Att) = II_malloc MemFunctionInfo))
      then (None, [])
      else
        let IsKnownToBeAllocated := false in
        let '(State, _, evs) :=
          foldl (FreeMemAttr_body this C CE Att)
                (State, IsKnownToBeAllocated, []) (args Att) in
        (Some State, evs)
  end.

(** Body of the loop of [suppressDeallocationsInSuspiciousContexts]. *)
Definition suppressDeallocations_body (C : CheckerContext)
    (State : State) (Arg : StmtRef) : ProgramState Core :=
  match getAsSymbol (getSVal C Arg) with
  | Some Sym =>
      match RegionState State !! Sym with
      | Some RS => set_RegionState State Sym (RefState.getEscaped RS)
      | None => State
      end
  | None => State
  end.

(** [MallocChecker::suppressDeallocationsInSuspiciousContexts]: the result,
    and the state of the transition it adds when the result is [true]. *)
Definition suppressDeallocationsInSuspiciousContexts (CE : CallExpr)
    (C : CheckerContext) (FunctionStr : string)
    : bool * option (ProgramState Core) :=
  if getNumArgs CE =? 0 then (false, None)
  (* We do not model the Integer Set Library's retain-count based
     allocation. *)
  else if negb (contains FunctionStr "__isl_") then (false, None)
  else
    let State := getState C in
    let State :=
      foldl (suppressDeallocations_body C) State
            (getArg CE <$> seq 0 (getNumArgs CE)) in
    (true, Some State).

(** What an arm of the post-call callback does: it returns, after it has
    added the given transition or none; or it goes on with a state, events
    and the cache. *)
Inductive Arm :=
  | Return (added : option (ProgramState Core))
  | GoOn (State : StateRef) (evs : list Event) (cache : option Z).

(** The arms of [checkPostStmt] for a callee of kind [Decl::Function]. *)
Definition checkPostStmt_Function (this : MallocChecker)
    (C : CheckerContext) (CE : CallExpr) (Site : CallSite)
    (FD : FunctionDecl) : Arm :=
  let State := Some (getState C) in
  let cache := KernelZeroFlagVal this in
  let IsKnownToBeAllocatedMemory := false in
  let FunI := getIdentifier FD in
  let Zero i St := ProcessZeroAllocCheck C (E_CallExpr CE) i St None in
  let Malloc Family :=
    MallocMemAux_Expr C CE (getArg CE 0) UndefinedVal State Family in
  let Kernel :=
    let '(St, cache) := checkPostStmt_KernelMalloc this CE C (getState C) in
    GoOn St [] cache in
  let Free :=
    let '(St, _, evs) :=
      FreeMemAux this C CE State 0 false IsKnownToBeAllocatedMemory false in
    GoOn St evs cache in
  if isII FunI II.malloc || isII FunI II.g_malloc ||
     isII FunI II.g_try_malloc then
    match getNumArgs CE with
    | 1 => GoOn (Zero 0 (Malloc AF_Malloc)) [] cache
    | 2 => GoOn (Malloc AF_Malloc) [] cache
    | 3 => Kernel
    | _ => Return None
    end
  else if isII FunI II.kmalloc then
    if getNumArgs CE <? 1 then Return None else Kernel
  else if isII FunI II.valloc then
    if getNumArgs CE <? 1 then Return None
    else GoOn (Zero 0 (Malloc AF_Malloc)) [] cache
  else if isII FunI II.realloc || isII FunI II.g_realloc ||
          isII FunI II.g_try_realloc then
    let '(St, evs) := ReallocMemAux this C CE false State false in
    GoOn (Zero 1 St) evs cache
  else if isII FunI II.reallocf then
    let '(St, evs) := ReallocMemAux this C CE true State false in
    GoOn (Zero 1 St) evs cache
  else if isII FunI II.calloc then
    GoOn (Zero 1 (Zero 0 (CallocMem C CE State))) [] cache
  else if isII FunI II.free || isII FunI II.g_free || isII FunI II.kfree then
    let '(suppressed, added) :=
      suppressDeallocationsInSuspiciousContexts CE C (FunctionStr Site) in
    if suppressed then Return added else Free
  else if isII FunI II.strdup || isII FunI II.win_strdup ||
          isII FunI II.wcsdup || isII FunI II.win_wcsdup then
    GoOn (MallocUpdateRefState C (CE_stmt CE) State AF_Malloc None) [] cache
  else if isII FunI II.strndup then
    GoOn (MallocUpdateRefState C (CE_stmt CE) State AF_Malloc None) [] cache
  else if isII FunI II.alloca || isII FunI II.win_alloca then
    if getNumArgs CE <? 1 then Return None
    else GoOn (Zero 0 (Malloc AF_Alloca)) [] cache
  else if isStandardNewDelete (Some FD) then
    (* Process direct calls to operator new/new[]/delete/delete[]
       functions. *)
    match getOverloadedOperator FD with
    | OO_New => GoOn (Zero 0 (Malloc AF_CXXNew)) [] cache
    | OO_Array_New => GoOn (Zero 0 (Malloc AF_CXXNewArray)) [] cache
    | OO_Delete | OO_Array_Delete => Free
    (* Not reached: a standard new or delete is one of the four. *)
    | OO_None | OO_Other => GoOn State [] cache
    end
  else if isII FunI II.if_nameindex then
    GoOn (MallocMemAux C CE UnknownVal UnknownVal State AF_IfNameIndex) []
         cache
  else if isII FunI II.if_freenameindex then Free
  else if isII FunI II.g_malloc0 || isII FunI II.g_try_malloc0 then
    if getNumArgs CE <? 1 then Return None
    else
      let zeroVal := ZeroVal_CharTy in
      GoOn (Zero 0 (MallocMemAux_Expr C CE (getArg CE 0) zeroVal State
                                      AF_Malloc)) [] cache
  else if isII FunI II.g_memdup then
    if getNumArgs CE <? 2 then Return None
    else
      GoOn (Zero 1 (MallocMemAux_Expr C CE (getArg CE 1) UndefinedVal State
                                      AF_Malloc)) [] cache
  else if isII FunI II.g_malloc_n || isII FunI II.g_try_malloc_n ||
          isII FunI II.g_malloc0_n || isII FunI II.g_try_malloc0_n then
    if getNumArgs CE <? 2 then Return None
    else
      let Init :=
        if isII FunI II.g_malloc0_n || isII FunI II.g_try_malloc0_n
        then ZeroVal_CharTy else UndefinedVal in
      let TotalSize := evalMulForBufferSize C (getArg CE 0) (getArg CE 1) in
      GoOn (Zero 1 (Zero 0 (MallocMemAux C CE TotalSize Init State
                                         AF_Malloc))) [] cache
  else if isII FunI II.g_realloc_n || isII FunI II.g_try_realloc_n then
    if getNumArgs CE <? 3 then Return None
    else
      let '(St, evs) := ReallocMemAux this C CE false State true in
      GoOn (Zero 2 (Zero 1 St)) evs cache
  else GoOn State [] cache.

(** Body of the loop of [checkPostStmt] over the ownership attributes. *)
Definition checkPostStmt_attr (this : MallocChecker)
    (MemFunctionInfo : MemFunctionInfoTy) (C : CheckerContext)
    (CE : CallExpr) (acc : StateRef * list Event) (Att : OwnershipAttr)
    : StateRef * list Event :=
  let '(State, evs) := acc in
  match getOwnKind Att with
  | Returns => (MallocMemReturnsAttr MemFunctionInfo C CE Att State, evs)
  | Takes | Holds =>
      let '(State, evsI) := FreeMemAttr this MemFunctionInfo C CE Att State in
      (State, evs ++ evsI)
  end.

(** [MallocChecker::checkPostStmt(const CallExpr *, CheckerContext &)].
    [MemFunctionInfo] is the member as the callback finds it; the callback
    sets its identifier cache for a callee of kind [Decl::Function] only,
    before it compares the name of the callee, so the arms read the
    spellings and the loop over the attributes reads the cache as it then
    is.  The loop does not change the cache: while [II_malloc] is null
    [MallocMemReturnsAttr] and [FreeMemAttr] return at their module
    test. *)
Definition checkPostStmt (this : MallocChecker)
    (MemFunctionInfo : MemFunctionInfoTy) (CE : CallExpr)
    (C : CheckerContext) (Site : CallSite) : PostStmt :=
  let nothing := mkPostStmt None [] (KernelZeroFlagVal this) in
  if wasInlined Site then nothing
  else
    match getCalleeDecl Site with
    | None => nothing
    | Some FD =>
      let MemFunctionInfo :=
        if isDeclFunction FD then initIdentifierInfo MemFunctionInfo
        else MemFunctionInfo in
      let arm :=
        if isDeclFunction FD then checkPostStmt_Function this C CE Site FD
        else GoOn (Some (getState C)) [] (KernelZeroFlagVal this) in
      match arm with
      | Return added =>
          mkPostStmt (Some <$> added) [] (KernelZeroFlagVal this)
      | GoOn State evs cache =>
          let '(State, evs) :=
            if (ShouldIncludeOwnershipAnnotatedFunctions MemFunctionInfo ||
                ChecksEnabled this CK_MismatchedDeallocatorChecker) &&
               hasAttrs FD
            then foldl (checkPostStmt_attr this MemFunctionInfo C CE)
                       (State, evs)
                       (specific_attrs_OwnershipAttr FD)
            else (State, evs) in
          mkPostStmt (Some State) evs cache
      end
    end.

End PostCall.


(** ** An engine with a store

    The small engine with an environment and a store next to the
    constraints: [BindExpr] records the value of an expression,
    [bindDefaultInitial] the initial contents of a symbolic region, under
    its symbol.  On it a run shows what a callback has bound. *)

Record StoreCore := mkStoreCore {
  Constraints : gmap SymbolRef bool;
  Env : gmap StmtRef SVal;
  DefaultBindings : gmap SymbolRef SVal
}.

(** Replace the part of the state that the engine owns. *)
Definition set_core {Core Core' : Type} (st : ProgramState Core) (c : Core')
    : ProgramState Core' :=
  mkProgramState c (RegionState st) (ReallocSizeZeroSymbols st)
                 (ReallocPairs st) (FreeReturnValue st).

Definition storeEngine : Engine := {|
  Core := StoreCore;
  isNull c sym := Constraints c !! sym;
  assume st V :=
    match V with
    | nonloc_ConcreteInt z | loc_ConcreteInt z =>
        if (z =? 0)%Z then (None, Some st) else (Some st, None)
    | _ => (Some st, Some st)
    end;
  assumeTrue st V := Some st;
  evalEQ st L R :=
    match L, R with
    | nonloc_ConcreteInt x, nonloc_ConcreteInt y =>
        nonloc_ConcreteInt (if (x =? y)%Z then 1 else 0)
    | _, _ => UnknownVal
    end;
  evalBinOp st op L R :=
    match op, L, R with
    | BO_And, nonloc_ConcreteInt x, nonloc_ConcreteInt y =>
        nonloc_ConcreteInt (Z.land x y)
    | BO_Mul, nonloc_ConcreteInt x, nonloc_ConcreteInt y =>
        nonloc_ConcreteInt (x * y)
    | _, _, _ => UnknownVal
    end;
  BindExpr st E V :=
    set_core st (mkStoreCore (Constraints (core st))
                             (<[E := V]> (Env (core st)))
                             (DefaultBindings (core st)));
  bindDefaultInitial st L V :=
    match getAsRegion L ≫= asSymbolicRegion with
    | Some sym =>
        set_core st (mkStoreCore (Constraints (core st)) (Env (core st))
                                 (<[sym := V]> (DefaultBindings (core st))))
    | None => st
    end;
  getConjuredHeapSymbolVal E := loc_MemRegionVal (toyRegion E);
  makeIntVal V E := nonloc_ConcreteInt V;
  makeZeroVal E := nonloc_ConcreteInt 0;
  getExtent sym := UnknownVal;
  isFunctionPointerType sym := false;
  iter A m := map_to_list m;
  iter_perm A m := reflexivity (map_to_list m)
|}.

(** The state of the engine with a store in which nothing is bound and
    nothing is tracked. *)
Definition emptyStoreState : @ProgramState (@Core storeEngine) :=
  mkProgramState (mkStoreCore ∅ ∅ ∅) ∅ ∅ ∅ ∅.

(** A context of the engine with a store: an expression evaluates to what
    the environment of the state binds it to, to what [vals] lists for it
    otherwise, and to the heap region of symbol [E] when neither does. *)
Definition storeContext (st : @ProgramState (@Core storeEngine))
    (vals : gmap StmtRef SVal) (family : AllocationFamily) (OS : OSType)
    : @CheckerContext storeEngine :=
  @mkCheckerContext storeEngine st
    (λ E, default (default (loc_MemRegionVal (toyRegion E)) (vals !! E))
                  (Env (core st) !! E))
    true true OS (λ _, family).
(** * What the callbacks guarantee

    All statements hold for every engine, and so for every traversal order
    of the tables. *)

Section CheckerProofs.
Context {eng : Engine}.
Abbreviation State := (ProgramState Core).
Abbreviation StateRef := (option (ProgramState Core)).

(** *** Facts about the traversal order *)

Lemma iter_elem_of {A} (m : gmap SymbolRef A) i x :
  (i, x) ∈ iter m ↔ m !! i = Some x.
Proof. rewrite (iter_perm A m). apply elem_of_map_to_list. Qed.


Lemma iter_elem_of_fst {A} (m : gmap SymbolRef A) i :
  i ∈ (iter m).*1 ↔ is_Some (m !! i).
Proof.
  rewrite list_elem_of_fmap. split.
  - intros [[j x] [-> Hin]]. apply iter_elem_of in Hin. by exists x.
  - intros [x Hx]. exists (i, x). split; [done|]. by apply iter_elem_of.
Qed.

(** *** The first loop *)

Lemma RegionState_body_core st I :
  core (evalAssume_RegionState_body st I) = core st.
Proof. unfold evalAssume_RegionState_body. by destruct (AllocFailed st I.1). Qed.

Lemma RegionState_body_AllocFailed st I s :
  AllocFailed (evalAssume_RegionState_body st I) s = AllocFailed st s.
Proof. unfold AllocFailed. by rewrite RegionState_body_core. Qed.

Lemma RegionState_body_lookup st I sym :
  RegionState (evalAssume_RegionState_body st I) !! sym =
  if AllocFailed st I.1 then
    if decide (sym = I.1) then None else RegionState st !! sym
  else RegionState st !! sym.
Proof.
  unfold evalAssume_RegionState_body.
  destruct (AllocFailed st I.1); [|done]. cbn.
  destruct (decide (sym = I.1)) as [->|Hne].
  - apply lookup_delete_eq.
  - by apply lookup_delete_ne.
Qed.

Lemma RegionState_fold_spec (l : list (SymbolRef * RefState.t)) st :
  let st' := foldl evalAssume_RegionState_body st l in
  core st' = core st ∧
  ReallocPairs st' = ReallocPairs st ∧
  FreeReturnValue st' = FreeReturnValue st ∧
  ReallocSizeZeroSymbols st' = ReallocSizeZeroSymbols st ∧
  (∀ sym, AllocFailed st sym = true → sym ∈ l.*1 →
          RegionState st' !! sym = None) ∧
  (∀ sym, AllocFailed st sym = false ∨ sym ∉ l.*1 →
          RegionState st' !! sym = RegionState st !! sym).
Proof.
  revert st. induction l as [|I l IH]; intros st; cbn [foldl]; cbn zeta.
  - repeat split. intros sym _ Hin. by apply elem_of_nil in Hin.
  - destruct (IH (evalAssume_RegionState_body st I))
      as (Hc & Hp & Hf & Hz & Ha & Hb).
    rewrite Hc, Hp, Hf, Hz, RegionState_body_core.
    repeat split;
      try (unfold evalAssume_RegionState_body;
           by destruct (AllocFailed st I.1)).
    + intros sym Hs Hin. rewrite fmap_cons in Hin.
      destruct (decide (sym ∈ l.*1)) as [Hl|Hl].
      * apply Ha; [|done]. by rewrite RegionState_body_AllocFailed.
      * apply elem_of_cons in Hin as [->|Hin]; [|done].
        rewrite Hb by (by right).
        rewrite RegionState_body_lookup, Hs. by rewrite decide_True.
    + intros sym Hs. rewrite fmap_cons in Hs.
      rewrite Hb.
      * rewrite RegionState_body_lookup.
        destruct (AllocFailed st I.1) eqn:HI; [|done].
        destruct (decide (sym = I.1)) as [->|Hne]; [|done].
        destruct Hs as [Hs|Hs]; [congruence|].
        exfalso. apply Hs. by left.
      * rewrite RegionState_body_AllocFailed.
        destruct Hs as [Hs|Hs]; [by left|].
        right. intros Hin. apply Hs. by right.
Qed.

Lemma RegionState_loop_spec st :
  let st' := evalAssume_RegionState_loop st in
  core st' = core st ∧
  ReallocPairs st' = ReallocPairs st ∧
  FreeReturnValue st' = FreeReturnValue st ∧
  ReallocSizeZeroSymbols st' = ReallocSizeZeroSymbols st ∧
  ∀ sym, RegionState st' !! sym =
         if AllocFailed st sym then None else RegionState st !! sym.
Proof.
  destruct (RegionState_fold_spec (iter (RegionState st)) st)
    as (Hc & Hp & Hf & Hz & Ha & Hb).
  repeat split; try done.
  intros sym. unfold evalAssume_RegionState_loop.
  destruct (AllocFailed st sym) eqn:Hs.
  - destruct (RegionState st !! sym) as [rs|] eqn:E.
    + apply Ha; [done|]. apply iter_elem_of_fst. by eexists.
    + rewrite Hb; [done|]. right. rewrite iter_elem_of_fst, E.
      by intros [? ?].
  - apply Hb. by left.
Qed.

(** *** The second loop *)

Lemma ReallocPairs_body_frame st I :
  let st' := evalAssume_ReallocPairs_body st I in
  core st' = core st ∧
  FreeReturnValue st' = FreeReturnValue st ∧
  ReallocSizeZeroSymbols st' = ReallocSizeZeroSymbols st ∧
  ReallocPairs st' =
    (if AllocFailed st I.1 then delete I.1 (ReallocPairs st)
     else ReallocPairs st).
Proof.
  unfold evalAssume_ReallocPairs_body.
  destruct (AllocFailed st I.1); cbn; [|done].
  destruct (RegionState st !! ReallocatedSym I.2) as [RS|]; [|done].
  destruct (RefState.isReleased RS); [|done].
  by destruct (Kind I.2).
Qed.

Lemma ReallocPairs_body_AllocFailed st I s :
  AllocFailed (evalAssume_ReallocPairs_body st I) s = AllocFailed st s.
Proof.
  unfold AllocFailed.
  by rewrite (proj1 (ReallocPairs_body_frame st I)).
Qed.

Lemma ReallocPairs_body_lookup st I sym :
  RegionState (evalAssume_ReallocPairs_body st I) !! sym =
  if AllocFailed st I.1 && bool_decide (sym = ReallocatedSym I.2)
  then restoreOnFailure (Kind I.2) (RegionState st !! sym)
  else RegionState st !! sym.
Proof.
  unfold evalAssume_ReallocPairs_body.
  destruct (AllocFailed st I.1); cbn; [|done].
  case_bool_decide as E.
  - subst sym. unfold restoreOnFailure.
    destruct (RegionState st !! ReallocatedSym I.2) as [RS|] eqn:HRS;
      cbn; [|done].
    destruct (RefState.isReleased RS); cbn; [|done].
    destruct (Kind I.2); cbn; [apply lookup_insert_eq|done|].
    apply lookup_delete_eq.
  - destruct (RegionState st !! ReallocatedSym I.2) as [RS|] eqn:HRS;
      cbn; [|done].
    destruct (RefState.isReleased RS); cbn; [|done].
    destruct (Kind I.2); cbn; [by apply lookup_insert_ne|done|].
    by apply lookup_delete_ne.
Qed.

Lemma restoreOnFailure_notReleased k o :
  notReleased o → restoreOnFailure k o = o.
Proof.
  intros H. destruct o as [RS|]; [|done]. cbn.
  by rewrite (H RS eq_refl).
Qed.

Lemma ReallocPairs_fold_frame (l : list (SymbolRef * ReallocPair)) st :
  let st' := foldl evalAssume_ReallocPairs_body st l in
  core st' = core st ∧
  FreeReturnValue st' = FreeReturnValue st ∧
  ReallocSizeZeroSymbols st' = ReallocSizeZeroSymbols st ∧
  (∀ to, AllocFailed st to = true → to ∈ l.*1 →
         ReallocPairs st' !! to = None) ∧
  (∀ to, AllocFailed st to = false ∨ to ∉ l.*1 →
         ReallocPairs st' !! to = ReallocPairs st !! to).
Proof.
  revert st. induction l as [|I l IH]; intros st; cbn [foldl]; cbn zeta.
  - repeat split. intros sym _ Hin. by apply elem_of_nil in Hin.
  - destruct (IH (evalAssume_ReallocPairs_body st I))
      as (Hc & Hf & Hz & Ha & Hb).
    destruct (ReallocPairs_body_frame st I) as (Hc1 & Hf1 & Hz1 & Hp1).
    rewrite Hc, Hf, Hz, Hc1, Hf1, Hz1.
    assert (Hlk : ∀ to, ReallocPairs (evalAssume_ReallocPairs_body st I)
                    !! to =
                  if AllocFailed st I.1 then
                    if decide (to = I.1) then None
                    else ReallocPairs st !! to
                  else ReallocPairs st !! to).
    { intros to. rewrite Hp1. destruct (AllocFailed st I.1); [|done].
      destruct (decide (to = I.1)) as [->|Hne].
      - apply lookup_delete_eq.
      - by apply lookup_delete_ne. }
    repeat split.
    + intros to Hs Hin. rewrite fmap_cons in Hin.
      destruct (decide (to ∈ l.*1)) as [Hl|Hl].
      * apply Ha; [|done]. by rewrite ReallocPairs_body_AllocFailed.
      * apply elem_of_cons in Hin as [->|Hin]; [|done].
        rewrite Hb by (by right).
        rewrite Hlk, Hs. by rewrite decide_True.
    + intros to Hs. rewrite fmap_cons in Hs.
      rewrite Hb.
      * rewrite Hlk.
        destruct (AllocFailed st I.1) eqn:HI; [|done].
        destruct (decide (to = I.1)) as [->|Hne]; [|done].
        destruct Hs as [Hs|Hs]; [congruence|].
        exfalso. apply Hs. by left.
      * rewrite ReallocPairs_body_AllocFailed.
        destruct Hs as [Hs|Hs]; [by left|].
        right. intros Hin. apply Hs. by right.
Qed.


(** A record that is not [Released] is never touched by the loop. *)
Lemma ReallocPairs_fold_notReleased (l : list (SymbolRef * ReallocPair)) st s :
  notReleased (RegionState st !! s) →
  RegionState (foldl evalAssume_ReallocPairs_body st l) !! s
  = RegionState st !! s.
Proof.
  revert st. induction l as [|I l IH]; intros st Hn; cbn [foldl]; [done|].
  assert (E : RegionState (evalAssume_ReallocPairs_body st I) !! s
              = RegionState st !! s).
  { rewrite ReallocPairs_body_lookup.
    destruct (_ && _); [|done]. by apply restoreOnFailure_notReleased. }
  rewrite IH; [done|]. by rewrite E.
Qed.

(** When the loop does change a record, a failed pair whose policy is not
    [OAR_FreeOnFailure] names the symbol, and the record was [Released]
    when that pair was visited. *)
Lemma ReallocPairs_fold_changed (l : list (SymbolRef * ReallocPair)) st s :
  RegionState (foldl evalAssume_ReallocPairs_body st l) !! s
    ≠ RegionState st !! s →
  (∃ RS, RegionState st !! s = Some RS ∧ RefState.isReleased RS = true) ∧
  ∃ I, I ∈ l ∧ AllocFailed st I.1 = true ∧ ReallocatedSym I.2 = s ∧
       Kind I.2 ≠ OAR_FreeOnFailure.
Proof.
  intros Hch. split.
  - destruct (RegionState st !! s) as [RS|] eqn:E.
    + destruct (RefState.isReleased RS) eqn:HR; [by eexists|].
      exfalso. apply Hch. rewrite <- E.
      apply ReallocPairs_fold_notReleased. rewrite E.
      intros ? [= <-]. done.
    + exfalso. apply Hch. rewrite <- E.
      apply ReallocPairs_fold_notReleased. by rewrite E.
  - revert st Hch. induction l as [|I l IH]; intros st Hch;
      cbn [foldl] in Hch; [done|].
    destruct (decide (RegionState (evalAssume_ReallocPairs_body st I) !! s
                      = RegionState st !! s)) as [E|E].
    + rewrite <- E in Hch. destruct (IH _ Hch) as (J & HJ & HA & HS & HK).
      exists J. rewrite ReallocPairs_body_AllocFailed in HA.
      split; [by right|done].
    + exists I. rewrite ReallocPairs_body_lookup in E.
      destruct (AllocFailed st I.1); [|done]. cbn in E.
      case_bool_decide as Es; [|done]. subst s.
      repeat split; [by left|].
      intros HK. apply E. rewrite HK. unfold restoreOnFailure.
      destruct (RegionState st !! ReallocatedSym I.2) as [RS|]; [|done].
      by destruct (RefState.isReleased RS).
Qed.


Lemma ReallocPairs_loop_pairs st to :
  ReallocPairs (evalAssume_ReallocPairs_loop st) !! to =
  if AllocFailed st to then None else ReallocPairs st !! to.
Proof.
  unfold evalAssume_ReallocPairs_loop.
  destruct (ReallocPairs_fold_frame (iter (ReallocPairs st)) st)
    as (_ & _ & _ & Ha & Hb).
  destruct (AllocFailed st to) eqn:Hs.
  - destruct (ReallocPairs st !! to) as [p|] eqn:E.
    + apply Ha; [done|]. apply iter_elem_of_fst. by eexists.
    + rewrite Hb; [done|]. right. rewrite iter_elem_of_fst, E.
      by intros [? ?].
  - apply Hb. by left.
Qed.

Lemma evalAssume_AllocFailed_mid st s :
  AllocFailed (evalAssume_RegionState_loop st) s = AllocFailed st s.
Proof.
  unfold AllocFailed.
  by rewrite (proj1 (RegionState_loop_spec st)).
Qed.

(** *** The assumption hook: what the callback guarantees *)


(** C10.  In the second loop of [evalAssume], the record of a symbol is
    changed only if it exists and is [Released] and a failed pair, whose
    policy is not [OAR_FreeOnFailure], names the symbol as from-pointer; a
    symbol that is untracked or in another state keeps what it has.  The
    loop removes the failed pairs and touches nothing else. *)
Theorem evalAssume_restores_only_Released (state : State) Cond Assumption :
  let mid := evalAssume_RegionState_loop state in
  let state' := evalAssume state Cond Assumption in
  (∀ sym, RegionState state' !! sym ≠ RegionState mid !! sym →
     (∃ RS, RegionState mid !! sym = Some RS ∧
            RefState.isReleased RS = true) ∧
     (∃ to p, ReallocPairs state !! to = Some p ∧
              AllocFailed state to = true ∧
              ReallocatedSym p = sym ∧ Kind p ≠ OAR_FreeOnFailure)) ∧
  (∀ sym, notReleased (RegionState mid !! sym) →
          RegionState state' !! sym = RegionState mid !! sym) ∧
  (∀ to, ReallocPairs state' !! to =
         if AllocFailed state to then None else ReallocPairs state !! to) ∧
  FreeReturnValue state' = FreeReturnValue state ∧
  ReallocSizeZeroSymbols state' = ReallocSizeZeroSymbols state ∧
  core state' = core state.
Proof.
  cbn zeta. unfold evalAssume.
  destruct (RegionState_loop_spec state) as (Hc & Hp & Hf & Hz & Hrs).
  set (mid := evalAssume_RegionState_loop state) in *.
  destruct (ReallocPairs_fold_frame (iter (ReallocPairs mid)) mid)
    as (Hc2 & Hf2 & Hz2 & _ & _).
  split; [|repeat split].
  - intros sym Hch. unfold evalAssume_ReallocPairs_loop in Hch.
    destruct (ReallocPairs_fold_changed _ _ _ Hch)
      as (HRel & [to p] & Hin & HA & HS & HK).
    split; [done|]. exists to, p. cbn [fst snd] in *.
    apply iter_elem_of in Hin. rewrite Hp in Hin.
    unfold mid in HA. by rewrite evalAssume_AllocFailed_mid in HA.
  - intros sym Hn. by apply ReallocPairs_fold_notReleased.
  - intros to. rewrite ReallocPairs_loop_pairs, Hp.
    unfold mid. by rewrite evalAssume_AllocFailed_mid.
  - unfold evalAssume_ReallocPairs_loop. by rewrite Hf2.
  - unfold evalAssume_ReallocPairs_loop. by rewrite Hz2.
  - unfold evalAssume_ReallocPairs_loop. by rewrite Hc2.
Qed.

(** *** Dead symbols *)

(** A loop that deletes the entries picked by [P]. *)
Lemma foldl_delete_None {A} (P : SymbolRef * A → bool)
    (l : list (SymbolRef * A)) (m0 : gmap SymbolRef A) k :
  m0 !! k = None →
  foldl (λ m I, if P I then delete I.1 m else m) m0 l !! k = None.
Proof.
  revert m0. induction l as [|I l IH]; intros m0 Hk; cbn [foldl]; [done|].
  apply IH. destruct (P I); [|done].
  destruct (decide (I.1 = k)) as [->|Hne].
  - apply lookup_delete_eq.
  - by rewrite lookup_delete_ne.
Qed.

Lemma foldl_delete_spec {A} (P : SymbolRef * A → bool)
    (l : list (SymbolRef * A)) (m0 : gmap SymbolRef A) :
  let m' := foldl (λ m I, if P I then delete I.1 m else m) m0 l in
  (∀ I, I ∈ l → P I = true → m' !! I.1 = None) ∧
  (∀ k, (∀ v, (k, v) ∈ l → P (k, v) = false) → m' !! k = m0 !! k).
Proof.
  revert m0. induction l as [|J l IH]; intros m0; cbn [foldl]; cbn zeta.
  - split; [|done]. intros I HI. by apply elem_of_nil in HI.
  - destruct (IH (if P J then delete J.1 m0 else m0)) as [Ha Hb]. split.
    + intros I HI HP. apply elem_of_cons in HI as [->|HI]; [|by apply Ha].
      apply foldl_delete_None. rewrite HP. apply lookup_delete_eq.
    + intros k Hk. rewrite Hb.
      * destruct (P J) eqn:HJ; [|done].
        destruct (decide (J.1 = k)) as [E|Hne].
        -- destruct J as [j v]. cbn in E. subst j.
           rewrite Hk in HJ; [done|by left].
        -- by rewrite lookup_delete_ne.
      * intros v Hv. apply Hk. by right.
Qed.

Lemma checkDeadSymbols_RegionState_fold isDead
    (l : list (SymbolRef * RefState.t)) RS0 Errors0 :
  foldl (checkDeadSymbols_RegionState_body isDead) (RS0, Errors0) l =
  (foldl (λ m I, if isDead I.1 then delete I.1 m else m) RS0 l,
   Errors0 ++ (filter (λ I, leaks isDead I = true) l).*1).
Proof.
  revert RS0 Errors0. induction l as [|I l IH]; intros RS0 Errors0;
    cbn [foldl].
  - by rewrite filter_nil, app_nil_r.
  - unfold checkDeadSymbols_RegionState_body at 2. rewrite filter_cons.
    destruct (decide (leaks isDead I = true)) as [HL|HL].
    + unfold leaks in HL. apply andb_true_iff in HL as [Hd Hlive].
      rewrite Hd, Hlive, IH. by rewrite fmap_cons, <- app_assoc.
    + destruct (isDead I.1) eqn:Hd; [|by rewrite IH].
      unfold leaks in HL. rewrite Hd in HL. cbn [andb] in HL.
      destruct (_ || _); [done|]. by rewrite IH.
Qed.

Lemma checkDeadSymbols_RegionState_loop_spec isDead
    (OldRS : gmap SymbolRef RefState.t) :
  let '(RS, Errors) := checkDeadSymbols_RegionState_loop isDead OldRS in
  (∀ sym, RS !! sym = if isDead sym then None else OldRS !! sym) ∧
  (∀ sym, sym ∈ Errors ↔
          ∃ rs, OldRS !! sym = Some rs ∧ leaks isDead (sym, rs) = true).
Proof.
  unfold checkDeadSymbols_RegionState_loop.
  rewrite checkDeadSymbols_RegionState_fold.
  destruct (foldl_delete_spec (λ I : SymbolRef * RefState.t, isDead I.1)
              (iter OldRS) OldRS) as [Ha Hb].
  split.
  - intros sym. destruct (isDead sym) eqn:Hd.
    + destruct (OldRS !! sym) as [rs|] eqn:E.
      * apply (Ha (sym, rs)); [|done]. by apply iter_elem_of.
      * rewrite Hb; [done|]. intros v Hv. apply iter_elem_of in Hv.
        congruence.
    + apply Hb. by intros.
  - intros sym. rewrite app_nil_l, list_elem_of_fmap. split.
    + intros [[k rs] [-> Hin]]. apply list_elem_of_filter in Hin as [HL Hin].
      apply iter_elem_of in Hin. by exists rs.
    + intros [rs [Hrs HL]]. exists (sym, rs). split; [done|].
      apply list_elem_of_filter. split; [done|]. by apply iter_elem_of.
Qed.

Lemma checkDeadSymbols_ReallocPairs_fold isDead
    (l : list (SymbolRef * ReallocPair)) (state : State) :
  let state' := foldl (checkDeadSymbols_ReallocPairs_body isDead) state l in
  core state' = core state ∧
  RegionState state' = RegionState state ∧
  ReallocSizeZeroSymbols state' = ReallocSizeZeroSymbols state ∧
  FreeReturnValue state' = FreeReturnValue state ∧
  ReallocPairs state' =
    foldl (λ m I, if isDead I.1 || isDead (ReallocatedSym I.2)
                  then delete I.1 m else m) (ReallocPairs state) l.
Proof.
  revert state. induction l as [|I l IH]; intros state; cbn [foldl];
    cbn zeta; [done|].
  destruct (IH (checkDeadSymbols_ReallocPairs_body isDead state I))
    as (-> & -> & -> & -> & ->).
  unfold checkDeadSymbols_ReallocPairs_body.
  by destruct (_ || _).
Qed.

Lemma checkDeadSymbols_FreeReturnValue_fold isDead
    (l : list (SymbolRef * SymbolRef)) (state : State) :
  let state' := foldl (checkDeadSymbols_FreeReturnValue_body isDead) state l in
  core state' = core state ∧
  RegionState state' = RegionState state ∧
  ReallocSizeZeroSymbols state' = ReallocSizeZeroSymbols state ∧
  ReallocPairs state' = ReallocPairs state ∧
  FreeReturnValue state' =
    foldl (λ m I, if isDead I.1 || isDead I.2
                  then delete I.1 m else m) (FreeReturnValue state) l.
Proof.
  revert state. induction l as [|I l IH]; intros state; cbn [foldl];
    cbn zeta; [done|].
  destruct (IH (checkDeadSymbols_FreeReturnValue_body isDead state I))
    as (-> & -> & -> & -> & ->).
  unfold checkDeadSymbols_FreeReturnValue_body.
  by destruct (_ || _).
Qed.

(** The conditional cleanup of a table: what is left has no dead key and
    no dead value. *)
Lemma cleanup_no_dead {A} (P : SymbolRef * A → bool) (m : gmap SymbolRef A)
    k v :
  foldl (λ m I, if P I then delete I.1 m else m) m (iter m) !! k = Some v →
  m !! k = Some v ∧ P (k, v) = false.
Proof.
  intros Hk.
  destruct (foldl_delete_spec P (iter m) m) as [Ha Hb].
  destruct (m !! k) as [w|] eqn:E.
  - destruct (P (k, w)) eqn:HP.
    + specialize (Ha (k, w)). cbn [fst] in Ha.
      rewrite Ha in Hk; [done| |done]. by apply iter_elem_of.
    + rewrite Hb in Hk.
      * rewrite E in Hk. by simplify_eq.
      * intros w' Hw'. apply iter_elem_of in Hw'. congruence.
  - rewrite (foldl_delete_None P (iter m) m k E) in Hk. done.
Qed.

(** The cleaned region table is the old one exactly when no dead symbol
    was tracked. *)
Lemma checkDeadSymbols_unchanged_iff isDead
    (OldRS : gmap SymbolRef RefState.t) :
  (checkDeadSymbols_RegionState_loop isDead OldRS).1 = OldRS ↔
  ∀ sym, isDead sym = true → OldRS !! sym = None.
Proof.
  pose proof (checkDeadSymbols_RegionState_loop_spec isDead OldRS) as H.
  destruct (checkDeadSymbols_RegionState_loop isDead OldRS) as [RS Errors].
  destruct H as [HRS _]. cbn [fst]. split.
  - intros -> sym Hd. specialize (HRS sym). by rewrite Hd in HRS.
  - intros Hn. apply map_eq. intros sym. rewrite HRS.
    destruct (isDead sym) eqn:Hd; [|done]. by rewrite Hn.
Qed.

Lemma reportLeak_elem this (C : CheckerContext) Sym e :
  e ∈ reportLeak this C Sym →
  ∃ CK RS, e = emitReport BT_Leak CK (Some Sym) ∧
           RegionState (getState C) !! Sym = Some RS ∧
           RefState.getAllocationFamily RS ≠ AF_Alloca.
Proof.
  unfold reportLeak. destruct (_ && _); [by intros ?%elem_of_nil|].
  destruct (RegionState (getState C) !! Sym) as [RS|];
    [|by intros ?%elem_of_nil].
  case_bool_decide as HF; [by intros ?%elem_of_nil|].
  destruct (getCheckIfTracked _ _ _) as [CK|]; [|by intros ?%elem_of_nil].
  intros ->%list_elem_of_singleton. by exists CK, RS.
Qed.

Lemma checkDeadSymbols_transition this isDead (C : CheckerContext) :
  let state := getState C in
  let LR := checkDeadSymbols_RegionState_loop isDead (RegionState state) in
  (∃ sym, isDead sym = true ∧ is_Some (RegionState state !! sym)) →
  ∃ state',
    checkDeadSymbols this isDead C =
      (Some state',
       if bool_decide (LR.2 ≠ []) && generateNonFatalErrorNode C
       then LR.2 ≫= reportLeak this C else []) ∧
    RegionState state' = LR.1 ∧
    ReallocPairs state' =
      foldl (λ m I, if isDead I.1 || isDead (ReallocatedSym I.2)
                    then delete I.1 m else m)
            (ReallocPairs state) (iter (ReallocPairs state)) ∧
    FreeReturnValue state' =
      foldl (λ m I, if isDead I.1 || isDead I.2 then delete I.1 m else m)
            (FreeReturnValue state) (iter (FreeReturnValue state)).
Proof.
  cbn zeta. intros (sym & Hd & [rs Hrs]).
  unfold checkDeadSymbols.
  pose proof (checkDeadSymbols_unchanged_iff isDead
                (RegionState (getState C))) as Hiff.
  destruct (checkDeadSymbols_RegionState_loop isDead
              (RegionState (getState C))) as [RS Errors].
  cbn [fst snd] in *.
  rewrite bool_decide_eq_false_2.
  2:{ intros E. pose proof (proj1 Hiff E sym Hd). congruence. }
  eexists. split; [reflexivity|]. cbn.
  set (st1 := foldl (checkDeadSymbols_ReallocPairs_body isDead) _ _).
  destruct (checkDeadSymbols_ReallocPairs_fold isDead
              (iter (ReallocPairs (getState C))) (getState C))
    as (_ & _ & _ & HF1 & HP1).
  fold st1 in HF1, HP1.
  destruct (checkDeadSymbols_FreeReturnValue_fold isDead
              (iter (FreeReturnValue st1)) st1)
    as (_ & _ & _ & HP2 & HF2).
  repeat split.
  - by rewrite HP2, HP1.
  - by rewrite HF2, HF1.
Qed.

(** C6, as the code has it.  When a dead symbol has a record in the region
    table, the state of the transition that [checkDeadSymbols] adds has no
    realloc pair and no free-return-value entry whose key or stored symbol
    is dead.  When no dead symbol has a record, the callback returns before
    it looks at these two tables and adds no transition. *)
Theorem checkDeadSymbols_no_dangling this isDead (C : CheckerContext) :
  ((∃ sym, isDead sym = true ∧
           is_Some (RegionState (getState C) !! sym)) →
   ∃ state', (checkDeadSymbols this isDead C).1 = Some state' ∧
     (∀ to p, ReallocPairs state' !! to = Some p →
              isDead to = false ∧ isDead (ReallocatedSym p) = false) ∧
     (∀ sym ret, FreeReturnValue state' !! sym = Some ret →
                 isDead sym = false ∧ isDead ret = false)) ∧
  ((∀ sym, isDead sym = true → RegionState (getState C) !! sym = None) →
   checkDeadSymbols this isDead C = (None, [])).
Proof.
  split.
  - intros Hex.
    destruct (checkDeadSymbols_transition this isDead C Hex)
      as (state' & -> & _ & HP & HF).
    exists state'. split; [done|]. split.
    + intros to p Hto. rewrite HP in Hto.
      apply (cleanup_no_dead
               (λ I : SymbolRef * ReallocPair,
                  isDead I.1 || isDead (ReallocatedSym I.2))) in Hto
        as [_ Hto].
      by apply orb_false_iff in Hto.
    + intros sym ret Hsym. rewrite HF in Hsym.
      apply (cleanup_no_dead
               (λ I : SymbolRef * SymbolRef, isDead I.1 || isDead I.2))
        in Hsym as [_ Hsym].
      by apply orb_false_iff in Hsym.
  - intros Hn. unfold checkDeadSymbols.
    apply checkDeadSymbols_unchanged_iff in Hn.
    destruct (checkDeadSymbols_RegionState_loop isDead
                (RegionState (getState C))) as [RS Errors].
    cbn [fst] in Hn. by rewrite bool_decide_eq_true_2.
Qed.

(** What [reportLeak] emits for a symbol that has a record. *)
Lemma reportLeak_iff this (C : CheckerContext) Sym RS e :
  RegionState (getState C) !! Sym = Some RS →
  e ∈ reportLeak this C Sym ↔
  ∃ CK, e = emitReport BT_Leak CK (Some Sym) ∧
        (ChecksEnabled this CK_MallocChecker = true ∨
         ChecksEnabled this CK_NewDeleteLeaksChecker = true) ∧
        RefState.Family RS ≠ AF_Alloca ∧
        getCheckIfTracked this (RefState.Family RS) true = Some CK.
Proof.
  intros HRS. unfold reportLeak, RefState.getAllocationFamily. rewrite HRS.
  destruct (ChecksEnabled this CK_MallocChecker) eqn:E1;
    destruct (ChecksEnabled this CK_NewDeleteLeaksChecker) eqn:E2;
    cbn [negb andb].
  4:{ split; [by intros ?%elem_of_nil|]. by intros (? & _ & [?|?] & _). }
  all: case_bool_decide as HF;
    [split; [by intros ?%elem_of_nil|by intros (? & _ & _ & ? & _)]|];
    destruct (getCheckIfTracked this (RefState.Family RS) true) as [CK|];
    [|split; [by intros ?%elem_of_nil|by intros (? & _ & _ & _ & ?)]];
    rewrite list_elem_of_singleton; split;
    [intros ->; exists CK; auto
    |by intros (CK' & -> & _ & _ & [= ->])].
Qed.

(** C2.  For a dead symbol that has a record.  The leak candidates are the
    list [Errors] that the callback collects and then hands, symbol by
    symbol, to [reportLeak] when the list is not empty and the engine
    yields a node: the events of the callback are the reports on the
    candidates.  The symbol is a candidate exactly when its record is
    [Allocated] or [AllocatedOfSizeZero].  Whatever the kind of the
    record, the callback adds a transition, to a state whose region table
    is the old one without the records of the dead symbols.  A leak report
    on the symbol is emitted exactly when it is a candidate, the engine
    yields a node, the malloc or the leaks sub-checker is on, the family of
    the record is not [AF_Alloca], and the sub-checker of the family is on;
    so for a candidate of the [AF_Alloca] family no leak report is
    emitted. *)
Theorem checkDeadSymbols_collects_leaks this isDead (C : CheckerContext)
    sym RS :
  let Errors :=
    (checkDeadSymbols_RegionState_loop isDead
       (RegionState (getState C))).2 in
  let res := checkDeadSymbols this isDead C in
  let live :=
    RefState.K RS = RefState.Allocated ∨
    RefState.K RS = RefState.AllocatedOfSizeZero in
  RegionState (getState C) !! sym = Some RS →
  isDead sym = true →
  (sym ∈ Errors ↔ live) ∧
  res.2 = (if bool_decide (Errors ≠ []) && generateNonFatalErrorNode C
           then Errors ≫= reportLeak this C else []) ∧
  (∃ state',
     res.1 = Some state' ∧
     ∀ s, RegionState state' !! s =
          if isDead s then None else RegionState (getState C) !! s) ∧
  (∀ CK,
     emitReport BT_Leak CK (Some sym) ∈ res.2 ↔
     live ∧
     generateNonFatalErrorNode C = true ∧
     (ChecksEnabled this CK_MallocChecker = true ∨
      ChecksEnabled this CK_NewDeleteLeaksChecker = true) ∧
     RefState.Family RS ≠ AF_Alloca ∧
     getCheckIfTracked this (RefState.Family RS) true = Some CK) ∧
  (sym ∈ Errors → RefState.Family RS = AF_Alloca →
   ∀ e, e ∈ res.2 → isLeakReportOn sym e = false).
Proof.
  cbn zeta. intros HRS Hd.
  pose proof (checkDeadSymbols_RegionState_loop_spec isDead
                (RegionState (getState C))) as Hspec.
  assert (Hex : ∃ s, isDead s = true ∧
                     is_Some (RegionState (getState C) !! s)).
  { exists sym. split; [done|]. by eexists. }
  destruct (checkDeadSymbols_transition this isDead C Hex)
    as (state' & -> & HRS' & _ & _). cbn zeta in HRS'.
  destruct (checkDeadSymbols_RegionState_loop isDead
              (RegionState (getState C))) as [RS' Errors].
  destruct Hspec as [Hlk HErr]. cbn [fst snd] in *.
  assert (Hcand : sym ∈ Errors ↔
                  RefState.K RS = RefState.Allocated ∨
                  RefState.K RS = RefState.AllocatedOfSizeZero).
  { rewrite HErr. unfold leaks. cbn [fst snd]. rewrite Hd. cbn [andb].
    unfold RefState.isAllocated, RefState.isAllocatedOfSizeZero. split.
    - intros [rs [E H]]. simplify_eq.
      apply orb_true_iff in H as [H|H]; apply bool_decide_eq_true in H;
        auto.
    - intros H. exists RS. split; [done|].
      rewrite orb_true_iff, !bool_decide_eq_true. done. }
  assert (Hrep : ∀ CK,
            emitReport BT_Leak CK (Some sym)
              ∈ (if bool_decide (Errors ≠ []) && generateNonFatalErrorNode C
                 then Errors ≫= reportLeak this C else []) ↔
            sym ∈ Errors ∧
            generateNonFatalErrorNode C = true ∧
            (ChecksEnabled this CK_MallocChecker = true ∨
             ChecksEnabled this CK_NewDeleteLeaksChecker = true) ∧
            RefState.Family RS ≠ AF_Alloca ∧
            getCheckIfTracked this (RefState.Family RS) true = Some CK).
  { intros CK. split.
    - destruct (bool_decide (Errors ≠ [])); cbn [andb];
        [|by intros ?%elem_of_nil].
      destruct (generateNonFatalErrorNode C); [|by intros ?%elem_of_nil].
      intros (s' & He & Hs')%list_elem_of_bind.
      pose proof (reportLeak_elem _ _ _ _ He) as (CK' & rs & [= -> ->] & _).
      apply (reportLeak_iff _ _ _ _ _ HRS) in He
        as (CK'' & [= ->] & Hon & HF & Htr).
      done.
    - intros (Hin & HN & Hon & HF & Htr).
      rewrite bool_decide_eq_true_2, HN.
      2:{ intros ->. by apply elem_of_nil in Hin. }
      cbn [andb]. apply list_elem_of_bind. exists sym. split; [|done].
      apply (reportLeak_iff _ _ _ _ _ HRS). by exists CK. }
  split; [done|]. split; [done|]. split; [|split].
  - exists state'. split; [done|]. intros s. by rewrite HRS', Hlk.
  - intros CK. rewrite Hrep, Hcand. done.
  - intros _ HF e He.
    destruct e as [BT CK [s|]|]; [|by destruct BT|done]. cbn.
    destruct BT; try done.
    destruct (decide (s = sym)) as [->|Hne];
      [|by rewrite bool_decide_eq_false_2].
    apply Hrep in He as (_ & _ & _ & HF' & _). done.
Qed.

(** *** Pointer escape *)

Lemma escapeRecord_idemp c o : escapeRecord c (escapeRecord c o) = escapeRecord c o.
Proof.
  destruct o as [RS|]; [|done]. cbn.
  destruct (_ && _) eqn:E; cbn; [done|]. by rewrite E.
Qed.

Lemma checkPointerEscapeAux_body_spec ES c (st : State) a :
  let st' := checkPointerEscapeAux_body ES c st a in
  core st' = core st ∧
  ReallocPairs st' = ReallocPairs st ∧
  FreeReturnValue st' = FreeReturnValue st ∧
  ReallocSizeZeroSymbols st' = ReallocSizeZeroSymbols st ∧
  ∀ s, RegionState st' !! s =
       if bool_decide (s = a) && isEscaping ES a
       then escapeRecord c (RegionState st !! s)
       else RegionState st !! s.
Proof.
  cbn zeta. unfold checkPointerEscapeAux_body, isEscaping.
  destruct (_ && negb _); cbn [negb].
  - repeat split. intros s. by rewrite andb_false_r.
  - destruct (RegionState st !! a) as [RS|] eqn:E.
    + destruct (_ && _) eqn:E2; repeat split; intros s;
        rewrite andb_true_r; case_bool_decide as Es; subst; cbn;
        rewrite ?E; cbn; rewrite ?E2; try done.
      * apply lookup_insert_eq.
      * by apply lookup_insert_ne.
    + repeat split. intros s. rewrite andb_true_r.
      case_bool_decide; subst; by rewrite ?E.
Qed.

Lemma checkPointerEscapeAux_fold ES c (l : list SymbolRef) (st : State) :
  let st' := foldl (checkPointerEscapeAux_body ES c) st l in
  core st' = core st ∧
  ReallocPairs st' = ReallocPairs st ∧
  FreeReturnValue st' = FreeReturnValue st ∧
  ReallocSizeZeroSymbols st' = ReallocSizeZeroSymbols st ∧
  (∀ s, s ∈ l → isEscaping ES s = true →
        RegionState st' !! s = escapeRecord c (RegionState st !! s)) ∧
  (∀ s, s ∉ l ∨ isEscaping ES s = false →
        RegionState st' !! s = RegionState st !! s).
Proof.
  revert st. induction l as [|a l IH]; intros st; cbn [foldl]; cbn zeta.
  - repeat split. intros s Hs. by apply elem_of_nil in Hs.
  - destruct (IH (checkPointerEscapeAux_body ES c st a))
      as (-> & -> & -> & -> & Ha & Hb).
    destruct (checkPointerEscapeAux_body_spec ES c st a)
      as (-> & -> & -> & -> & Hlk).
    repeat split.
    + intros s Hs Hf.
      destruct (decide (s ∈ l)) as [Hl|Hl].
      * rewrite Ha, Hlk by done.
        destruct (_ && _); [apply escapeRecord_idemp|done].
      * apply elem_of_cons in Hs as [->|Hs]; [|done].
        rewrite Hb, Hlk by (by left).
        by rewrite bool_decide_eq_true_2, Hf.
    + intros s Hs. rewrite Hb, Hlk.
      * case_bool_decide as E; [|done]. subst s. cbn.
        destruct Hs as [Hs|Hs]; [|by rewrite Hs].
        exfalso. apply Hs. by left.
      * destruct Hs as [Hs|Hs]; [|by right].
        left. intros Hin. apply Hs. by right.
Qed.

(** C8.  A symbol escapes when it is in the set handed to the callback, the
    escape policy does not keep it tracked (the callback does not return at
    once), and the policy singles out no other symbol.  For such a symbol
    whose record is [Allocated] or [AllocatedOfSizeZero], a regular escape
    leaves the record with the kind [Escaped] and with the statement and
    the family it had; a const escape does so when the family of the record
    is [AF_CXXNew] or [AF_CXXNewArray], and leaves the record as it is for
    any other family.  A record of another kind is left as it is by both
    escapes, whether the symbol escapes or not. *)
Theorem checkPointerEscapeAux_escapes (State : State) Escaped Call Kind
    sym RS :
  let direct := bool_decide (Kind = PSK_DirectEscapeOnCall) in
  let ES := if direct then EscapingSymbol Call else None in
  let live :=
    RefState.K RS = RefState.Allocated ∨
    RefState.K RS = RefState.AllocatedOfSizeZero in
  let ofNew :=
    RefState.Family RS = AF_CXXNew ∨ RefState.Family RS = AF_CXXNewArray in
  let escaped :=
    RefState.mk (RefState.Stmt RS) RefState.Escaped (RefState.Family RS) in
  RegionState State !! sym = Some RS →
  (sym ∈ Escaped →
   direct && negb (mayFreeAnyEscapedMemoryOrIsModeledExplicitly Call) &&
     negb (bool_decide (is_Some ES)) = false →
   isEscaping ES sym = true →
   live →
   RegionState (checkPointerEscape State Escaped Call Kind) !! sym
     = Some escaped ∧
   (ofNew →
    RegionState (checkConstPointerEscape State Escaped Call Kind) !! sym
      = Some escaped) ∧
   (¬ ofNew →
    RegionState (checkConstPointerEscape State Escaped Call Kind) !! sym
      = Some RS)) ∧
  (¬ live →
   RegionState (checkPointerEscape State Escaped Call Kind) !! sym
     = Some RS ∧
   RegionState (checkConstPointerEscape State Escaped Call Kind) !! sym
     = Some RS).
Proof.
  cbn zeta. intros HRS.
  assert (Hlive : RefState.isAllocated RS || RefState.isAllocatedOfSizeZero RS
                  = true ↔
                  RefState.K RS = RefState.Allocated ∨
                  RefState.K RS = RefState.AllocatedOfSizeZero).
  { unfold RefState.isAllocated, RefState.isAllocatedOfSizeZero.
    rewrite orb_true_iff, !bool_decide_eq_true. done. }
  assert (Hnew : checkIfNewOrNewArrayFamily RS = true ↔
                 RefState.Family RS = AF_CXXNew ∨
                 RefState.Family RS = AF_CXXNewArray).
  { unfold checkIfNewOrNewArrayFamily, RefState.getAllocationFamily.
    rewrite orb_true_iff, !bool_decide_eq_true. tauto. }
  split.
  - intros Hin Hgo Hesc Hl. apply Hlive in Hl.
    unfold checkPointerEscape, checkConstPointerEscape,
      checkPointerEscapeAux.
    rewrite Hgo. split; [|split].
    + destruct (checkPointerEscapeAux_fold
                  (if bool_decide (Kind = PSK_DirectEscapeOnCall)
                   then EscapingSymbol Call else None) false Escaped State)
        as (_ & _ & _ & _ & Ha & _).
      rewrite Ha, HRS by done. cbn. by rewrite Hl.
    + intros Hn. apply Hnew in Hn.
      destruct (checkPointerEscapeAux_fold
                  (if bool_decide (Kind = PSK_DirectEscapeOnCall)
                   then EscapingSymbol Call else None) true Escaped State)
        as (_ & _ & _ & _ & Ha & _).
      rewrite Ha, HRS by done. cbn. by rewrite Hl, Hn.
    + intros Hn.
      assert (checkIfNewOrNewArrayFamily RS = false) as Hn'.
      { destruct (checkIfNewOrNewArrayFamily RS); [|done].
        exfalso. apply Hn. by apply Hnew. }
      destruct (checkPointerEscapeAux_fold
                  (if bool_decide (Kind = PSK_DirectEscapeOnCall)
                   then EscapingSymbol Call else None) true Escaped State)
        as (_ & _ & _ & _ & Ha & _).
      rewrite Ha, HRS by done. cbn. by rewrite Hl, Hn'.
  - intros Hl.
    assert (RefState.isAllocated RS || RefState.isAllocatedOfSizeZero RS
            = false) as Hl'.
    { destruct (_ || _); [|done]. exfalso. apply Hl. by apply Hlive. }
    assert (∀ c, RegionState (checkPointerEscapeAux State Escaped Call Kind
                                c) !! sym = Some RS) as Hboth.
    { intros c. unfold checkPointerEscapeAux.
      destruct (_ && _ && _); [done|].
      destruct (checkPointerEscapeAux_fold
                  (if bool_decide (Kind = PSK_DirectEscapeOnCall)
                   then EscapingSymbol Call else None) c Escaped State)
        as (_ & _ & _ & _ & Ha & Hb).
      destruct (decide (sym ∈ Escaped)) as [Hin|Hin].
      - destruct (isEscaping
                    (if bool_decide (Kind = PSK_DirectEscapeOnCall)
                     then EscapingSymbol Call else None) sym) eqn:Hesc.
        + rewrite Ha, HRS by done. cbn. by rewrite Hl'.
        + rewrite Hb by (by right). done.
      - rewrite Hb by (by left). done. }
    split; apply Hboth.
Qed.

(** *** The zero-size check *)

(** C9.  With a size argument whose value is defined: unless the size is
    known to be zero (the zero branch is feasible and the non-zero branch is
    not), the check returns the non-zero branch; when the size is known to
    be zero and the returned symbol has a record, the record becomes
    [AllocatedOfSizeZero] in the zero branch if it is [Allocated], and the
    state is returned as it came otherwise. *)
Theorem ProcessZeroAllocCheck_branches (C : CheckerContext) E IndexOfSizeArg
    (State : State) RetVal Arg :
  ProcessZeroAllocCheck_Arg E IndexOfSizeArg = Some Arg →
  isDefinedSVal (getSVal C Arg) = true →
  let TF := assume State (evalEQ State (getSVal C Arg) (makeZeroVal Arg)) in
  (¬ (is_Some TF.1 ∧ TF.2 = None) →
   ProcessZeroAllocCheck C E IndexOfSizeArg (Some State) RetVal = TF.2) ∧
  (∀ TrueState Sym RS,
     TF = (Some TrueState, None) →
     getAsLocSymbol (default (getSVal C (Expr_stmt E)) RetVal) = Some Sym →
     RegionState State !! Sym = Some RS →
     ProcessZeroAllocCheck C E IndexOfSizeArg (Some State) RetVal =
       Some (if RefState.isAllocated RS
             then set_RegionState TrueState Sym
                    (RefState.getAllocatedOfSizeZero RS)
             else State)).
Proof.
  intros HArg Hdef. cbn zeta. unfold ProcessZeroAllocCheck.
  rewrite HArg, Hdef. cbn [negb].
  destruct (assume State _) as [[T|] [F|]]; cbn [fst snd]; split;
    try done.
  - intros H. exfalso. apply H. split; [by eexists|done].
  - intros TrueState Sym RS [= ->] -> ->.
    by destruct (RefState.isAllocated RS).
Qed.

(** *** Allocation *)

(** C5, as the code has it.  When the type of the call is not a pointer
    type, [MallocMemAux] returns the null state reference, whatever state
    it is given: no state is produced, and none is changed. *)
Theorem MallocMemAux_not_pointer (C : CheckerContext) CE Size Init
    (State : StateRef) Family SizeEx :
  isLocType CE = false →
  MallocMemAux C CE Size Init State Family = None ∧
  MallocMemAux_Expr C CE SizeEx Init State Family = None.
Proof.
  intros H. unfold MallocMemAux_Expr, MallocMemAux.
  destruct State; by rewrite ?H.
Qed.

(** *** Kernel allocators *)

(** [MallocMemAux] on a state, spelled out in the operations of the
    engine: the conjured value is bound to the call, the region it names
    gets its initial contents, the extent is constrained to the size, and
    the symbol of the call becomes [Allocated]. *)
Lemma MallocMemAux_Expr_Some (C : CheckerContext) CE SizeEx Init
    (St : State) Family :
  MallocMemAux_Expr C CE SizeEx Init (Some St) Family =
  if isLocType CE then
    let RetVal := getConjuredHeapSymbolVal (CE_stmt CE) in
    let Size := getSVal C SizeEx in
    let Bound :=
      bindDefaultInitial (BindExpr St (CE_stmt CE) RetVal) RetVal Init in
    R ← getAsRegion RetVal ≫= asSymbolicRegion;
    Sized ← (if isDefinedOrUnknownSVal Size
             then assumeTrue Bound (evalEQ Bound (getExtent R) Size)
             else Some Bound);
    Sym ← getAsLocSymbol (getSVal C (CE_stmt CE));
    Some (set_RegionState Sized Sym
            (RefState.mk (CE_stmt CE) RefState.Allocated Family))
  else None.
Proof.
  unfold MallocMemAux_Expr, MallocMemAux. destruct (isLocType CE); [|done].
  cbn [negb]. cbn zeta.
  destruct (getAsRegion _ ≫= asSymbolicRegion) as [R|]; [|done].
  cbn [mbind option_bind].
  destruct (if isDefinedOrUnknownSVal _ then _ else _) as [Sized|];
    [|done].
  cbn [mbind option_bind MallocUpdateRefState default].
  by destruct (getSVal C (CE_stmt CE)) as [| | | | | |R'];
    cbn; try destruct (StripCasts_asSymbolicRegion R').
Qed.

(** C7.  The kernel-malloc modeler of a call with flags, as the arm of
    [checkPostStmt] runs it.  It masks the last argument with the zero flag
    of the system (0x0100 on FreeBSD, 0x0002 on NetBSD, 0x0008 on OpenBSD,
    0x8000 on Linux), which it leaves in the cache.  [allocate St Init] is
    the modelling of the allocation from state [St]: the conjured heap
    value is bound to the call, the region it names is bound to the initial
    contents [Init], its extent is constrained to the size argument, and
    the symbol of the value of the call gets the record [Allocated] of the
    malloc family for the call.  The result is [allocate] with the
    contents zero, from the non-zero branch, exactly when the masked value
    can be computed and is known to be non-zero (the non-zero branch is
    feasible, the zero branch is not); in every other case, and on every
    other system, it is [allocate] with undefined contents from the state
    of the call.  A call that is not of a pointer type is not modelled.  A
    state that results has the record of the call for the symbol of its
    value. *)
Theorem performKernelMalloc_zero_flag this CE (C : CheckerContext)
    (State : State) :
  KernelZeroFlagVal this = None ∨
    KernelZeroFlagVal this = KernelZeroFlagOf (getOS C) →
  let FlagsEx := getArg CE (getNumArgs CE - 1) in
  let Flags := getSVal C FlagsEx in
  let result := (checkPostStmt_KernelMalloc this CE C State).1 in
  let RetVal := getConjuredHeapSymbolVal (CE_stmt CE) in
  let Size := getSVal C (getArg CE 0) in
  let allocate (St : ProgramState Core) (Init : SVal) : StateRef :=
    if isLocType CE then
      let Bound :=
        bindDefaultInitial (BindExpr St (CE_stmt CE) RetVal) RetVal Init in
      R ← getAsRegion RetVal ≫= asSymbolicRegion;
      Sized ← (if isDefinedOrUnknownSVal Size
               then assumeTrue Bound (evalEQ Bound (getExtent R) Size)
               else Some Bound);
      Sym ← getAsLocSymbol (getSVal C (CE_stmt CE));
      Some (set_RegionState Sized Sym
              (RefState.mk (CE_stmt CE) RefState.Allocated AF_Malloc))
    else None in
  (KernelZeroFlagOf FreeBSD = Some 256%Z ∧
   KernelZeroFlagOf NetBSD = Some 2%Z ∧
   KernelZeroFlagOf OpenBSD = Some 8%Z ∧
   KernelZeroFlagOf Linux = Some 32768%Z ∧
   KernelZeroFlagOf OtherOS = None) ∧
  (checkPostStmt_KernelMalloc this CE C State).2
    = KernelZeroFlagOf (getOS C) ∧
  match KernelZeroFlagOf (getOS C) with
  | None => result = allocate State UndefinedVal
  | Some ZeroFlagVal =>
      let MaskedFlags :=
        evalBinOp State BO_And Flags (makeIntVal ZeroFlagVal FlagsEx) in
      let usable := negb (getNumArgs CE <? 2) && isNonLoc Flags &&
                    negb (isUnknownOrUndef MaskedFlags) in
      (∀ TrueState,
         usable = true →
         assume State MaskedFlags = (Some TrueState, None) →
         result = allocate TrueState (nonloc_ConcreteInt 0)) ∧
      (usable = false ∨
       (∀ TrueState, assume State MaskedFlags ≠ (Some TrueState, None)) →
       result = allocate State UndefinedVal)
  end ∧
  (∀ st', result = Some st' →
          ∃ Sym, getAsLocSymbol (getSVal C (CE_stmt CE)) = Some Sym ∧
                 RegionState st' !! Sym =
                   Some (RefState.mk (CE_stmt CE) RefState.Allocated
                                     AF_Malloc)).
Proof.
  intros Hcache. cbn zeta. split; [done|].
  assert (Hrecord : ∀ St Init st',
            MallocMemAux_Expr C CE (getArg CE 0) Init (Some St) AF_Malloc
              = Some st' →
            ∃ Sym, getAsLocSymbol (getSVal C (CE_stmt CE)) = Some Sym ∧
                   RegionState st' !! Sym =
                     Some (RefState.mk (CE_stmt CE) RefState.Allocated
                                       AF_Malloc)).
  { intros St Init st'. rewrite MallocMemAux_Expr_Some.
    destruct (isLocType CE); [|done]. cbn zeta.
    destruct (getAsRegion _ ≫= asSymbolicRegion) as [R|]; [|done].
    cbn [mbind option_bind].
    destruct (if isDefinedOrUnknownSVal _ then _ else _) as [Sized|];
      [|done].
    cbn [mbind option_bind].
    destruct (getAsLocSymbol (getSVal C (CE_stmt CE))) as [Sym|];
      [|done].
    cbn [mbind option_bind]. intros [= <-]. exists Sym. split; [done|].
    cbn. apply lookup_insert_eq. }
  unfold checkPostStmt_KernelMalloc, performKernelMalloc.
  assert (Hc : match KernelZeroFlagVal this with
               | Some v => Some v
               | None => KernelZeroFlagOf (getOS C)
               end = KernelZeroFlagOf (getOS C)).
  { destruct Hcache as [->| ->]; [done|]. by destruct (KernelZeroFlagOf _). }
  rewrite Hc. clear Hc Hcache.
  rewrite <- !MallocMemAux_Expr_Some.
  destruct (KernelZeroFlagOf (getOS C)) as [ZeroFlagVal|];
    [|split; [done|]; split; [done|]; apply Hrecord].
  destruct (getNumArgs CE <? 2) eqn:Hn; cbn [negb andb].
  { split; [done|]. split; [by split|]. apply Hrecord. }
  destruct (isNonLoc (getSVal C (getArg CE (getNumArgs CE - 1)))) eqn:HNL;
    cbn [negb andb].
  2:{ split; [done|]. split; [by split|]. apply Hrecord. }
  destruct (isUnknownOrUndef _) eqn:HU; cbn [negb].
  { split; [done|]. split; [by split|]. apply Hrecord. }
  destruct (assume State _) as [[T|] [F|]] eqn:HA; cbn [fst snd];
    (split; [done|]); (split; [|apply Hrecord]); split; try done.
  - intros TrueState _ [= <-]. by rewrite MallocMemAux_Expr_Some.
  - intros [?|H]; [done|]. by destruct (H T).
Qed.

(** *** Deallocation *)

Lemma FreeMemAux_Expr_reach this (C : CheckerContext) ArgExpr ParentExpr
    (State : State) Hold k RNF R SymBase :
  reachesSymBase C ArgExpr State R SymBase →
  FreeMemAux_Expr this C ArgExpr ParentExpr (Some State) Hold k RNF =
  FreeMemAux_SymBase this C ParentExpr State R SymBase Hold RNF.
Proof.
  intros (HV & HA & HB & HM & HS). unfold FreeMemAux_Expr.
  rewrite HV. cbn.
  destruct (assume State (loc_MemRegionVal R)) as [nn n]. cbn in HA.
  rewrite HA, HB, HS. by destruct (getMemorySpace R).
Qed.

Lemma FreeMemAux_Expr_Some this (C : CheckerContext) ArgExpr ParentExpr
    (State : State) Hold k RNF st' k' evs :
  FreeMemAux_Expr this C ArgExpr ParentExpr (Some State) Hold k RNF
    = (Some st', k', evs) →
  ∃ R SymBase,
    reachesSymBase C ArgExpr State R SymBase ∧
    FreeMemAux_SymBase this C ParentExpr State R SymBase Hold RNF
      = (Some st', k', evs).
Proof.
  unfold FreeMemAux_Expr, reachesSymBase.
  destruct (isDefinedOrUnknownSVal _); cbn [negb]; [|done].
  destruct (isLoc _); cbn [negb]; [|done].
  destruct (assume State (getSVal C ArgExpr)) as [nn n] eqn:HA.
  destruct (_ && _) eqn:HN; [done|].
  destruct (isUnknownOrUndef _); [done|].
  destruct (getSVal C ArgExpr) as [| | | | | |R] eqn:HV; cbn; try done.
  destruct (isBlockDataRegion R) eqn:HB; [done|].
  destruct (getMemorySpace R) eqn:HM; try done;
    destruct (getBaseRegion_asSymbolicRegion R) as [SymBase|] eqn:HS;
    try done; intros H; exists R, SymBase; rewrite HA; cbn [fst snd];
    repeat split; try done; congruence.
Qed.

Abbreviation noDoubleFree :=
  (Forall (λ e : Event, isReportOf BT_DoubleFree e = false)).

Lemma reportOn_noDoubleFree (C : CheckerContext) BT CK Sym :
  BT ≠ BT_DoubleFree → noDoubleFree (reportOn C BT CK Sym).
Proof.
  intros HBT. unfold reportOn. destruct CK; [|done].
  destruct (generateErrorNode C); [|done].
  apply Forall_singleton. cbn. by rewrite bool_decide_eq_false_2.
Qed.


Lemma FreeMemAux_RsBase_spec this (C : CheckerContext) ParentExpr
    (State : State) R SymBase RsBase :
  (requestsDoubleFree State SymBase RsBase = true →
   FreeMemAux_RsBase this C ParentExpr State R SymBase RsBase
     = Some (ReportDoubleFree this C SymBase)) ∧
  (requestsDoubleFree State SymBase RsBase = false →
   ∀ evs, FreeMemAux_RsBase this C ParentExpr State R SymBase RsBase
            = Some evs → noDoubleFree evs) ∧
  (FreeMemAux_RsBase this C ParentExpr State R SymBase RsBase = None →
   RefState.getAllocationFamily RsBase ≠ AF_Alloca).
Proof.
  unfold FreeMemAux_RsBase, requestsDoubleFree.
  case_bool_decide as HF; cbn [negb andb].
  - repeat split; try done. intros _ evs [= <-]. unfold ReportFreeAlloca.
    destruct (ChecksEnabled this CK_MallocChecker);
      [by apply reportOn_noDoubleFree|].
    destruct (ChecksEnabled this CK_MismatchedDeallocatorChecker);
      [by apply reportOn_noDoubleFree|done].
  - destruct ((_ || _) && _); repeat split; try done.
    intros _ evs.
    destruct (_ || _ || _); [|done].
    destruct (bool_decide _); cbn [negb].
    + destruct (_ && _ && _); [|done]. intros [= <-].
      unfold ReportOffsetFree. destruct (_ && _); [done|].
      by apply reportOn_noDoubleFree.
    + intros [= <-]. unfold ReportMismatchedDealloc.
      destruct (negb _); [done|]. by apply reportOn_noDoubleFree.
Qed.

(** The record that a successful [FreeMemAux] writes. *)
Lemma FreeMemAux_SymBase_Some this (C : CheckerContext) ParentExpr
    (State : State) R SymBase Hold RNF st' k' evs :
  FreeMemAux_SymBase this C ParentExpr State R SymBase Hold RNF
    = (Some st', k', evs) →
  let RsBase := RegionState State !! SymBase in
  let Family := match RsBase with
                | Some RsBase => RefState.getAllocationFamily RsBase
                | None => getAllocationFamily C ParentExpr
                end in
  k' = match RsBase with
       | Some RsBase => RefState.isAllocated RsBase ||
                        RefState.isAllocatedOfSizeZero RsBase
       | None => false
       end ∧
  noDoubleFree evs ∧
  core st' = core State ∧
  RegionState st' =
    <[SymBase := if Hold then RefState.getRelinquished Family ParentExpr
                 else RefState.getReleased Family ParentExpr]>
      (RegionState State) ∧
  ReallocPairs st' = ReallocPairs State ∧
  ReallocSizeZeroSymbols st' = ReallocSizeZeroSymbols State ∧
  (RNF = false → FreeReturnValue st' !! SymBase = None) ∧
  (∀ RsBase, RegionState State !! SymBase = Some RsBase →
             RefState.getAllocationFamily RsBase ≠ AF_Alloca).
Proof.
  unfold FreeMemAux_SymBase. cbn zeta.
  destruct (RegionState State !! SymBase ≫= _) as [evs0|] eqn:HC; [done|].
  destruct (isFunctionPointerType SymBase); [done|].
  assert (HAlloca : ∀ RsBase, RegionState State !! SymBase = Some RsBase →
                      RefState.getAllocationFamily RsBase ≠ AF_Alloca).
  { intros RsBase E. rewrite E in HC. cbn in HC.
    by apply (FreeMemAux_RsBase_spec this C ParentExpr State R SymBase). }
  destruct RNF.
  - destruct (getAsSymbol (getSVal C ParentExpr)) as [Ret|];
      destruct Hold; intros [= <- <- <-]; repeat split; try done;
      by apply Forall_singleton.
  - destruct Hold; intros [= <- <- <-]; repeat split; try done;
      intros _; apply lookup_delete_eq.
Qed.


(** *** Reallocation *)

(** C4.  In the general case of [ReallocMemAux] (the pointer is not known to
    be null, the size is not known to be zero), a returned state maps the
    to-pointer to the from-pointer with the policy [OAR_FreeOnFailure] when
    the caller asks to free on failure, else [OAR_ToBeFreedAfterFailure]
    when [FreeMemAux] found the freed symbol [Allocated] or
    [AllocatedOfSizeZero], else [OAR_DoNotTrackAfterFailure]; and the
    dependency that keeps the from-pointer live as long as the to-pointer
    is registered. *)
Theorem ReallocMemAux_records_pair this (C : CheckerContext) CE
    (ShouldFreeOnFail : bool) (State : State) (SuffixWithN : bool) state'
    evs :
  let Arg0Val := getSVal C (getArg CE 0) in
  let TotalSize :=
    if SuffixWithN
    then evalMulForBufferSize C (getArg CE 1) (getArg CE 2)
    else getSVal C (getArg CE 1) in
  let Ptr := assume State (evalEQ State Arg0Val (loc_ConcreteInt 0)) in
  let Size := assume State (evalEQ State TotalSize (nonloc_ConcreteInt 0)) in
  bool_decide (is_Some Ptr.1) && negb (bool_decide (is_Some Ptr.2)) = false →
  bool_decide (is_Some Size.1) && negb (bool_decide (is_Some Size.2))
    = false →
  ReallocMemAux this C CE ShouldFreeOnFail (Some State) SuffixWithN
    = (Some state', evs) →
  ∃ FromPtr ToPtr R,
    Arg0Val = loc_MemRegionVal R ∧
    StripCasts_asSymbolicRegion R = Some FromPtr ∧
    getAsSymbol (getSVal C (CE_stmt CE)) = Some ToPtr ∧
    let known := (FreeMemAux this C CE (Some State) 0 false false false).1.2 in
    ReallocPairs state' !! ToPtr =
      Some (mkReallocPair FromPtr
              (if ShouldFreeOnFail then OAR_FreeOnFailure
               else if known then OAR_ToBeFreedAfterFailure
               else OAR_DoNotTrackAfterFailure)) ∧
    (getBaseRegion_asSymbolicRegion R = Some FromPtr →
     known = match RegionState State !! FromPtr with
             | Some RS => RefState.isAllocated RS ||
                          RefState.isAllocatedOfSizeZero RS
             | None => false
             end) ∧
    addSymbolDependency ToPtr FromPtr ∈ evs.
Proof.
  cbn zeta. intros HP HZ. unfold ReallocMemAux.
  destruct (SuffixWithN && _); [done|].
  destruct (getNumArgs CE <? 2) eqn:Hn; [done|].
  destruct (isDefinedOrUnknownSVal (getSVal C (getArg CE 0))); cbn [negb];
    [|done].
  destruct (isDefinedOrUnknownSVal _); cbn [negb]; [|done].
  destruct (assume State (evalEQ State (getSVal C (getArg CE 0)) _))
    as [P1 P2].
  destruct (assume State (evalEQ State _ (nonloc_ConcreteInt 0)))
    as [Z1 Z2].
  cbn [fst snd] in HP, HZ. rewrite HP, HZ. cbn [andb negb].
  destruct (getAsSymbol (getSVal C (getArg CE 0))) as [FromPtr|] eqn:HFrom;
    [|done].
  destruct (getAsSymbol (getSVal C (CE_stmt CE))) as [ToPtr|] eqn:HTo;
    [|done].
  destruct (FreeMemAux this C CE (Some State) 0 false false false)
    as [[stateFree known] evs1] eqn:HFree.
  destruct stateFree as [stateFree|]; [|done].
  destruct (MallocMemAux C CE _ UnknownVal (Some stateFree) AF_Malloc)
    as [stateRealloc|]; [|done].
  intros [= <- <-].
  unfold FreeMemAux in HFree.
  destruct (getNumArgs CE <? 0 + 1); [done|].
  apply FreeMemAux_Expr_Some in HFree
    as (R & SymBase & (HV & _ & _ & _ & HS) & HFree).
  exists FromPtr, ToPtr, R.
  rewrite HV in HFrom. cbn in HFrom.
  split; [done|]. split; [done|]. split; [done|].
  cbn [fst snd]. split; [|split].
  - cbn. rewrite lookup_insert_eq. unfold ReallocMemAux_Kind.
    by destruct ShouldFreeOnFail, known.
  - intros HB. rewrite HS in HB. injection HB as ->.
    by apply FreeMemAux_SymBase_Some in HFree as (-> & _).
  - cbn [app]. apply elem_of_app. right. by apply list_elem_of_singleton.
Qed.

End CheckerProofs.
(** * Further properties of the callbacks *)

Section CheckerInvariants.
Context {eng : Engine}.
Abbreviation State := (ProgramState Core).
Abbreviation StateRef := (option (ProgramState Core)).

(** ** The assumption hook *)

Lemma foldl_fixed {A B} (f : A → B → A) (a : A) (l : list B) :
  (∀ x, x ∈ l → f a x = a) → foldl f a l = a.
Proof.
  induction l as [|x l IH]; [done|]. intros H. cbn [foldl].
  rewrite (H x) by apply list_elem_of_here.
  apply IH. intros y Hy. apply H. by apply list_elem_of_further.
Qed.

(** After the hook no record and no realloc pair of a definitively null
    symbol is left, and the constraints are those of the incoming state. *)
Lemma evalAssume_clean (state : State) Cond Assumption :
  let state' := evalAssume state Cond Assumption in
  (∀ sym, AllocFailed state' sym = AllocFailed state sym) ∧
  (∀ sym, AllocFailed state sym = true → RegionState state' !! sym = None) ∧
  (∀ to, AllocFailed state to = true → ReallocPairs state' !! to = None).
Proof.
  unfold evalAssume.
  destruct (RegionState_loop_spec state) as (Hc & Hp & _ & _ & Hrs).
  set (mid := evalAssume_RegionState_loop state) in *.
  destruct (ReallocPairs_fold_frame (iter (ReallocPairs mid)) mid)
    as (Hc' & _ & _ & _ & _).
  repeat split.
  - intros sym. unfold AllocFailed, evalAssume_ReallocPairs_loop.
    by rewrite Hc', Hc.
  - intros sym Hf. unfold evalAssume_ReallocPairs_loop.
    rewrite ReallocPairs_fold_notReleased; rewrite Hrs, Hf; [done|].
    by intros RS [=].
  - intros to Hf. rewrite ReallocPairs_loop_pairs. subst mid.
    by rewrite evalAssume_AllocFailed_mid, Hf.
Qed.

(** X1. The assumption hook is idempotent: run on its own result, under any
    condition, it changes nothing, since no definitively null symbol is
    left in the region table or as the key of a realloc pair. *)
Theorem evalAssume_idempotent (state : State) Cond Assumption Cond'
    Assumption' :
  evalAssume (evalAssume state Cond Assumption) Cond' Assumption'
  = evalAssume state Cond Assumption.
Proof.
  destruct (evalAssume_clean state Cond Assumption) as (Hf & Hrs & Hrp).
  set (state' := evalAssume state Cond Assumption) in *.
  assert (evalAssume_RegionState_loop state' = state') as Hmid.
  { unfold evalAssume_RegionState_loop. apply foldl_fixed.
    intros [k rs] Hin%iter_elem_of. unfold evalAssume_RegionState_body.
    cbn [fst]. destruct (AllocFailed state' k) eqn:E; [|done].
    rewrite Hf in E. rewrite (Hrs k E) in Hin. done. }
  unfold evalAssume at 1. rewrite Hmid.
  unfold evalAssume_ReallocPairs_loop. apply foldl_fixed.
  intros [to p] Hin%iter_elem_of. unfold evalAssume_ReallocPairs_body.
  cbn [fst]. destruct (AllocFailed state' to) eqn:E; [|done].
  rewrite Hf in E. rewrite (Hrp to E) in Hin. done.
Qed.

(** ** Origins of the records *)

Lemma keepsOrigin_refl (m : gmap SymbolRef RefState.t) : keepsOrigin m m.
Proof. intros sym RS' H. by exists RS'. Qed.

Lemma keepsOrigin_trans (m1 m2 m3 : gmap SymbolRef RefState.t) :
  keepsOrigin m1 m2 → keepsOrigin m2 m3 → keepsOrigin m1 m3.
Proof.
  intros H12 H23 sym RS3 H3.
  destruct (H23 sym RS3 H3) as (RS2 & H2 & Hf & Hs).
  destruct (H12 sym RS2 H2) as (RS1 & H1 & Hf' & Hs').
  exists RS1. split; [done|]. split; congruence.
Qed.

Lemma keepsOrigin_pointwise (f : option RefState.t → option RefState.t)
    (m1 m2 : gmap SymbolRef RefState.t) :
  (∀ o RS', f o = Some RS' →
     ∃ RS, o = Some RS ∧
           RefState.getAllocationFamily RS' = RefState.getAllocationFamily RS ∧
           RefState.getStmt RS' = RefState.getStmt RS) →
  (∀ sym, m2 !! sym = m1 !! sym ∨ m2 !! sym = f (m1 !! sym)) →
  keepsOrigin m1 m2.
Proof.
  intros Hf H sym RS' H2. destruct (H sym) as [E|E]; rewrite E in H2.
  - by exists RS'.
  - by apply Hf.
Qed.

Lemma restoreOnFailure_origin k o RS' :
  restoreOnFailure k o = Some RS' →
  ∃ RS, o = Some RS ∧
        RefState.getAllocationFamily RS' = RefState.getAllocationFamily RS ∧
        RefState.getStmt RS' = RefState.getStmt RS.
Proof.
  destruct o as [RS|]; [|done]. cbn.
  destruct (RefState.isReleased RS); [destruct k|]; intros [= <-];
    by exists RS.
Qed.

Lemma escapeRecord_origin c o RS' :
  escapeRecord c o = Some RS' →
  ∃ RS, o = Some RS ∧
        RefState.getAllocationFamily RS' = RefState.getAllocationFamily RS ∧
        RefState.getStmt RS' = RefState.getStmt RS.
Proof.
  destruct o as [RS|]; [|done]. cbn.
  destruct (_ && _); intros [= <-]; by exists RS.
Qed.

Lemma ReallocPairs_fold_origin (l : list (SymbolRef * ReallocPair)) st :
  keepsOrigin (RegionState st)
              (RegionState (foldl evalAssume_ReallocPairs_body st l)).
Proof.
  revert st. induction l as [|I l IH]; intros st; [apply keepsOrigin_refl|].
  cbn [foldl]. eapply keepsOrigin_trans; [|apply IH].
  apply (keepsOrigin_pointwise (restoreOnFailure (Kind I.2)));
    [apply restoreOnFailure_origin|].
  intros sym. rewrite ReallocPairs_body_lookup.
  destruct (_ && _); auto.
Qed.

(** What [checkDeadSymbols] returns when it adds a transition. *)
Lemma checkDeadSymbols_Some this isDead (C : CheckerContext) state' evs :
  checkDeadSymbols this isDead C = (Some state', evs) →
  let state := getState C in
  let LR := checkDeadSymbols_RegionState_loop isDead (RegionState state) in
  evs = (if bool_decide (LR.2 ≠ []) && generateNonFatalErrorNode C
         then LR.2 ≫= reportLeak this C else []) ∧
  core state' = core state ∧
  ReallocSizeZeroSymbols state' = ReallocSizeZeroSymbols state ∧
  RegionState state' = LR.1 ∧
  ReallocPairs state' =
    foldl (λ m I, if isDead I.1 || isDead (ReallocatedSym I.2)
                  then delete I.1 m else m)
          (ReallocPairs state) (iter (ReallocPairs state)) ∧
  FreeReturnValue state' =
    foldl (λ m I, if isDead I.1 || isDead I.2 then delete I.1 m else m)
          (FreeReturnValue state) (iter (FreeReturnValue state)).
Proof.
  unfold checkDeadSymbols. cbn zeta.
  destruct (checkDeadSymbols_RegionState_loop isDead
              (RegionState (getState C))) as [RS Errors] eqn:E.
  destruct (bool_decide (RS = RegionState (getState C))); [done|].
  intros [= <- <-]. cbn [fst snd].
  destruct (checkDeadSymbols_ReallocPairs_fold isDead
              (iter (ReallocPairs (getState C))) (getState C))
    as (Hc & Hrs & Hz & Hfr & Hrp).
  set (st1 := foldl (checkDeadSymbols_ReallocPairs_body isDead) (getState C)
                    (iter (ReallocPairs (getState C)))) in *.
  destruct (checkDeadSymbols_FreeReturnValue_fold isDead
              (iter (FreeReturnValue st1)) st1)
    as (Hc' & Hrs' & Hz' & Hrp' & Hfr').
  cbn [set_RegionStateMap core RegionState ReallocSizeZeroSymbols ReallocPairs
       FreeReturnValue].
  rewrite Hc', Hc, Hz', Hz, Hrp', Hrp, Hfr', Hfr. done.
Qed.

(** X2. The three callbacks that only clean or demote records (the
    assumption hook, pointer escape, dead-symbol cleanup) never start to
    track a symbol and never change the allocation family or the
    originating statement of a record. *)
Theorem cleaning_callbacks_keep_origin this (state : State) Cond Assumption
    Escaped Call Kind IsConstPointerEscape isDead (C : CheckerContext) :
  keepsOrigin (RegionState state)
              (RegionState (evalAssume state Cond Assumption)) ∧
  keepsOrigin (RegionState state)
              (RegionState (checkPointerEscapeAux state Escaped Call Kind
                              IsConstPointerEscape)) ∧
  (∀ state', (checkDeadSymbols this isDead C).1 = Some state' →
             keepsOrigin (RegionState (getState C)) (RegionState state')).
Proof.
  split; [|split].
  - unfold evalAssume, evalAssume_ReallocPairs_loop.
    eapply keepsOrigin_trans; [|apply ReallocPairs_fold_origin].
    destruct (RegionState_loop_spec state) as (_ & _ & _ & _ & Hrs).
    intros sym RS' H. rewrite Hrs in H.
    destruct (AllocFailed state sym); [done|]. by exists RS'.
  - unfold checkPointerEscapeAux. destruct (_ && _ && _);
      [apply keepsOrigin_refl|].
    match goal with |- context [foldl (checkPointerEscapeAux_body ?ES ?c)] =>
      destruct (checkPointerEscapeAux_fold ES c Escaped state)
        as (_ & _ & _ & _ & Ha & Hb);
      apply (keepsOrigin_pointwise (escapeRecord c));
        [apply escapeRecord_origin|];
      intros sym; destruct (decide (sym ∈ Escaped)) as [Hin|Hin];
        [destruct (isEscaping ES sym) eqn:E|]; auto
    end.
  - intros state' H.
    destruct (checkDeadSymbols this isDead C) as [o evs] eqn:E.
    cbn [fst] in H. subst o.
    apply checkDeadSymbols_Some in E as (_ & _ & _ & Hrs & _).
    rewrite Hrs.
    pose proof (checkDeadSymbols_RegionState_loop_spec isDead
                  (RegionState (getState C))) as Hl.
    destruct (checkDeadSymbols_RegionState_loop isDead
                (RegionState (getState C))) as [RS Errors].
    destruct Hl as [Hl _]. cbn [fst].
    intros sym RS' Hs. rewrite Hl in Hs.
    destruct (isDead sym); [done|]. by exists RS'.
Qed.

(** ** Dead symbols *)

(** X3. When [checkDeadSymbols] adds a transition, everything that does not
    involve a dead symbol is kept: the record of every live symbol, every
    realloc pair and every free-return-value entry whose two symbols are
    live, the engine's part of the state, and the whole set of zero-size
    realloc symbols (which the callback never prunes). *)
Theorem checkDeadSymbols_keeps_live this isDead (C : CheckerContext)
    state' evs :
  checkDeadSymbols this isDead C = (Some state', evs) →
  let state := getState C in
  core state' = core state ∧
  ReallocSizeZeroSymbols state' = ReallocSizeZeroSymbols state ∧
  (∀ sym, isDead sym = false →
          RegionState state' !! sym = RegionState state !! sym) ∧
  (∀ to p, ReallocPairs state !! to = Some p →
           isDead to = false → isDead (ReallocatedSym p) = false →
           ReallocPairs state' !! to = Some p) ∧
  (∀ sym ret, FreeReturnValue state !! sym = Some ret →
              isDead sym = false → isDead ret = false →
              FreeReturnValue state' !! sym = Some ret).
Proof.
  intros E. apply checkDeadSymbols_Some in E
    as (_ & Hc & Hz & Hrs & Hrp & Hfr).
  cbn zeta. split; [done|]. split; [done|]. split; [|split].
  - intros sym Hd. rewrite Hrs.
    pose proof (checkDeadSymbols_RegionState_loop_spec isDead
                  (RegionState (getState C))) as Hl.
    destruct (checkDeadSymbols_RegionState_loop isDead
                (RegionState (getState C))) as [RS Errors].
    destruct Hl as [Hl _]. cbn [fst]. by rewrite Hl, Hd.
  - intros to p Hp Hto Hfrom. rewrite Hrp, <- Hp.
    apply (foldl_delete_spec
             (λ I, isDead I.1 || isDead (ReallocatedSym I.2))).
    intros v Hv%iter_elem_of. cbn [fst snd].
    assert (v = p) as -> by congruence. by rewrite Hto, Hfrom.
  - intros sym ret Hp Hsym Hret. rewrite Hfr, <- Hp.
    apply (foldl_delete_spec (λ I, isDead I.1 || isDead I.2)).
    intros v Hv%iter_elem_of. cbn [fst snd].
    assert (v = ret) as -> by congruence. by rewrite Hsym, Hret.
Qed.

(** Every event of [checkDeadSymbols] is a leak report on a dead symbol
    with a live record. *)
Lemma checkDeadSymbols_event_sound this isDead (C : CheckerContext) e :
  e ∈ (checkDeadSymbols this isDead C).2 →
  ∃ sym RS CK,
    e = emitReport BT_Leak CK (Some sym) ∧
    RegionState (getState C) !! sym = Some RS ∧
    isDead sym = true ∧
    RefState.isAllocated RS || RefState.isAllocatedOfSizeZero RS = true ∧
    RefState.getAllocationFamily RS ≠ AF_Alloca ∧
    getCheckIfTracked this (RefState.getAllocationFamily RS) true
      = Some CK ∧
    ChecksEnabled this CK_MallocChecker ||
      ChecksEnabled this CK_NewDeleteLeaksChecker = true ∧
    generateNonFatalErrorNode C = true.
Proof.
  pose proof (checkDeadSymbols_RegionState_loop_spec isDead
                (RegionState (getState C))) as Hl.
  intros He.
  destruct (checkDeadSymbols this isDead C) as [[state'|] evs] eqn:E.
  2:{ unfold checkDeadSymbols in E. cbn zeta in E.
      destruct (checkDeadSymbols_RegionState_loop _ _) as [RS Errors].
      destruct (bool_decide _); [|done].
      injection E as <-. cbn in He. by apply elem_of_nil in He. }
  apply checkDeadSymbols_Some in E as (-> & _). cbn [snd] in He.
  destruct (checkDeadSymbols_RegionState_loop isDead
              (RegionState (getState C))) as [RS Errors].
  destruct Hl as [_ Hl]. cbn [snd] in He.
  destruct (bool_decide (Errors ≠ [])); [|by apply elem_of_nil in He].
  destruct (generateNonFatalErrorNode C); [|by apply elem_of_nil in He].
  cbn [andb] in He. apply list_elem_of_bind in He as (sym & He & Hsym).
  apply Hl in Hsym as (rs & Hrs & Hleak).
  unfold leaks in Hleak. cbn [fst snd] in Hleak.
  apply andb_prop in Hleak as [Hd Hlive].
  unfold reportLeak in He.
  destruct (negb _ && negb _) eqn:Hg; [by apply elem_of_nil in He|].
  rewrite Hrs in He.
  destruct (bool_decide _) eqn:Hfam; [by apply elem_of_nil in He|].
  apply bool_decide_eq_false in Hfam.
  destruct (getCheckIfTracked _ _ _) as [CK|] eqn:Hck;
    [|by apply elem_of_nil in He].
  apply list_elem_of_singleton in He as ->.
  exists sym, rs, CK. repeat split; try done.
  destruct (ChecksEnabled this CK_MallocChecker),
           (ChecksEnabled this CK_NewDeleteLeaksChecker); done.
Qed.

(** A dead symbol with a live record is reported when the gates are
    open. *)
Lemma checkDeadSymbols_event_complete this isDead (C : CheckerContext)
    sym RS CK :
  RegionState (getState C) !! sym = Some RS →
  isDead sym = true →
  RefState.isAllocated RS || RefState.isAllocatedOfSizeZero RS = true →
  RefState.getAllocationFamily RS ≠ AF_Alloca →
  getCheckIfTracked this (RefState.getAllocationFamily RS) true = Some CK →
  ChecksEnabled this CK_MallocChecker ||
    ChecksEnabled this CK_NewDeleteLeaksChecker = true →
  generateNonFatalErrorNode C = true →
  emitReport BT_Leak CK (Some sym) ∈ (checkDeadSymbols this isDead C).2.
Proof.
  pose proof (checkDeadSymbols_RegionState_loop_spec isDead
                (RegionState (getState C))) as Hl.
  intros Hrs Hd Hlive Hfam Hck Hg Hnode.
  destruct (checkDeadSymbols_transition this isDead C) as (st' & E & _).
  { exists sym. by rewrite Hrs. }
  rewrite E. cbn [snd].
  destruct (checkDeadSymbols_RegionState_loop isDead
              (RegionState (getState C))) as [RS0 Errors].
  destruct Hl as [_ Hl]. cbn [snd].
  assert (sym ∈ Errors) as Hin.
  { apply Hl. exists RS. split; [done|]. unfold leaks. cbn [fst snd].
    by rewrite Hd, Hlive. }
  rewrite Hnode, bool_decide_eq_true_2.
  2:{ intros ->. by apply elem_of_nil in Hin. }
  cbn [andb]. apply list_elem_of_bind. exists sym. split; [|done].
  unfold reportLeak. rewrite Hrs.
  rewrite bool_decide_eq_false_2 by done. rewrite Hck.
  destruct (ChecksEnabled this CK_MallocChecker),
           (ChecksEnabled this CK_NewDeleteLeaksChecker);
    try done; cbn; by apply list_elem_of_singleton.
Qed.

(** X4. The leak reports of [checkDeadSymbols] are exactly the dead symbols
    whose record is [Allocated] or [AllocatedOfSizeZero], of a family other
    than alloca, tracked by an enabled sub-checker: every event of the
    callback is such a report, and each such symbol is reported when the
    malloc or the new/delete-leaks sub-checker is on and the engine yields
    a node. *)
Theorem checkDeadSymbols_reports this isDead (C : CheckerContext) :
  let evs := (checkDeadSymbols this isDead C).2 in
  let state := getState C in
  (∀ e, e ∈ evs →
     ∃ sym RS CK,
       e = emitReport BT_Leak CK (Some sym) ∧
       RegionState state !! sym = Some RS ∧
       isDead sym = true ∧
       RefState.isAllocated RS || RefState.isAllocatedOfSizeZero RS = true ∧
       RefState.getAllocationFamily RS ≠ AF_Alloca ∧
       getCheckIfTracked this (RefState.getAllocationFamily RS) true
         = Some CK ∧
       ChecksEnabled this CK_MallocChecker ||
         ChecksEnabled this CK_NewDeleteLeaksChecker = true ∧
       generateNonFatalErrorNode C = true) ∧
  (∀ sym RS CK,
     RegionState state !! sym = Some RS →
     isDead sym = true →
     RefState.isAllocated RS || RefState.isAllocatedOfSizeZero RS = true →
     RefState.getAllocationFamily RS ≠ AF_Alloca →
     getCheckIfTracked this (RefState.getAllocationFamily RS) true
       = Some CK →
     ChecksEnabled this CK_MallocChecker ||
       ChecksEnabled this CK_NewDeleteLeaksChecker = true →
     generateNonFatalErrorNode C = true →
     emitReport BT_Leak CK (Some sym) ∈ evs).
Proof.
  cbn zeta. split.
  - intros e. apply checkDeadSymbols_event_sound.
  - intros sym RS CK. apply checkDeadSymbols_event_complete.
Qed.

(** ** Deallocation *)

(** When the checks on the record of the base symbol let the call pass. *)
Lemma FreeMemAux_RsBase_None this (C : CheckerContext) ParentExpr
    (State : State) R SymBase RsBase :
  FreeMemAux_RsBase this C ParentExpr State R SymBase RsBase = None ↔
  RefState.getAllocationFamily RsBase ≠ AF_Alloca ∧
  (RefState.isReleased RsBase || RefState.isRelinquished RsBase = true →
   (didPreviousFreeFail State SymBase).1 = true) ∧
  (RefState.isAllocated RsBase || RefState.isAllocatedOfSizeZero RsBase ||
     RefState.isEscaped RsBase = true →
   RefState.getAllocationFamily RsBase = getAllocationFamily C ParentExpr ∧
   hasNonZeroOffset R = false).
Proof.
  unfold FreeMemAux_RsBase. cbn zeta.
  change (isValid (getAsOffset R) && _ && _) with (hasNonZeroOffset R).
  set (dbl := RefState.isReleased RsBase || RefState.isRelinquished RsBase).
  set (live := RefState.isAllocated RsBase ||
               RefState.isAllocatedOfSizeZero RsBase ||
               RefState.isEscaped RsBase).
  assert ((dbl = true ∧ live = false) ∨ (dbl = false ∧ live = true)) as Hk.
  { subst dbl live. unfold RefState.isReleased, RefState.isRelinquished,
      RefState.isAllocated, RefState.isAllocatedOfSizeZero,
      RefState.isEscaped. destruct (RefState.K RsBase); cbn; auto. }
  clearbody dbl live.
  case_bool_decide as HF; [split; [done|by intros (? & _)]|].
  destruct Hk as [[-> ->]|[-> ->]]; cbn [andb negb].
  - destruct (didPreviousFreeFail State SymBase).1; cbn [negb].
    + split; [|done]. intros _. repeat split; done.
    + split; [done|]. intros (_ & H & _). by specialize (H eq_refl).
  - case_bool_decide as HM; cbn [negb].
    + destruct (hasNonZeroOffset R) eqn:HO.
      * split; [done|]. intros (_ & _ & H). by destruct (H eq_refl).
      * split; [|done]. intros _. repeat split; done.
    + split; [done|]. intros (_ & _ & H). by destruct (H eq_refl).
Qed.

(** The complete effect of a [FreeMemAux] that returns a state. *)
Lemma FreeMemAux_SymBase_post this (C : CheckerContext) ParentExpr
    (State : State) R SymBase Hold RNF st' k' evs :
  FreeMemAux_SymBase this C ParentExpr State R SymBase Hold RNF
    = (Some st', k', evs) →
  let Ret := if RNF then getAsSymbol (getSVal C ParentExpr) else None in
  isFunctionPointerType SymBase = false ∧
  (∀ RsBase, RegionState State !! SymBase = Some RsBase →
     FreeMemAux_RsBase this C ParentExpr State R SymBase RsBase = None) ∧
  evs = match Ret with
        | Some r => [addSymbolDependency SymBase r]
        | None => []
        end ∧
  FreeReturnValue st' =
    match Ret with
    | Some r => <[SymBase := r]> (delete SymBase (FreeReturnValue State))
    | None => delete SymBase (FreeReturnValue State)
    end.
Proof.
  unfold FreeMemAux_SymBase. cbn zeta.
  destruct (RegionState State !! SymBase ≫= _) as [evs0|] eqn:HC; [done|].
  destruct (isFunctionPointerType SymBase); [done|].
  assert (∀ RsBase, RegionState State !! SymBase = Some RsBase →
     FreeMemAux_RsBase this C ParentExpr State R SymBase RsBase = None)
    as HN.
  { intros RsBase E. by rewrite E in HC. }
  destruct RNF.
  - destruct (getAsSymbol (getSVal C ParentExpr)) as [Ret|];
      destruct Hold; intros [= <- <- <-]; done.
  - destruct Hold; intros [= <- <- <-]; done.
Qed.

(** X5. [FreeMemAux] either returns a state or reports, never both: when
    it returns a state none of its events is a report, they are at most the
    one symbol dependency recorded for a deallocator that returns null on
    failure, and there is no event at all otherwise.  So a call that has
    reported anything has returned the null state. *)
Theorem FreeMemAux_state_or_report this (C : CheckerContext) CE ArgExpr
    ParentExpr (State : StateRef) Num Hold k RNF :
  let viaExpr :=
    FreeMemAux_Expr this C ArgExpr ParentExpr State Hold k RNF in
  let viaCall := FreeMemAux this C CE State Num Hold k RNF in
  (is_Some viaExpr.1.1 →
   Forall (λ e, isReport e = false) viaExpr.2 ∧
   (RNF = false → viaExpr.2 = [])) ∧
  (is_Some viaCall.1.1 →
   Forall (λ e, isReport e = false) viaCall.2 ∧
   (RNF = false → viaCall.2 = [])).
Proof.
  assert (∀ ArgExpr ParentExpr,
    let res := FreeMemAux_Expr this C ArgExpr ParentExpr State Hold k RNF in
    is_Some res.1.1 →
    Forall (λ e, isReport e = false) res.2 ∧ (RNF = false → res.2 = []))
    as HE.
  { clear ArgExpr ParentExpr. intros ArgExpr ParentExpr res [st' Hst].
    destruct State as [State|]; [|done].
    destruct res as [[o k'] evs] eqn:E. cbn [fst snd] in *. subst o.
    apply FreeMemAux_Expr_Some in E as (R & SymBase & _ & E).
    apply FreeMemAux_SymBase_post in E as (_ & _ & -> & _).
    destruct RNF; [|done]. split; [|done].
    destruct (getAsSymbol _); [|done]. by apply Forall_singleton. }
  split; [apply HE|].
  unfold FreeMemAux. destruct State as [State|]; [|by intros [? ?]].
  destruct (_ <? _); [by intros [? ?]|]. apply HE.
Qed.

(** X6. What a successful [FreeMemAux] has done.  The argument reached the
    lookup of its base symbol, which is no function pointer; the record of
    the base symbol is now [Released] ([Relinquished] under [Hold]), made
    by the deallocating statement, of the family the symbol had (of the
    deallocator's family when the symbol was untracked); no other record,
    no other free-return-value entry, no realloc pair, no zero-size mark
    and nothing of the engine's state has changed.  A record that was there
    before is not of the alloca family, matches the deallocator when it
    was live or escaped, and was freed before only by a call that is known
    to have failed. *)
Theorem FreeMemAux_Expr_success this (C : CheckerContext) ArgExpr ParentExpr
    (State : State) Hold k RNF st' k' evs :
  FreeMemAux_Expr this C ArgExpr ParentExpr (Some State) Hold k RNF
    = (Some st', k', evs) →
  ∃ R SymBase rec,
    reachesSymBase C ArgExpr State R SymBase ∧
    isFunctionPointerType SymBase = false ∧
    RegionState st' !! SymBase = Some rec ∧
    RefState.K rec = (if Hold then RefState.Relinquished
                      else RefState.Released) ∧
    RefState.getStmt rec = ParentExpr ∧
    RefState.getAllocationFamily rec =
      match RegionState State !! SymBase with
      | Some RsBase => RefState.getAllocationFamily RsBase
      | None => getAllocationFamily C ParentExpr
      end ∧
    (∀ sym, sym ≠ SymBase →
            RegionState st' !! sym = RegionState State !! sym) ∧
    (∀ sym, sym ≠ SymBase →
            FreeReturnValue st' !! sym = FreeReturnValue State !! sym) ∧
    ReallocPairs st' = ReallocPairs State ∧
    ReallocSizeZeroSymbols st' = ReallocSizeZeroSymbols State ∧
    core st' = core State ∧
    (∀ RsBase, RegionState State !! SymBase = Some RsBase →
       k' = RefState.isAllocated RsBase ||
            RefState.isAllocatedOfSizeZero RsBase ∧
       RefState.getAllocationFamily RsBase ≠ AF_Alloca ∧
       (RefState.isReleased RsBase || RefState.isRelinquished RsBase = true →
        (didPreviousFreeFail State SymBase).1 = true) ∧
       (RefState.isAllocated RsBase || RefState.isAllocatedOfSizeZero RsBase
          || RefState.isEscaped RsBase = true →
        RefState.getAllocationFamily RsBase
          = getAllocationFamily C ParentExpr ∧
        hasNonZeroOffset R = false)).
Proof.
  intros E. apply FreeMemAux_Expr_Some in E as (R & SymBase & Hreach & E).
  pose proof (FreeMemAux_SymBase_Some _ _ _ _ _ _ _ _ _ _ _ E)
    as (Hk & _ & Hc & Hrs & Hrp & Hz & _ & _).
  pose proof (FreeMemAux_SymBase_post _ _ _ _ _ _ _ _ _ _ _ E)
    as (Hfp & Hchecks & _ & Hfr).
  eexists R, SymBase, _. split; [done|]. split; [done|].
  split; [by rewrite Hrs, lookup_insert_eq|].
  split; [by destruct Hold|]. split; [by destruct Hold|].
  split; [by destruct Hold|].
  split; [by intros sym Hne; rewrite Hrs, lookup_insert_ne|].
  split.
  { intros sym Hne. rewrite Hfr.
    destruct (if RNF then _ else _);
      [rewrite lookup_insert_ne by done|]; by rewrite lookup_delete_ne. }
  repeat (split; [done|]).
  intros RsBase HRs. rewrite HRs in Hk. split; [done|].
  apply (FreeMemAux_RsBase_None this C ParentExpr State R SymBase RsBase).
  by apply Hchecks.
Qed.

(** X7. A free of a pointer whose base symbol has a live or escaped record
    ([Allocated], [AllocatedOfSizeZero], [Escaped]) returns a state exactly
    when the record is not of the alloca family, its family is the
    deallocator's, the freed region is not at a known non-zero offset, and
    the symbol is no function pointer.  Such a free never reports a double
    free, and it tells the caller whether the memory was known to be
    allocated. *)
Theorem FreeMemAux_Expr_live_record this (C : CheckerContext) ArgExpr
    ParentExpr (State : State) Hold k RNF R SymBase RsBase :
  reachesSymBase C ArgExpr State R SymBase →
  RegionState State !! SymBase = Some RsBase →
  RefState.isAllocated RsBase || RefState.isAllocatedOfSizeZero RsBase ||
    RefState.isEscaped RsBase = true →
  let res :=
    FreeMemAux_Expr this C ArgExpr ParentExpr (Some State) Hold k RNF in
  (is_Some res.1.1 ↔
   RefState.getAllocationFamily RsBase ≠ AF_Alloca ∧
   RefState.getAllocationFamily RsBase = getAllocationFamily C ParentExpr ∧
   hasNonZeroOffset R = false ∧
   isFunctionPointerType SymBase = false) ∧
  res.1.2 = RefState.isAllocated RsBase ||
            RefState.isAllocatedOfSizeZero RsBase ∧
  Forall (λ e, isReportOf BT_DoubleFree e = false) res.2.
Proof.
  intros Hreach HRs Hlive. cbn zeta.
  rewrite (FreeMemAux_Expr_reach _ _ _ _ _ _ _ _ _ _ Hreach).
  assert (RefState.isReleased RsBase || RefState.isRelinquished RsBase
          = false) as Hnr.
  { revert Hlive. unfold RefState.isReleased, RefState.isRelinquished,
      RefState.isAllocated, RefState.isAllocatedOfSizeZero,
      RefState.isEscaped. destruct (RefState.K RsBase); done. }
  pose proof (FreeMemAux_RsBase_None this C ParentExpr State R SymBase RsBase)
    as HN.
  pose proof (FreeMemAux_RsBase_spec this C ParentExpr State R SymBase RsBase)
    as (_ & Hnd & _).
  assert (requestsDoubleFree State SymBase RsBase = false) as Hreq.
  { unfold requestsDoubleFree. rewrite Hnr.
    by destruct (negb (bool_decide _)). }
  specialize (Hnd Hreq).
  unfold FreeMemAux_SymBase. cbn zeta. rewrite HRs. cbn [mbind option_bind].
  destruct (FreeMemAux_RsBase this C ParentExpr State R SymBase RsBase)
    as [evs0|] eqn:EC; cbn [fst snd].
  - split; [|split; [done|by apply Hnd]]. split; [by intros [? ?]|].
    intros (H1 & H2 & H3 & _).
    assert (Some evs0 = None) as Habs; [|done].
    apply HN. repeat split; try done. by rewrite Hnr.
  - destruct (proj1 HN eq_refl) as (H1 & _ & H3).
    destruct (H3 Hlive) as [H3a H3b].
    destruct (isFunctionPointerType SymBase) eqn:Hfp; cbn [fst snd].
    + split; [|split; [done|]].
      * split; [by intros [? ?]|]. by intros (_ & _ & _ & ?).
      * unfold ReportFunctionPointerFree. destruct (negb _); [done|].
        by apply reportOn_noDoubleFree.
    + destruct (if RNF then _ else _) as [st1 evs1] eqn:E1.
      assert (Forall (λ e, isReportOf BT_DoubleFree e = false) evs1).
      { destruct RNF; [|by injection E1 as <- <-].
        destruct (getAsSymbol _); injection E1 as <- <-; [|done].
        by apply Forall_singleton. }
      destruct Hold; cbn [fst snd]; (split; [|done]);
        (split; [done|]); by intros _.
Qed.

(** ** Allocation, then deallocation *)

(** A state returned by [MallocMemAux] is a state with the record of the
    returned symbol set to [Allocated]. *)
Lemma MallocMemAux_Some (C : CheckerContext) CE Size Init (State : State)
    Family st1 :
  MallocMemAux C CE Size Init (Some State) Family = Some st1 →
  isLocType CE = true ∧
  ∃ Sym st0,
    getAsLocSymbol (getSVal C (CE_stmt CE)) = Some Sym ∧
    st1 = set_RegionState st0 Sym
            (RefState.getAllocated Family (CE_stmt CE)) ∧
    (st0 = bindDefaultInitial
             (BindExpr State (CE_stmt CE)
                (getConjuredHeapSymbolVal (CE_stmt CE)))
             (getConjuredHeapSymbolVal (CE_stmt CE)) Init ∨
     ∃ V, assumeTrue
            (bindDefaultInitial
               (BindExpr State (CE_stmt CE)
                  (getConjuredHeapSymbolVal (CE_stmt CE)))
               (getConjuredHeapSymbolVal (CE_stmt CE)) Init) V = Some st0).
Proof.
  unfold MallocMemAux. destruct (isLocType CE); cbn [negb]; [|done].
  destruct (getAsRegion _ ≫= asSymbolicRegion) as [R|]; [|done].
  intros H. split; [done|].
  destruct (isDefinedOrUnknownSVal Size).
  - destruct (assumeTrue _ _) as [st0|] eqn:EA; [|done].
    unfold MallocUpdateRefState in H. cbn [default] in H.
    destruct (isLoc _); cbn [negb] in H; [|done].
    destruct (getAsLocSymbol _) as [Sym|]; [|done].
    injection H as <-. exists Sym, st0. split; [done|]. split; [done|].
    right. eauto.
  - unfold MallocUpdateRefState in H. cbn [default] in H.
    destruct (isLoc _); cbn [negb] in H; [|done].
    destruct (getAsLocSymbol _) as [Sym|]; [|done].
    injection H as <-. eexists Sym, _. split; [done|]. split; [done|].
    by left.
Qed.


(** ** Pointer escape *)

Lemma ProgramState_eq (st1 st2 : State) :
  core st1 = core st2 →
  RegionState st1 = RegionState st2 →
  ReallocSizeZeroSymbols st1 = ReallocSizeZeroSymbols st2 →
  ReallocPairs st1 = ReallocPairs st2 →
  FreeReturnValue st1 = FreeReturnValue st2 →
  st1 = st2.
Proof. destruct st1, st2. cbn. by intros -> -> -> -> ->. Qed.

(** The loop of [checkPointerEscapeAux], by what it leaves for each
    symbol. *)
Lemma checkPointerEscapeAux_fold_lookup ES c (l : list SymbolRef)
    (st : State) s :
  RegionState (foldl (checkPointerEscapeAux_body ES c) st l) !! s =
  if bool_decide (s ∈ l) && isEscaping ES s
  then escapeRecord c (RegionState st !! s)
  else RegionState st !! s.
Proof.
  destruct (checkPointerEscapeAux_fold ES c l st)
    as (_ & _ & _ & _ & Ha & Hb).
  case_bool_decide as Hin; cbn [andb].
  - destruct (isEscaping ES s) eqn:E; [by apply Ha|]. apply Hb. by right.
  - apply Hb. by left.
Qed.

(** X9. The result of [checkPointerEscapeAux] depends on the escaped
    symbols only as a set: two traversals with the same members, in any
    order and with any repetitions, give the same state; and the callback
    is idempotent. *)
Theorem checkPointerEscapeAux_set (State : State) Escaped Escaped' Call Kind
    IsConstPointerEscape :
  (∀ s, s ∈ Escaped ↔ s ∈ Escaped') →
  checkPointerEscapeAux State Escaped Call Kind IsConstPointerEscape
  = checkPointerEscapeAux State Escaped' Call Kind IsConstPointerEscape ∧
  checkPointerEscapeAux
    (checkPointerEscapeAux State Escaped Call Kind IsConstPointerEscape)
    Escaped' Call Kind IsConstPointerEscape
  = checkPointerEscapeAux State Escaped Call Kind IsConstPointerEscape.
Proof.
  intros Hset. unfold checkPointerEscapeAux.
  destruct (_ && _ && _); [done|].
  set (ES := if bool_decide _ then _ else _).
  set (c := IsConstPointerEscape).
  assert (∀ l (st : ProgramState Core),
    let st' := foldl (checkPointerEscapeAux_body ES c) st l in
    core st' = core st ∧ ReallocPairs st' = ReallocPairs st ∧
    FreeReturnValue st' = FreeReturnValue st ∧
    ReallocSizeZeroSymbols st' = ReallocSizeZeroSymbols st) as Hframe.
  { intros l st.
    destruct (checkPointerEscapeAux_fold ES c l st)
      as (? & ? & ? & ? & _). done. }
  split.
  - destruct (Hframe Escaped State) as (Hc1 & Hp1 & Hf1 & Hz1).
    destruct (Hframe Escaped' State) as (Hc & Hp & Hf & Hz).
    apply ProgramState_eq; try congruence.
    apply map_eq. intros s. rewrite !checkPointerEscapeAux_fold_lookup.
    by rewrite (bool_decide_ext _ _ (Hset s)).
  - set (st1 := foldl (checkPointerEscapeAux_body ES c) State Escaped).
    destruct (Hframe Escaped' st1) as (Hc & Hp & Hf & Hz).
    apply ProgramState_eq; try done.
    apply map_eq. intros s. rewrite checkPointerEscapeAux_fold_lookup.
    subst st1. rewrite checkPointerEscapeAux_fold_lookup.
    rewrite <- (bool_decide_ext _ _ (Hset s)).
    destruct (bool_decide (s ∈ Escaped) && isEscaping ES s); [|done].
    apply escapeRecord_idemp.
Qed.

(** ** Reallocation, then failure *)




End CheckerInvariants.

(** ** Resource managing functions *)

Lemma isCMemFunction_attrs_Any (l : list OwnershipAttr) :
  isCMemFunction_attrs true true l =
  isCMemFunction_attrs false true l || isCMemFunction_attrs true false l.
Proof.
  induction l as [|Att l IH]; [done|]. cbn.
  destruct (getOwnKind Att); cbn; try done; by rewrite orb_true_r.
Qed.

Lemma isCMemFunction_attrs_Any_nonempty (l : list OwnershipAttr) :
  isCMemFunction_attrs true true l = true ↔ l ≠ [].
Proof.
  destruct l as [|Att l]; cbn; [done|]. by destruct (getOwnKind Att).
Qed.

(** X11. For [isCMemFunction], asking for any memory operation is asking
    for an allocation or a deallocation: the answer for [MOK_Any] is the
    disjunction of the answers for [MOK_Allocate] and [MOK_Free], in every
    family, with or without ownership attributes. *)
Theorem isCMemFunction_Any this FD Family :
  isCMemFunction this FD Family MOK_Any =
  isCMemFunction this FD Family MOK_Allocate ||
  isCMemFunction this FD Family MOK_Free.
Proof.
  destruct FD as [FD|]; [|done]. unfold isCMemFunction. cbn zeta.
  generalize (isMallocFreeName (getIdentifier FD)),
    (isMallocAllocName (getIdentifier FD)),
    (isIfNameIndexFreeName (getIdentifier FD)),
    (isIfNameIndexAllocName (getIdentifier FD)),
    (isAllocaAllocName (getIdentifier FD)).
  intros b1 b2 b3 b4 b5.
  rewrite isCMemFunction_attrs_Any.
  generalize (isCMemFunction_attrs false true
                (specific_attrs_OwnershipAttr FD)),
    (isCMemFunction_attrs true false (specific_attrs_OwnershipAttr FD)).
  intros a1 a2.
  destruct (isDeclFunction FD), Family, b1, b2, b3, b4, b5,
    (ShouldIncludeOwnershipAnnotatedFunctions this && hasAttrs FD), a1, a2;
    reflexivity.
Qed.

(** The name tables of the three families of C functions are disjoint. *)
Lemma names_Alloca_not_Malloc FunI :
  isAllocaAllocName FunI = true →
  isMallocFreeName FunI = false ∧ isMallocAllocName FunI = false ∧
  isIfNameIndexFreeName FunI = false ∧ isIfNameIndexAllocName FunI = false.
Proof.
  unfold isAllocaAllocName, isII. intros H.
  apply orb_true_iff in H as [H|H]; apply bool_decide_eq_true in H;
    subst FunI; by vm_compute.
Qed.

Lemma names_IfNameIndex_not_Malloc FunI :
  isIfNameIndexFreeName FunI || isIfNameIndexAllocName FunI = true →
  isMallocFreeName FunI = false ∧ isMallocAllocName FunI = false ∧
  isAllocaAllocName FunI = false.
Proof.
  unfold isIfNameIndexFreeName, isIfNameIndexAllocName, isII. intros H.
  apply orb_true_iff in H as [H|H]; apply bool_decide_eq_true in H;
    subst FunI; by vm_compute.
Qed.

(** A call has the family [AF_None] exactly when its callee is no memory
    function. *)
Lemma getAllocationFamilyOf_None this FD FD_CE :
  let callee := match FD with Some FD => Some FD | None => FD_CE end in
  getAllocationFamilyOf this (Some (S_CallExpr FD FD_CE)) ≠ AF_None ↔
  isMemFunction this callee = true.
Proof.
  unfold getAllocationFamilyOf, isMemFunction. cbn zeta.
  set (callee := match FD with Some FD => Some FD | None => FD_CE end).
  destruct (isCMemFunction this callee AF_Malloc MOK_Any); [done|].
  unfold isStandardNewDelete.
  destruct callee as [D|]; cbn [fmap option_fmap option_map default].
  2:{ cbn. split; [done|]. done. }
  destruct (isCMemFunction this (Some D) AF_IfNameIndex MOK_Any),
    (isCMemFunction this (Some D) AF_Alloca MOK_Any),
    (getOverloadedOperator D),
    (negb (getLocation_isValid D) || isInSystemHeader D); cbn; done.
Qed.

(** X12. The static [getAllocationFamily] and [isMemFunction] agree: a
    call has a family other than [AF_None] exactly when its callee is a
    memory function, although the two functions test the families in a
    different order.  The family of a statement is never
    [AF_InnerBuffer], and it is [AF_Alloca] only for a call of a plain
    function named alloca or _alloca. *)
Theorem getAllocationFamilyOf_isMemFunction this FD FD_CE S :
  let callee := match FD with Some FD => Some FD | None => FD_CE end in
  let Family := getAllocationFamilyOf this (Some (S_CallExpr FD FD_CE)) in
  (Family ≠ AF_None ↔ isMemFunction this callee = true) ∧
  (Family = AF_Alloca →
   ∃ D, callee = Some D ∧ isDeclFunction D = true ∧
        (getIdentifier D = Some II.alloca ∨
         getIdentifier D = Some II.win_alloca)) ∧
  getAllocationFamilyOf this S ≠ AF_InnerBuffer.
Proof.
  cbn zeta. split; [|split].
  - apply getAllocationFamilyOf_None.
  - unfold getAllocationFamilyOf. cbn zeta.
    set (callee := match FD with Some FD => Some FD | None => FD_CE end).
    destruct (isCMemFunction this callee AF_Malloc MOK_Any); [done|].
    destruct (_ && _); [done|]. destruct (_ && _); [done|].
    destruct (isCMemFunction this callee AF_IfNameIndex MOK_Any); [done|].
    destruct (isCMemFunction this callee AF_Alloca MOK_Any) eqn:E; [|done].
    intros _. destruct callee as [D|]; [|done]. exists D. split; [done|].
    unfold isCMemFunction in E. cbn in E.
    destruct (isDeclFunction D); [|done]. split; [done|].
    cbn in E. unfold isAllocaAllocName, isII in E.
    destruct (bool_decide (getIdentifier D = Some II.alloca)) eqn:E1.
    + left. by apply bool_decide_eq_true in E1.
    + destruct (bool_decide (getIdentifier D = Some II.win_alloca)) eqn:E2;
        [|done].
      right. by apply bool_decide_eq_true in E2.
  - destruct S as [[FD' FD_CE'|[]|[]| |]|]; cbn; try done.
    repeat match goal with
           | |- context [if ?b then _ else _] => destruct b; try done
           end.
Qed.

(** X13. A callee that is no standard new or delete operator, and whose
    ownership attributes do not count (pessimistic mode, or no such
    attribute), belongs to at most one family: [isCMemFunction] accepts it
    for a family exactly when that family is the one the static
    [getAllocationFamily] gives to a call of it.  The name tables of the
    malloc, if_nameindex and alloca families are disjoint. *)
Theorem isCMemFunction_family_unique this D FD_CE Family :
  isStandardNewDelete (Some D) = false →
  ShouldIncludeOwnershipAnnotatedFunctions this = false ∨
    specific_attrs_OwnershipAttr D = [] →
  isCMemFunction this (Some D) Family MOK_Any = true ↔
  Family ≠ AF_None ∧
  getAllocationFamilyOf this (Some (S_CallExpr (Some D) FD_CE)) = Family.
Proof.
  intros HND Hattrs. unfold getAllocationFamilyOf. cbn zeta.
  rewrite HND. cbn [andb].
  unfold isCMemFunction. cbn zeta.
  assert ((if ShouldIncludeOwnershipAnnotatedFunctions this && hasAttrs D
           then isCMemFunction_attrs true true
                  (specific_attrs_OwnershipAttr D)
           else false) = false) as ->.
  { destruct Hattrs as [->| ->]; [done|]. by destruct (_ && _). }
  pose proof (names_Alloca_not_Malloc (getIdentifier D)) as HA.
  pose proof (names_IfNameIndex_not_Malloc (getIdentifier D)) as HI.
  revert HA HI.
  generalize (isMallocFreeName (getIdentifier D)),
    (isMallocAllocName (getIdentifier D)),
    (isIfNameIndexFreeName (getIdentifier D)),
    (isIfNameIndexAllocName (getIdentifier D)),
    (isAllocaAllocName (getIdentifier D)).
  intros b1 b2 b3 b4 b5 HA HI.
  destruct (isDeclFunction D), Family, b1, b2, b3, b4, b5; cbn;
    try (split; [done|by intros [? ?]]);
    try (split; [done|by intros [? [=]]]);
    try (destruct (HA eq_refl) as (? & ? & ? & ?); discriminate);
    try (destruct (HI eq_refl) as (? & ? & ?); discriminate).
Qed.

Section CheckerInvariants2.
Context {eng : Engine}.
Abbreviation State := (ProgramState Core).
Abbreviation StateRef := (option (ProgramState Core)).

(** ** The assumption hook, record by record *)

(** What the second loop of [evalAssume] can make of a record. *)
Lemma ReallocPairs_fold_cases (l : list (SymbolRef * ReallocPair)) st s :
  let new := RegionState (foldl evalAssume_ReallocPairs_body st l) !! s in
  let old := RegionState st !! s in
  new = old ∨
  ∃ RS, old = Some RS ∧ RefState.isReleased RS = true ∧
        (new = None ∨
         new = Some (RefState.getAllocated (RefState.getAllocationFamily RS)
                                           (RefState.getStmt RS))).
Proof.
  cbn zeta. revert st. induction l as [|I l IH]; intros st; [by left|].
  cbn [foldl]. specialize (IH (evalAssume_ReallocPairs_body st I)).
  rewrite ReallocPairs_body_lookup in IH.
  destruct (AllocFailed st I.1 && bool_decide (s = ReallocatedSym I.2));
    [|done].
  destruct (RegionState st !! s) as [RS|] eqn:E; [|done].
  cbn [restoreOnFailure] in IH.
  destruct (RefState.isReleased RS) eqn:ER; [|done].
  destruct (Kind I.2); [| |].
  - destruct IH as [IH|(RS' & [= <-] & HR & _)]; [|done].
    right. exists RS. split; [done|]. split; [done|]. by right.
  - done.
  - destruct IH as [IH|(RS' & [=] & _)].
    right. exists RS. split; [done|]. split; [done|]. by left.
Qed.

(** X14. What [evalAssume] can do to a record: leave it as it is, remove
    it, or turn a [Released] record back to [Allocated] with the same
    family and statement.  It never makes a record [Released],
    [Relinquished], [Escaped] or [AllocatedOfSizeZero], and a record that
    comes back to [Allocated] is what the bug visitor reads as a failed
    reallocation at a statement that is no call. *)
Theorem evalAssume_record_cases (state : State) Cond Assumption sym :
  let new := RegionState (evalAssume state Cond Assumption) !! sym in
  let old := RegionState state !! sym in
  (new = old ∨ new = None ∨
   ∃ RS, old = Some RS ∧ RefState.isReleased RS = true ∧
         new = Some (RefState.getAllocated (RefState.getAllocationFamily RS)
                                           (RefState.getStmt RS))) ∧
  (∀ S, Visitor_isReleased new old S = false ∧
        Visitor_isRelinquished new old S = false) ∧
  (∀ S, new ≠ old → new ≠ None → S ≠ Some VS_CallExpr →
        Visitor_hasReallocFailed new old S = true).
Proof.
  cbn zeta.
  assert (let new := RegionState (evalAssume state Cond Assumption) !! sym in
          let old := RegionState state !! sym in
          new = old ∨ new = None ∨
          ∃ RS, old = Some RS ∧ RefState.isReleased RS = true ∧
            new = Some (RefState.getAllocated
                          (RefState.getAllocationFamily RS)
                          (RefState.getStmt RS))) as Hcases.
  { cbn zeta. unfold evalAssume, evalAssume_ReallocPairs_loop.
    destruct (RegionState_loop_spec state) as (_ & _ & _ & _ & Hrs).
    set (mid := evalAssume_RegionState_loop state) in *.
    destruct (ReallocPairs_fold_cases (iter (ReallocPairs mid)) mid sym)
      as [->|(RS & Hold & HR & Hnew)]; rewrite Hrs in *.
    - destruct (AllocFailed state sym); auto.
    - destruct (AllocFailed state sym); [done|].
      destruct Hnew as [->| ->]; [auto|]. right. right. by exists RS. }
  cbn zeta in Hcases. split; [done|].
  destruct Hcases as [->|[->|(RS & -> & HR & ->)]].
  - split; [|done]. intros S. unfold Visitor_isReleased, Visitor_isRelinquished.
    destruct (RegionState state !! sym) as [RS|]; cbn.
    + destruct (RefState.isReleased RS), (RefState.isRelinquished RS); cbn;
        rewrite ?andb_false_r; done.
    + by rewrite andb_false_r.
  - split; [|done]. intros S. unfold Visitor_isReleased, Visitor_isRelinquished.
    cbn. by rewrite andb_false_r.
  - split.
    + intros S. unfold Visitor_isReleased, Visitor_isRelinquished. cbn.
      by rewrite andb_false_r.
    + intros S _ _ HS. unfold Visitor_hasReallocFailed. cbn.
      revert HR. unfold RefState.isReleased, RefState.isAllocated,
        RefState.isAllocatedOfSizeZero.
      destruct (RefState.K RS); cbn; try done.
      intros _. by destruct S as [[]|].
Qed.

(** The realloc pairs after the assumption hook. *)
Lemma evalAssume_pairs (state : State) Cond Assumption to :
  ReallocPairs (evalAssume state Cond Assumption) !! to =
  if AllocFailed state to then None else ReallocPairs state !! to.
Proof.
  unfold evalAssume. rewrite ReallocPairs_loop_pairs.
  rewrite evalAssume_AllocFailed_mid.
  by destruct (RegionState_loop_spec state) as (_ & -> & _).
Qed.

Lemma findFailedReallocSymbol_loop_spec (currMap : gmap SymbolRef ReallocPair)
    (l : list (SymbolRef * ReallocPair)) :
  match findFailedReallocSymbol_loop currMap l with
  | Some sym => sym ∈ l.*1 ∧ currMap !! sym = None
  | None => ∀ sym, sym ∈ l.*1 → is_Some (currMap !! sym)
  end.
Proof.
  induction l as [|[k p] l IH]; cbn [findFailedReallocSymbol_loop fst].
  - intros sym H. by apply elem_of_nil in H.
  - destruct (currMap !! k) as [q|] eqn:E.
    + destruct (findFailedReallocSymbol_loop currMap l) as [sym|].
      * destruct IH as [IH1 IH2]. split; [|done]. rewrite fmap_cons.
        by apply list_elem_of_further.
      * intros sym. rewrite fmap_cons. intros [->|H]%elem_of_cons; [|auto].
        cbn. by rewrite E.
    + split; [|done]. rewrite fmap_cons. apply list_elem_of_here.
Qed.

(** X15. [findFailedReallocSymbol] on the states before and after the
    assumption hook: a symbol it returns is the to-pointer of a realloc
    pair that the hook has just removed because the pointer is known to be
    null, and it returns none exactly when no pair has such a
    to-pointer. *)
Theorem findFailedReallocSymbol_evalAssume (state : State) Cond Assumption :
  let state' := evalAssume state Cond Assumption in
  (∀ to, findFailedReallocSymbol state' state = Some to →
         is_Some (ReallocPairs state !! to) ∧
         AllocFailed state to = true ∧
         ReallocPairs state' !! to = None) ∧
  (findFailedReallocSymbol state' state = None ↔
   ∀ to, is_Some (ReallocPairs state !! to) → AllocFailed state to = false).
Proof.
  cbn zeta. unfold findFailedReallocSymbol.
  pose proof (findFailedReallocSymbol_loop_spec
                (ReallocPairs (evalAssume state Cond Assumption))
                (iter (ReallocPairs state))) as H.
  destruct (findFailedReallocSymbol_loop _ _) as [sym|].
  - destruct H as [Hin Hnone]. apply iter_elem_of_fst in Hin.
    rewrite evalAssume_pairs in Hnone.
    assert (AllocFailed state sym = true) as Hf.
    { destruct (AllocFailed state sym); [done|].
      rewrite Hnone in Hin. by destruct Hin. }
    split.
    + intros to [= <-]. split; [done|]. split; [done|].
      by rewrite evalAssume_pairs, Hf.
    + split; [done|]. intros Hall. specialize (Hall sym Hin). congruence.
  - split; [done|]. split; [|done]. intros _ to Hto.
    specialize (H to (proj2 (iter_elem_of_fst _ _) Hto)).
    rewrite evalAssume_pairs in H.
    destruct (AllocFailed state to); [by destruct H|done].
Qed.

(** X16. The bug visitor reads a transition of a record in at most one
    way: of [isAllocated], [isReleased] and [isRelinquished] at most one
    holds, [hasReallocFailed] excludes [isReleased] and [isRelinquished],
    and it holds together with [isAllocated] only at a new-expression
    when the earlier record was tracked and not live. *)
Theorem Visitor_exclusive (RSCurr RSPrev : option RefState.t) Stmt :
  (Visitor_isAllocated RSCurr RSPrev Stmt = true →
   Visitor_isReleased RSCurr RSPrev Stmt = false ∧
   Visitor_isRelinquished RSCurr RSPrev Stmt = false) ∧
  (Visitor_isReleased RSCurr RSPrev Stmt = true →
   Visitor_isRelinquished RSCurr RSPrev Stmt = false ∧
   Visitor_hasReallocFailed RSCurr RSPrev Stmt = false) ∧
  (Visitor_isRelinquished RSCurr RSPrev Stmt = true →
   Visitor_hasReallocFailed RSCurr RSPrev Stmt = false) ∧
  (Visitor_isAllocated RSCurr RSPrev Stmt = true →
   Visitor_hasReallocFailed RSCurr RSPrev Stmt = true →
   Stmt = Some VS_CXXNewExpr ∧ is_Some RSPrev).
Proof.
  unfold Visitor_isAllocated, Visitor_isReleased, Visitor_isRelinquished,
    Visitor_hasReallocFailed, isLive, RefState.isAllocated,
    RefState.isAllocatedOfSizeZero, RefState.isReleased,
    RefState.isRelinquished.
  destruct RSCurr as [[s k f]|], RSPrev as [[s' k' f']|], Stmt as [[]|];
    cbn [RefState.K];
    try destruct k; try destruct k'; cbn; repeat split; try done;
    by eexists.
Qed.

(** ** Uses of released and of zero-sized memory *)

(** [checkUseAfterFree] finds a record to read whenever it reports. *)
Lemma checkUseAfterFree_spec this Sym (C : CheckerContext) :
  ∃ evs,
    checkUseAfterFree this Sym C = Some (isReleased Sym C, evs) ∧
    length evs ≤ 1 ∧
    ∀ e, e ∈ evs →
      ∃ CK RS,
        e = emitUseFree CK Sym (RefState.getAllocationFamily RS) ∧
        RegionState (getState C) !! Sym = Some RS ∧
        RefState.isReleased RS = true ∧
        getCheckIfTracked_Sym this C Sym false = Some CK ∧
        generateErrorNode C = true.
Proof.
  unfold checkUseAfterFree, isReleased, ReportUseAfterFree.
  destruct (RegionState (getState C) !! Sym) as [RS|] eqn:E.
  2:{ exists []. split; [done|]. split; [cbn; lia|].
      intros e H. by apply elem_of_nil in H. }
  destruct (RefState.isReleased RS) eqn:ER.
  2:{ exists []. split; [done|]. split; [cbn; lia|].
      intros e H. by apply elem_of_nil in H. }
  destruct (negb _ && negb _ && negb _).
  { exists []. split; [done|]. split; [cbn; lia|].
    intros e H. by apply elem_of_nil in H. }
  destruct (getCheckIfTracked_Sym this C Sym false) as [CK|] eqn:ECK.
  2:{ exists []. split; [done|]. split; [cbn; lia|].
      intros e H. by apply elem_of_nil in H. }
  destruct (generateErrorNode C) eqn:EN.
  2:{ exists []. split; [done|]. split; [cbn; lia|].
      intros e H. by apply elem_of_nil in H. }
  eexists. split; [done|]. split; [cbn; lia|].
  intros e ->%list_elem_of_singleton. by exists CK, RS.
Qed.

Lemma ReportUseZeroAllocated_spec this (C : CheckerContext) Sym :
  length (ReportUseZeroAllocated this C Sym) ≤ 1 ∧
  ∀ e, e ∈ ReportUseZeroAllocated this C Sym →
    ∃ CK, e = emitUseZeroAllocated CK Sym ∧
          getCheckIfTracked_Sym this C Sym false = Some CK ∧
          generateErrorNode C = true.
Proof.
  unfold ReportUseZeroAllocated.
  destruct (negb _ && negb _);
    [split; [cbn; lia|by intros e H%elem_of_nil]|].
  destruct (getCheckIfTracked_Sym this C Sym false) as [CK|];
    [|split; [cbn; lia|by intros e H%elem_of_nil]].
  destruct (generateErrorNode C);
    [|split; [cbn; lia|by intros e H%elem_of_nil]].
  split; [cbn; lia|]. intros e ->%list_elem_of_singleton. by exists CK.
Qed.

(** X17. [checkLocation] on an access through a symbol.  The record that
    [ReportUseAfterFree] dereferences is always there; the access gives at
    most one report; a use-after-free report means that the record of the
    symbol is [Released] and carries its family; a zero-size report means
    that the record is [AllocatedOfSizeZero], or that the symbol is
    untracked and marked as a zero-size reallocation; a double delete is
    never reported here. *)
Theorem checkLocation_reports this Sym (C : CheckerContext) :
  ∃ evs,
    checkLocation this (Some Sym) C = Some evs ∧
    length evs ≤ 1 ∧
    ∀ e, e ∈ evs →
      match e with
      | emitUseFree CK Sym' AF =>
          Sym' = Sym ∧
          ∃ RS, RegionState (getState C) !! Sym = Some RS ∧
                RefState.isReleased RS = true ∧
                AF = RefState.getAllocationFamily RS
      | emitUseZeroAllocated CK Sym' =>
          Sym' = Sym ∧
          match RegionState (getState C) !! Sym with
          | Some RS => RefState.isAllocatedOfSizeZero RS = true
          | None => Sym ∈ ReallocSizeZeroSymbols (getState C)
          end
      | emitDoubleDelete _ => False
      end.
Proof.
  unfold checkLocation.
  destruct (checkUseAfterFree_spec this Sym C) as (evs1 & -> & Hlen & Hevs).
  cbn [mbind option_bind]. eexists. split; [done|].
  unfold checkUseZeroAllocated, isReleased in *.
  destruct (ReportUseZeroAllocated_spec this C Sym) as [Hz1 Hz2].
  destruct (RegionState (getState C) !! Sym) as [RS|] eqn:E.
  - destruct (RefState.isAllocatedOfSizeZero RS) eqn:EZ.
    + assert (evs1 = []) as ->.
      { destruct evs1 as [|e evs1]; [done|].
        destruct (Hevs e) as (CK & RS' & _ & [= <-] & HR & _);
          [apply list_elem_of_here|].
        revert EZ HR. unfold RefState.isAllocatedOfSizeZero,
          RefState.isReleased. by destruct (RefState.K RS). }
      cbn [app]. split; [done|]. intros e He.
      by apply Hz2 in He as (CK & -> & _).
    + rewrite app_nil_r. split; [done|]. intros e He.
      apply Hevs in He as (CK & RS' & -> & [= <-] & HR & _).
      split; [done|]. by exists RS.
  - assert (evs1 = []) as ->.
    { destruct evs1 as [|e evs1]; [done|].
      destruct (Hevs e) as (CK & RS' & _ & [=] & _).
      apply list_elem_of_here. }
    cbn [app]. case_bool_decide as Hin.
    + split; [done|]. intros e He. by apply Hz2 in He as (CK & -> & _).
    + split; [cbn; lia|]. by intros e He%elem_of_nil.
Qed.

(** X18. Free, then use.  In the state returned by a [FreeMemAux] that
    released the memory ([Hold] off), [checkUseAfterFree] on the base
    symbol of the freed pointer answers [true], and it reports the use,
    with the family of the record, whenever the symbol is not marked as a
    zero-size reallocation, the sub-checker that tracks the family is on
    together with the malloc, new/delete or inner-pointer sub-checker, and
    the engine yields an error node.  After a [FreeMemAux] that passed the
    ownership on ([Hold] on), it answers [false] and reports nothing. *)
Theorem free_then_use this (C : CheckerContext) ArgExpr ParentExpr
    (State : State) (Hold : bool) k RNF st' k' evs (C' : CheckerContext)
    R SymBase :
  FreeMemAux_Expr this C ArgExpr ParentExpr (Some State) Hold k RNF
    = (Some st', k', evs) →
  reachesSymBase C ArgExpr State R SymBase →
  getState C' = st' →
  let Family :=
    match RegionState State !! SymBase with
    | Some RsBase => RefState.getAllocationFamily RsBase
    | None => getAllocationFamily C ParentExpr
    end in
  if Hold then checkUseAfterFree this SymBase C' = Some (false, [])
  else
    ∃ evs', checkUseAfterFree this SymBase C' = Some (true, evs') ∧
      ∀ CK,
        ChecksEnabled this CK_MallocChecker ||
          ChecksEnabled this CK_NewDeleteChecker ||
          ChecksEnabled this CK_InnerPointerChecker = true →
        SymBase ∉ ReallocSizeZeroSymbols State →
        getCheckIfTracked this Family false = Some CK →
        generateErrorNode C' = true →
        evs' = [emitUseFree CK SymBase Family].
Proof.
  intros HF Hreach HC'. cbn zeta.
  rewrite (FreeMemAux_Expr_reach _ _ _ _ _ _ _ _ _ _ Hreach) in HF.
  apply FreeMemAux_SymBase_Some in HF
    as (_ & _ & _ & HRs & _ & Hz & _). cbn zeta in HRs.
  unfold checkUseAfterFree, isReleased. rewrite HC', HRs, lookup_insert_eq.
  destruct Hold; [done|].
  change (RefState.isReleased (RefState.getReleased _ ParentExpr)) with true.
  cbn match. unfold ReportUseAfterFree.
  rewrite HC', HRs, lookup_insert_eq.
  destruct (negb _ && negb _ && negb _) eqn:Hg.
  { eexists. split; [done|]. intros CK Hen. exfalso.
    destruct (ChecksEnabled this CK_MallocChecker),
      (ChecksEnabled this CK_NewDeleteChecker),
      (ChecksEnabled this CK_InnerPointerChecker); done. }
  destruct (getCheckIfTracked_Sym this C' SymBase false) as [CK'|] eqn:ECK.
  2:{ eexists. split; [done|]. intros CK _ Hnz Hck _. exfalso.
      unfold getCheckIfTracked_Sym in ECK.
      rewrite HC', Hz, bool_decide_eq_false_2 in ECK by done.
      rewrite HRs, lookup_insert_eq in ECK. cbn in ECK. congruence. }
  destruct (generateErrorNode C') eqn:EN.
  2:{ eexists. split; [done|]. by intros CK _ _ _ ?. }
  eexists. split; [done|]. intros CK _ Hnz Hck _.
  unfold getCheckIfTracked_Sym in ECK.
  rewrite HC', Hz, bool_decide_eq_false_2 in ECK by done.
  rewrite HRs, lookup_insert_eq in ECK. cbn in ECK.
  cbn. congruence.
Qed.

(** X19. Zero-size allocation, then use.  When [ProcessZeroAllocCheck]
    finds the size to be zero on every path, then in the state it returns
    [checkUseZeroAllocated] asks for the zero-size report on the returned
    symbol, both when the symbol was tracked as [Allocated] (its record is
    now [AllocatedOfSizeZero]) and when it was untracked, as after realloc,
    provided the engine added no record for it (the symbol is now marked
    as a zero-size reallocation). *)
Theorem zero_alloc_then_use this (C : CheckerContext) E IndexOfSizeArg
    (State : State) RetVal Arg TrueState Sym st' (C' : CheckerContext) :
  ProcessZeroAllocCheck_Arg E IndexOfSizeArg = Some Arg →
  isDefinedSVal (getSVal C Arg) = true →
  assume State (evalEQ State (getSVal C Arg) (makeZeroVal Arg))
    = (Some TrueState, None) →
  getAsLocSymbol (default (getSVal C (Expr_stmt E)) RetVal) = Some Sym →
  match RegionState State !! Sym with
  | Some RS => RefState.isAllocated RS = true
  | None => RegionState TrueState !! Sym = None
  end →
  ProcessZeroAllocCheck C E IndexOfSizeArg (Some State) RetVal = Some st' →
  getState C' = st' →
  checkUseZeroAllocated this Sym C' = ReportUseZeroAllocated this C' Sym ∧
  match RegionState State !! Sym with
  | Some RS =>
      RegionState st' !! Sym = Some (RefState.getAllocatedOfSizeZero RS)
  | None => Sym ∈ ReallocSizeZeroSymbols st'
  end.
Proof.
  intros HArg HDef HAssume HSym Hrec HP HC'.
  unfold ProcessZeroAllocCheck in HP. rewrite HArg, HDef in HP.
  cbn [negb] in HP. rewrite HAssume, HSym in HP.
  unfold checkUseZeroAllocated. rewrite HC'.
  destruct (RegionState State !! Sym) as [RS|] eqn:ERS.
  - rewrite Hrec in HP. injection HP as <-.
    cbn [set_RegionState set_RegionStateMap RegionState].
    rewrite lookup_insert_eq. split; [|done].
    by change (RefState.isAllocatedOfSizeZero
                 (RefState.getAllocatedOfSizeZero RS)) with true.
  - injection HP as <-.
    cbn [add_ReallocSizeZeroSymbols RegionState ReallocSizeZeroSymbols].
    rewrite Hrec. split; [|set_solver].
    rewrite bool_decide_eq_true_2; [done|set_solver].
Qed.

Lemma checkPreCall_args_spec this (C : CheckerContext) (Args : list SVal) :
  ∃ evs,
    checkPreCall_args this C Args = Some evs ∧
    length evs ≤ 1 ∧
    ∀ e, e ∈ evs →
      ∃ CK Sym RS ArgSVal,
        e = emitUseFree CK Sym (RefState.getAllocationFamily RS) ∧
        ArgSVal ∈ Args ∧ getAsSymbol ArgSVal = Some Sym ∧
        RegionState (getState C) !! Sym = Some RS ∧
        RefState.isReleased RS = true.
Proof.
  induction Args as [|ArgSVal Args IH]; cbn [checkPreCall_args].
  { exists []. split; [done|]. split; [cbn; lia|].
    by intros e H%elem_of_nil. }
  assert (∃ evs,
    checkPreCall_args this C Args = Some evs ∧
    length evs ≤ 1 ∧
    ∀ e, e ∈ evs →
      ∃ CK Sym RS ArgSVal',
        e = emitUseFree CK Sym (RefState.getAllocationFamily RS) ∧
        ArgSVal' ∈ ArgSVal :: Args ∧ getAsSymbol ArgSVal' = Some Sym ∧
        RegionState (getState C) !! Sym = Some RS ∧
        RefState.isReleased RS = true) as IH'.
  { destruct IH as (evs & ? & ? & H). exists evs. split; [done|].
    split; [done|]. intros e He.
    destruct (H e He) as (CK & Sym & RS & A & ? & ? & ?).
    exists CK, Sym, RS, A. split; [done|].
    split; [by apply list_elem_of_further|done]. }
  destruct (isLoc ArgSVal); [|done].
  destruct (getAsSymbol ArgSVal) as [Sym|] eqn:ES; [|done].
  destruct (checkUseAfterFree_spec this Sym C) as (evs1 & -> & Hlen & Hevs).
  cbn [mbind option_bind].
  destruct (isReleased Sym C); [|done].
  exists evs1. split; [done|]. split; [done|]. intros e He.
  destruct (Hevs e He) as (CK & RS & -> & ? & ? & _).
  exists CK, Sym, RS, ArgSVal. split; [done|].
  split; [apply list_elem_of_here|done].
Qed.

(** X20. [checkPreCall].  The record that [ReportUseAfterFree] dereferences
    is always there; a call gives at most one report; every report is
    about a symbol whose record is [Released]; and a call that is no
    destructor call, of a function that the malloc sub-checker (when on)
    knows as a deallocator of the malloc or if_nameindex family, is not
    checked for uses after free at all: its double free is left to the
    post-call callback. *)
Theorem checkPreCall_reports this MemFunctionInfo Call (C : CheckerContext) :
  ∃ evs,
    checkPreCall this MemFunctionInfo Call C = Some evs ∧
    length evs ≤ 1 ∧
    (∀ e, e ∈ evs →
       ∃ Sym RS,
         RegionState (getState C) !! Sym = Some RS ∧
         RefState.isReleased RS = true ∧
         (e = emitDoubleDelete Sym ∨
          ∃ CK, e = emitUseFree CK Sym (RefState.getAllocationFamily RS))) ∧
    (∀ FD,
       asCXXDestructorCall Call = None →
       asAnyFunctionCall Call = Some (Some FD) →
       ChecksEnabled this CK_MallocChecker = true →
       isCMemFunction MemFunctionInfo (Some FD) AF_Malloc MOK_Free ||
         isCMemFunction MemFunctionInfo (Some FD) AF_IfNameIndex MOK_Free
         = true →
       evs = []).
Proof.
  unfold checkPreCall. cbn zeta.
  set (P := λ evs : list UseReport,
    length evs ≤ 1 ∧
    (∀ e, e ∈ evs →
       ∃ Sym RS,
         RegionState (getState C) !! Sym = Some RS ∧
         RefState.isReleased RS = true ∧
         (e = emitDoubleDelete Sym ∨
          ∃ CK, e = emitUseFree CK Sym (RefState.getAllocationFamily RS)))).
  assert (P []) as Hnil.
  { split; [cbn; lia|]. by intros e H%elem_of_nil. }
  assert (∀ Sym, ∃ evs,
            checkUseAfterFree this Sym C = Some (isReleased Sym C, evs) ∧
            P evs) as HUAF.
  { intros Sym.
    destruct (checkUseAfterFree_spec this Sym C) as (evs & ? & ? & H).
    exists evs. split; [done|]. split; [done|]. intros e He.
    destruct (H e He) as (CK & RS & -> & ? & ? & _).
    exists Sym, RS. split; [done|]. split; [done|]. right. by exists CK. }
  assert (∃ evs, checkPreCall_args this C (getArgSVals Call) = Some evs ∧
                 P evs) as Hargs.
  { destruct (checkPreCall_args_spec this C (getArgSVals Call))
      as (evs & ? & ? & H).
    exists evs. split; [done|]. split; [done|]. intros e He.
    destruct (H e He) as (CK & Sym & RS & A & -> & _ & _ & ? & ?).
    exists Sym, RS. split; [done|]. split; [done|]. right. by exists CK. }
  set (rest := if match asAnyFunctionCall Call with
                  | Some (Some FD) => _ | Some None => true | None => false
                  end then _ else _).
  assert (∃ evs, rest = Some evs ∧ P evs ∧
    (∀ FD,
       asAnyFunctionCall Call = Some (Some FD) →
       ChecksEnabled this CK_MallocChecker = true →
       isCMemFunction MemFunctionInfo (Some FD) AF_Malloc MOK_Free ||
         isCMemFunction MemFunctionInfo (Some FD) AF_IfNameIndex MOK_Free
         = true →
       evs = [])) as Hrest.
  { subst rest.
    destruct (asAnyFunctionCall Call) as [[FD|]|] eqn:EFC.
    - destruct (ChecksEnabled this CK_MallocChecker &&
                (isCMemFunction MemFunctionInfo (Some FD) AF_Malloc MOK_Free
                 || isCMemFunction MemFunctionInfo (Some FD) AF_IfNameIndex
                      MOK_Free)) eqn:ESkip.
      { exists []. split; [done|]. split; [done|]. done. }
      assert (∀ evs FD',
        Some (Some FD) = Some (Some FD') →
        ChecksEnabled this CK_MallocChecker = true →
        isCMemFunction MemFunctionInfo (Some FD') AF_Malloc MOK_Free ||
          isCMemFunction MemFunctionInfo (Some FD') AF_IfNameIndex MOK_Free
          = true →
        evs = ([] : list UseReport)) as Hno.
      { intros evs FD' [= <-] H1 H2. rewrite H1, H2 in ESkip. done. }
      destruct (asCXXInstanceCall Call) as [ThisVal|].
      + destruct (getAsSymbol ThisVal) as [Sym|].
        * destruct (HUAF Sym) as (evs & -> & HP).
          cbn [mbind option_bind].
          destruct (isReleased Sym C).
          -- exists evs. split; [done|]. split; [done|]. apply Hno.
          -- destruct Hargs as (evs' & -> & HP').
             exists evs'. split; [done|]. split; [done|]. apply Hno.
        * exists []. split; [done|]. split; [done|]. done.
      + destruct Hargs as (evs' & -> & HP').
        exists evs'. split; [done|]. split; [done|]. apply Hno.
    - exists []. split; [done|]. split; [done|]. done.
    - destruct (asCXXInstanceCall Call) as [ThisVal|].
      + destruct (getAsSymbol ThisVal) as [Sym|].
        * destruct (HUAF Sym) as (evs & -> & HP).
          cbn [mbind option_bind].
          destruct (isReleased Sym C).
          -- exists evs. split; [done|]. split; [done|]. done.
          -- destruct Hargs as (evs' & -> & HP').
             exists evs'. split; [done|]. split; [done|]. done.
        * exists []. split; [done|]. split; [done|]. done.
      + destruct Hargs as (evs' & -> & HP').
        exists evs'. split; [done|]. split; [done|]. done. }
  clearbody rest.
  destruct Hrest as (evsR & -> & [HR1 HR2] & HR3).
  destruct (asCXXDestructorCall Call) as [ThisVal|] eqn:EDC.
  - destruct (getAsSymbol ThisVal) as [Sym|] eqn:ES.
    2:{ exists []. split; [done|]. destruct Hnil. done. }
    unfold checkDoubleDelete, isReleased.
    destruct (RegionState (getState C) !! Sym) as [RS|] eqn:E;
      [destruct (RefState.isReleased RS) eqn:ER|]; cbn [fst snd].
    + unfold ReportDoubleDelete.
      destruct (negb _);
        [exists []; split; [done|]; by destruct Hnil|].
      destruct (getCheckIfTracked_Sym this C Sym false);
        [|exists []; split; [done|]; by destruct Hnil].
      destruct (generateErrorNode C);
        [|exists []; split; [done|]; by destruct Hnil].
      eexists. split; [done|]. split; [cbn; lia|]. split; [|done].
      intros e ->%list_elem_of_singleton. exists Sym, RS. auto.
    + exists evsR. split; [done|]. split; [done|]. split; [done|]. done.
    + exists evsR. split; [done|]. split; [done|]. split; [done|]. done.
  - exists evsR. split; [done|]. split; [done|]. split; [done|].
    intros FD _. apply HR3.
Qed.

(** ** The post-call callback *)

(** [initIdentifierInfo] sets the cache and nothing else. *)
Lemma initIdentifierInfo_II_malloc info :
  II_malloc (initIdentifierInfo info) = Some II.malloc.
Proof.
  unfold initIdentifierInfo, II_malloc. by destruct (initialized info) eqn:E;
    cbn; rewrite ?E.
Qed.

Lemma initIdentifierInfo_Optimistic info :
  ShouldIncludeOwnershipAnnotatedFunctions (initIdentifierInfo info)
  = ShouldIncludeOwnershipAnnotatedFunctions info.
Proof.
  unfold initIdentifierInfo. by destruct (II_malloc info).
Qed.

(** The member as the loop over the attributes of [checkPostStmt] finds
    it. *)
Lemma checkPostStmt_info_Optimistic info (b : bool) :
  ShouldIncludeOwnershipAnnotatedFunctions
    (if b then initIdentifierInfo info else info)
  = ShouldIncludeOwnershipAnnotatedFunctions info.
Proof. destruct b; [apply initIdentifierInfo_Optimistic|done]. Qed.

(** One step of the loop of [FreeMemAttr] changes at most the record and
    the free-return-value entry of the freed symbol. *)
Lemma FreeMemAttr_body_spec this (C : CheckerContext) CE Att
    (st : State) k evs Arg :
  let '(st', _, _) := FreeMemAttr_body this C CE Att (st, k, evs) Arg in
  core st' = core st ∧
  ReallocPairs st' = ReallocPairs st ∧
  ReallocSizeZeroSymbols st' = ReallocSizeZeroSymbols st ∧
  ∀ sym, RegionState st' !! sym = RegionState st !! sym ∨
         ∃ Family,
           RegionState st' !! sym =
             Some (if bool_decide (getOwnKind Att = Holds)
                   then RefState.getRelinquished Family (CE_stmt CE)
                   else RefState.getReleased Family (CE_stmt CE)).
Proof.
  unfold FreeMemAttr_body.
  destruct (FreeMemAux this C CE (Some st) Arg _ k false)
    as [[[st2|] k2] evs2] eqn:E; [|by auto].
  unfold FreeMemAux in E. destruct (_ <? _); [done|].
  apply FreeMemAux_Expr_Some in E as (R & SymBase & _ & E).
  apply FreeMemAux_SymBase_Some in E as (_ & _ & Hc & HRs & Hp & Hz & _).
  cbn zeta in HRs. repeat (split; [done|]).
  intros sym. rewrite HRs. destruct (decide (sym = SymBase)) as [->|Hne].
  - right. rewrite lookup_insert_eq. eauto.
  - left. by rewrite lookup_insert_ne.
Qed.

(** X21. [FreeMemAttr] with an attribute that names one argument, outside
    the paths on which the source ends in [llvm_unreachable] or in its
    assertions: the call is of a deallocator family that is known and is
    not alloca, and every record of the given state has a family, an
    allocation statement of a known family, and a record with a family in
    the state of the context, which [getCheckIfTracked] reads.  While the
    identifier cache is not set, or with an attribute of another module,
    [FreeMemAttr] returns the null state and does nothing.  With the cache
    set and an attribute of the malloc module it never gives up the state:
    it returns the state of [FreeMemAux] when that has freed the argument,
    and the state it was given when [FreeMemAux] has failed, whose null
    result it discards; the events are those of [FreeMemAux].  The state
    returned differs from the given one at most in the record of one
    symbol, which the call has made [Released] ([Relinquished] for
    ownership_holds), and in free-return-value entries. *)
Theorem FreeMemAttr_keeps_state this MemFunctionInfo (C : CheckerContext)
    CE Att Arg (State : State) :
  args Att = [Arg] →
  getAllocationFamily C (CE_stmt CE) ≠ AF_None →
  getAllocationFamily C (CE_stmt CE) ≠ AF_Alloca →
  (∀ sym RS,
     RegionState State !! sym = Some RS →
     RefState.Family RS ≠ AF_None ∧
     getAllocationFamily C (RefState.Stmt RS) ≠ AF_None ∧
     ∃ RS0, RegionState (getState C) !! sym = Some RS0 ∧
            RefState.Family RS0 ≠ AF_None) →
  let Hold := bool_decide (getOwnKind Att = Holds) in
  let freed := FreeMemAux this C CE (Some State) Arg Hold false false in
  (Some (getModule Att) ≠ II_malloc MemFunctionInfo →
   FreeMemAttr this MemFunctionInfo C CE Att (Some State) = (None, [])) ∧
  (Some (getModule Att) = II_malloc MemFunctionInfo →
   ∃ st',
     FreeMemAttr this MemFunctionInfo C CE Att (Some State)
       = (Some st', freed.2) ∧
     st' = default State freed.1.1 ∧
     core st' = core State ∧
     ReallocPairs st' = ReallocPairs State ∧
     ReallocSizeZeroSymbols st' = ReallocSizeZeroSymbols State ∧
     ∀ sym, RegionState st' !! sym = RegionState State !! sym ∨
            ∃ Family,
              RegionState st' !! sym =
                Some (RefState.mk (CE_stmt CE)
                        (if Hold then RefState.Relinquished
                         else RefState.Released) Family)).
Proof.
  intros Hargs _ _ _. cbn zeta. unfold FreeMemAttr. split.
  - intros H. by rewrite bool_decide_eq_false_2.
  - intros H. rewrite bool_decide_eq_true_2 by done. cbn [negb].
    rewrite Hargs. cbn [foldl].
    pose proof (FreeMemAttr_body_spec this C CE Att State false [] Arg)
      as Hb.
    unfold FreeMemAttr_body in *.
    destruct (FreeMemAux this C CE (Some State) Arg _ false false)
      as [[StateI k] evs]. cbn [fst snd default].
    destruct Hb as (Hc & Hp & Hz & Hrs).
    eexists. split; [reflexivity|]. split; [by destruct StateI|].
    do 3 (split; [done|]).
    intros sym. destruct (Hrs sym) as [E|[Family E]]; [by left|].
    right. exists Family. rewrite E.
    by destruct (bool_decide (getOwnKind Att = Holds)).
Qed.

(** A callee that is no memory function matches no name of the tables and
    no standard operator, and in optimistic mode has no ownership
    attribute. *)
Lemma isMemFunction_false info FD :
  isMemFunction info (Some FD) = false →
  isStandardNewDelete (Some FD) = false ∧
  (isDeclFunction FD = true →
   isMallocFreeName (getIdentifier FD) = false ∧
   isMallocAllocName (getIdentifier FD) = false ∧
   isIfNameIndexFreeName (getIdentifier FD) = false ∧
   isIfNameIndexAllocName (getIdentifier FD) = false ∧
   isAllocaAllocName (getIdentifier FD) = false) ∧
  (ShouldIncludeOwnershipAnnotatedFunctions info = true →
   specific_attrs_OwnershipAttr FD = []).
Proof.
  unfold isMemFunction.
  destruct (isCMemFunction info (Some FD) AF_Malloc MOK_Any) eqn:E1;
    [done|].
  destruct (isCMemFunction info (Some FD) AF_IfNameIndex MOK_Any) eqn:E2;
    [done|].
  destruct (isCMemFunction info (Some FD) AF_Alloca MOK_Any) eqn:E3;
    [done|].
  destruct (isStandardNewDelete (Some FD)); [done|]. intros _.
  split; [done|]. unfold isCMemFunction in E1, E2, E3.
  cbn zeta in E1, E2, E3. split.
  - intros HD. rewrite HD in E1, E2, E3. cbn in E1, E2, E3.
    destruct (isMallocFreeName _); [done|].
    destruct (isMallocAllocName _); [done|].
    destruct (isIfNameIndexFreeName _); [done|].
    destruct (isIfNameIndexAllocName _); [done|].
    by destruct (isAllocaAllocName _).
  - intros HO. rewrite HO in E1. clear E2 E3.
    destruct (hasAttrs FD) eqn:HA.
    + destruct (specific_attrs_OwnershipAttr FD) as [|Att l] eqn:EL;
        [done|].
      exfalso. assert (isCMemFunction_attrs true true (Att :: l) = true)
        as Habs by by apply isCMemFunction_attrs_Any_nonempty.
      rewrite Habs in E1. revert E1.
      destruct (isDeclFunction FD), (isMallocFreeName _),
        (isMallocAllocName _), (isIfNameIndexFreeName _),
        (isIfNameIndexAllocName _), (isAllocaAllocName _); by vm_compute.
    + unfold hasAttrs in HA. unfold specific_attrs_OwnershipAttr.
      by destruct (getAttrs FD).
Qed.

(** The arms of the post-call callback do nothing for a function that
    matches no name of the tables and is no standard operator. *)
Lemma checkPostStmt_Function_unknown this (C : CheckerContext) CE Site FD :
  isStandardNewDelete (Some FD) = false →
  isMallocFreeName (getIdentifier FD) = false →
  isMallocAllocName (getIdentifier FD) = false →
  isIfNameIndexFreeName (getIdentifier FD) = false →
  isIfNameIndexAllocName (getIdentifier FD) = false →
  isAllocaAllocName (getIdentifier FD) = false →
  checkPostStmt_Function this C CE Site FD
  = GoOn (Some (getState C)) [] (KernelZeroFlagVal this).
Proof.
  unfold isMallocFreeName, isMallocAllocName, isIfNameIndexFreeName,
    isIfNameIndexAllocName, isAllocaAllocName.
  intros HND H1 H2 H3 H4 H5.
  repeat match goal with
         | H : _ || _ = false |- _ => apply orb_false_elim in H as [H ?]
         end.
  unfold checkPostStmt_Function. cbn zeta.
  repeat match goal with
         | H : isII _ _ = false |- _ => rewrite ?H; clear H
         end.
  rewrite HND. done.
Qed.

(** X22. The post-call callback leaves a call of an unknown function
    alone: when the callee is no memory function for [isMemFunction], and
    ownership attributes are read in optimistic mode only (the mismatched
    deallocator sub-checker is off, or the mode is optimistic), the
    callback adds the state it started from, reports nothing and leaves
    the cache of the kernel zero flag as it is. *)
Theorem checkPostStmt_unknown_function this MemFunctionInfo CE
    (C : CheckerContext) Site FD :
  wasInlined Site = false →
  getCalleeDecl Site = Some FD →
  isMemFunction MemFunctionInfo (Some FD) = false →
  ShouldIncludeOwnershipAnnotatedFunctions MemFunctionInfo = true ∨
    ChecksEnabled this CK_MismatchedDeallocatorChecker = false →
  checkPostStmt this MemFunctionInfo CE C Site
  = mkPostStmt (Some (Some (getState C))) [] (KernelZeroFlagVal this).
Proof.
  intros HI HFD HM Hmode. unfold checkPostStmt. rewrite HI, HFD.
  cbn zeta. rewrite checkPostStmt_info_Optimistic.
  apply isMemFunction_false in HM as (HND & Hnames & Hattrs).
  assert ((if isDeclFunction FD
           then checkPostStmt_Function this C CE Site FD
           else GoOn (Some (getState C)) [] (KernelZeroFlagVal this))
          = GoOn (Some (getState C)) [] (KernelZeroFlagVal this)) as ->.
  { destruct (isDeclFunction FD); [|done].
    destruct (Hnames eq_refl) as (? & ? & ? & ? & ?).
    by apply checkPostStmt_Function_unknown. }
  destruct (ShouldIncludeOwnershipAnnotatedFunctions MemFunctionInfo) eqn:HO.
  - rewrite (Hattrs eq_refl). cbn. by destruct (hasAttrs FD).
  - destruct Hmode as [?| ->]; [done|]. done.
Qed.

(** Once the state is null, the loop over the attributes keeps it null;
    an attribute of a module other than malloc makes it null. *)
Lemma checkPostStmt_attr_None this info (C : CheckerContext) CE
    (l : list OwnershipAttr) evs :
  foldl (checkPostStmt_attr this info C CE) (None, evs) l = (None, evs).
Proof.
  revert evs. induction l as [|Att l IH]; intros evs; [done|].
  cbn [foldl]. unfold checkPostStmt_attr at 2.
  destruct (getOwnKind Att); cbn; rewrite ?app_nil_r; apply IH.
Qed.

Lemma checkPostStmt_attr_foreign this info (C : CheckerContext) CE
    (l : list OwnershipAttr) St evs Att :
  Att ∈ l → Some (getModule Att) ≠ II_malloc info →
  (foldl (checkPostStmt_attr this info C CE) (St, evs) l).1 = None.
Proof.
  revert St evs. induction l as [|Att' l IH]; intros St evs Hin Hmod.
  { by apply elem_of_nil in Hin. }
  cbn [foldl]. apply elem_of_cons in Hin as [<-|Hin].
  - unfold checkPostStmt_attr at 2.
    unfold MallocMemReturnsAttr, FreeMemAttr.
    rewrite (bool_decide_eq_false_2 _ Hmod). cbn [negb].
    destruct St, (getOwnKind Att); cbn; by rewrite checkPostStmt_attr_None.
  - destruct (checkPostStmt_attr this info C CE (St, evs) Att')
      as [St' evs'].
    by apply IH.
Qed.

(** No module is the one of a cache that is not set, and a module other
    than malloc is not the one of any cache. *)
Lemma II_malloc_foreign info (m : IdentifierInfo) :
  m ≠ II.malloc ∨ initialized info = false → Some m ≠ II_malloc info.
Proof.
  unfold II_malloc. intros [H|H].
  - destruct (initialized info); congruence.
  - by rewrite H.
Qed.

Lemma checkPostStmt_Function_Return this (C : CheckerContext) CE Site FD
    added :
  contains (FunctionStr Site) "__isl_" = false →
  checkPostStmt_Function this C CE Site FD = Return added →
  added = None.
Proof.
  intros Hisl. unfold checkPostStmt_Function. cbn zeta.
  unfold suppressDeallocationsInSuspiciousContexts. rewrite Hisl.
  cbn [negb].
  destruct (checkPostStmt_KernelMalloc this CE C (getState C)) as [St cache].
  destruct (FreeMemAux this C CE (Some (getState C)) 0 false false false)
    as [[St1 k1] evs1].
  destruct (ReallocMemAux this C CE false (Some (getState C)) false)
    as [St2 evs2].
  destruct (ReallocMemAux this C CE true (Some (getState C)) false)
    as [St3 evs3].
  destruct (ReallocMemAux this C CE false (Some (getState C)) true)
    as [St4 evs4].
  repeat match goal with
         | |- context [if ?b then _ else _] =>
             destruct b; try (by intros [= <-]); try done
         end;
    try (destruct (getNumArgs CE) as [|[|[|[|?]]]];
         by first [intros [= <-]|intros [=]]);
    try (destruct (getOverloadedOperator FD); by intros [=]).
Qed.

(** X23. An ownership attribute of a module other than malloc switches the
    modelling of the whole call off.  When the callback reads the
    attributes (optimistic mode, or the mismatched deallocator sub-checker
    is on) and the callee carries such an attribute, the callback never
    adds a new state, whatever the function is called and whatever its
    other attributes say: it returns without a transition or hands the
    null state to [addTransition].  (The enclosing function is not one of
    the Integer Set Library, for which deallocations are suppressed.) *)
Theorem checkPostStmt_foreign_module this MemFunctionInfo CE
    (C : CheckerContext) Site FD Att :
  wasInlined Site = false →
  getCalleeDecl Site = Some FD →
  ShouldIncludeOwnershipAnnotatedFunctions MemFunctionInfo ||
    ChecksEnabled this CK_MismatchedDeallocatorChecker = true →
  Att ∈ specific_attrs_OwnershipAttr FD →
  getModule Att ≠ II.malloc →
  contains (FunctionStr Site) "__isl_" = false →
  let res := checkPostStmt this MemFunctionInfo CE C Site in
  transition res = None ∨ transition res = Some None.
Proof.
  intros HI HFD Hmode Hin Hmod Hisl. cbn zeta.
  unfold checkPostStmt. rewrite HI, HFD. cbn zeta.
  rewrite checkPostStmt_info_Optimistic, Hmode.
  assert (hasAttrs FD = true) as ->.
  { unfold hasAttrs. unfold specific_attrs_OwnershipAttr in Hin.
    destruct (getAttrs FD); [|done]. by apply elem_of_nil in Hin. }
  cbn [andb].
  destruct (if isDeclFunction FD then _ else _) as [added|St evs cache] eqn:E.
  - left. destruct (isDeclFunction FD); [|done].
    by rewrite (checkPostStmt_Function_Return _ _ _ _ _ _ Hisl E).
  - right.
    pose proof (checkPostStmt_attr_foreign this
                  (if isDeclFunction FD
                   then initIdentifierInfo MemFunctionInfo
                   else MemFunctionInfo) C CE _ St evs Att Hin
                  (II_malloc_foreign _ _ (or_introl Hmod))) as H.
    destruct (foldl _ _ _) as [St' evs']. cbn in H. by subst St'.
Qed.

(** X24. An ownership attribute frees in optimistic mode.  The callee
    is a memory function by its attribute only: it has none of the names
    of the tables and is no standard operator, and carries one attribute
    ownership_takes or ownership_holds of the malloc module on one
    argument, whose base symbol is untracked.  [getAllocationFamily] gives
    the call the family [AF_Malloc].  When the identifier cache is set as
    the loop over the attributes starts (the callee is of kind
    [Decl::Function], for which the callback sets it, or it was set
    before), the callback adds the state in which the symbol has a
    [Released] ([Relinquished]) record of family [AF_Malloc] for the call,
    and reports nothing.  When the cache is not set (a callee of another
    kind, a method for one, on a checker that has not seen a function
    yet), the module of the attribute is compared with a null identifier
    and the callback hands the null state to [addTransition]. *)
Theorem checkPostStmt_untracked_takes this MemFunctionInfo CE
    (C : CheckerContext) Site FD Att Arg R SymBase :
  wasInlined Site = false →
  getCalleeDecl Site = Some FD →
  ShouldIncludeOwnershipAnnotatedFunctions MemFunctionInfo = true →
  isMemFunction (mkMemFunctionInfoTy false (initialized MemFunctionInfo))
                (Some FD) = false →
  specific_attrs_OwnershipAttr FD = [Att] →
  getOwnKind Att ≠ Returns →
  getModule Att = II.malloc →
  args Att = [Arg] →
  Arg < getNumArgs CE →
  reachesSymBase C (getArg CE Arg) (getState C) R SymBase →
  RegionState (getState C) !! SymBase = None →
  isFunctionPointerType SymBase = false →
  getAllocationFamily C (CE_stmt CE)
    = getAllocationFamilyOf MemFunctionInfo
        (Some (S_CallExpr (Some FD) None)) →
  let res := checkPostStmt this MemFunctionInfo CE C Site in
  getAllocationFamily C (CE_stmt CE) = AF_Malloc ∧
  events res = [] ∧
  zeroFlagCache res = KernelZeroFlagVal this ∧
  (isDeclFunction FD = true ∨ initialized MemFunctionInfo = true →
   transition res =
     Some (Some (set_RegionState
                   (remove_FreeReturnValue (getState C) SymBase) SymBase
                   (RefState.mk (CE_stmt CE)
                      (if bool_decide (getOwnKind Att = Holds)
                       then RefState.Relinquished else RefState.Released)
                      AF_Malloc)))) ∧
  (isDeclFunction FD = false → initialized MemFunctionInfo = false →
   transition res = Some None).
Proof.
  intros HI HFD HO HM Hattrs Hkind Hmod Hargs Hlt Hreach Hun Hfp Hfam.
  assert (hasAttrs FD = true) as HhasAttrs.
  { unfold hasAttrs. unfold specific_attrs_OwnershipAttr in Hattrs.
    by destruct (getAttrs FD). }
  assert (getAllocationFamily C (CE_stmt CE) = AF_Malloc) as Hmalloc.
  { rewrite Hfam. unfold getAllocationFamilyOf.
    assert (isCMemFunction MemFunctionInfo (Some FD) AF_Malloc MOK_Any
            = true) as ->; [|done].
    unfold isCMemFunction. cbn zeta. rewrite HO, HhasAttrs, Hattrs.
    assert (isCMemFunction_attrs true true [Att] = true) as ->
      by by apply isCMemFunction_attrs_Any_nonempty.
    destruct (isDeclFunction FD), (isMallocFreeName _),
      (isMallocAllocName _), (isIfNameIndexFreeName _),
      (isIfNameIndexAllocName _), (isAllocaAllocName _); by vm_compute. }
  cbn zeta. unfold checkPostStmt. rewrite HI, HFD. cbn zeta.
  rewrite checkPostStmt_info_Optimistic, HO, HhasAttrs, Hattrs.
  apply isMemFunction_false in HM as (HND & Hnames & _).
  assert ((if isDeclFunction FD
           then checkPostStmt_Function this C CE Site FD
           else GoOn (Some (getState C)) [] (KernelZeroFlagVal this))
          = GoOn (Some (getState C)) [] (KernelZeroFlagVal this)) as ->.
  { destruct (isDeclFunction FD); [|done].
    destruct (Hnames eq_refl) as (? & ? & ? & ? & ?).
    by apply checkPostStmt_Function_unknown. }
  cbn [orb andb foldl]. unfold checkPostStmt_attr.
  set (info := if isDeclFunction FD
               then initIdentifierInfo MemFunctionInfo
               else MemFunctionInfo).
  assert (FreeMemAttr this info C CE Att (Some (getState C)) =
          if bool_decide (Some (getModule Att) = II_malloc info)
          then
            (Some (set_RegionState
                     (remove_FreeReturnValue (getState C) SymBase) SymBase
                     (RefState.mk (CE_stmt CE)
                        (if bool_decide (getOwnKind Att = Holds)
                         then RefState.Relinquished else RefState.Released)
                        AF_Malloc)), [])
          else (None, [])) as HFree.
  { unfold FreeMemAttr. destruct (bool_decide _); [|done].
    cbn [negb]. rewrite Hargs. cbn [foldl]. unfold FreeMemAttr_body.
    unfold FreeMemAux.
    assert (Nat.ltb (getNumArgs CE) (Arg + 1) = false) as Hge.
    { apply Nat.ltb_ge. lia. }
    rewrite Hge.
    rewrite (FreeMemAux_Expr_reach _ _ _ _ _ _ _ _ _ _ Hreach).
    unfold FreeMemAux_SymBase. rewrite Hun. cbn [mbind option_bind].
    rewrite Hfp, Hmalloc.
    by destruct (bool_decide (getOwnKind Att = Holds)). }
  assert (∀ X : StateRef * list Event,
            X.2 = [] →
            (let '(State, evs) :=
               let '(State, evsI) := X in (State, [] ++ evsI) in
             mkPostStmt (Some State) evs (KernelZeroFlagVal this))
            = mkPostStmt (Some X.1) [] (KernelZeroFlagVal this)) as Hshape.
  { intros [St evs] E. cbn in E. by subst evs. }
  assert ((FreeMemAttr this info C CE Att (Some (getState C))).2 = [])
    as Hnil.
  { rewrite HFree. by destruct (bool_decide _). }
  split; [done|].
  destruct (getOwnKind Att) eqn:EK; [|done|];
    rewrite (Hshape _ Hnil); cbn [events zeroFlagCache transition];
    (split; [done|]); (split; [done|]); rewrite HFree; subst info;
    (split;
     [intros Hset; rewrite bool_decide_eq_true_2; [done|];
      rewrite Hmod; destruct Hset as [-> | Hset];
      [by rewrite initIdentifierInfo_II_malloc|
       destruct (isDeclFunction FD);
       [by rewrite initIdentifierInfo_II_malloc|
        unfold II_malloc; by rewrite Hset]]
     |intros -> Hunset; rewrite bool_decide_eq_false_2; [done|];
      unfold II_malloc; by rewrite Hunset]).
Qed.

(** The loop of [suppressDeallocationsInSuspiciousContexts]. *)
Lemma suppressDeallocations_fold (C : CheckerContext) (l : list StmtRef)
    (st : State) :
  let st' := foldl (suppressDeallocations_body C) st l in
  core st' = core st ∧
  ReallocPairs st' = ReallocPairs st ∧
  FreeReturnValue st' = FreeReturnValue st ∧
  ReallocSizeZeroSymbols st' = ReallocSizeZeroSymbols st ∧
  ∀ sym, RegionState st' !! sym =
         if bool_decide (Some sym ∈ (getAsSymbol ∘ getSVal C) <$> l)
         then RefState.getEscaped <$> (RegionState st !! sym)
         else RegionState st !! sym.
Proof.
  cbn zeta. revert st. induction l as [|Arg l IH]; intros st.
  { repeat split. }
  cbn [foldl]. destruct (IH (suppressDeallocations_body C st Arg))
    as (Hc & Hp & Hf & Hz & Hrs).
  assert (core (suppressDeallocations_body C st Arg) = core st ∧
          ReallocPairs (suppressDeallocations_body C st Arg)
            = ReallocPairs st ∧
          FreeReturnValue (suppressDeallocations_body C st Arg)
            = FreeReturnValue st ∧
          ReallocSizeZeroSymbols (suppressDeallocations_body C st Arg)
            = ReallocSizeZeroSymbols st ∧
          ∀ sym, RegionState (suppressDeallocations_body C st Arg) !! sym =
                 if bool_decide (getAsSymbol (getSVal C Arg) = Some sym)
                 then RefState.getEscaped <$> (RegionState st !! sym)
                 else RegionState st !! sym) as (Hc' & Hp' & Hf' & Hz' & Hb).
  { unfold suppressDeallocations_body.
    destruct (getAsSymbol (getSVal C Arg)) as [Sym|] eqn:ES.
    - destruct (RegionState st !! Sym) as [RS|] eqn:ERS;
        do 4 (split; [done|]); intros sym.
      + cbn. case_bool_decide as Hs.
        * injection Hs as ->. by rewrite lookup_insert_eq, ERS.
        * rewrite lookup_insert_ne; [done|]. congruence.
      + case_bool_decide as Hs; [|done].
        injection Hs as ->. by rewrite ERS.
    - do 4 (split; [done|]). intros sym.
      by rewrite bool_decide_eq_false_2. }
  split; [congruence|]. split; [congruence|]. split; [congruence|].
  split; [congruence|].
  intros sym. rewrite Hrs, Hb, fmap_cons. cbn [compose].
  destruct (bool_decide (getAsSymbol (getSVal C Arg) = Some sym)) eqn:E1;
    destruct (bool_decide (Some sym ∈ (getAsSymbol ∘ getSVal C) <$> l))
      eqn:E2.
  - rewrite bool_decide_eq_true_2
      by (apply elem_of_cons; left; by apply bool_decide_eq_true in E1).
    destruct (RegionState st !! sym) as [[s k f]|]; [|done]. done.
  - rewrite bool_decide_eq_true_2
      by (apply elem_of_cons; left; by apply bool_decide_eq_true in E1).
    done.
  - rewrite bool_decide_eq_true_2
      by (apply elem_of_cons; right; by apply bool_decide_eq_true in E2).
    done.
  - rewrite bool_decide_eq_false_2; [done|].
    apply bool_decide_eq_false in E1, E2.
    intros [H|H]%elem_of_cons; [congruence|done].
Qed.

(** X25. Deallocation inside the Integer Set Library.  For a call of free,
    g_free or kfree with at least one argument, in an enclosing function
    whose declaration mentions [__isl_], the post-call callback frees
    nothing and reports nothing: it adds a state in which the record of
    every argument symbol is [Escaped], whatever state it was in (a
    [Released] record too), with its family and statement, and in which
    nothing else has changed; ownership attributes of the callee are not
    read. *)
Theorem checkPostStmt_isl_free this MemFunctionInfo CE (C : CheckerContext)
    Site FD :
  wasInlined Site = false →
  getCalleeDecl Site = Some FD →
  isDeclFunction FD = true →
  getIdentifier FD = Some II.free ∨ getIdentifier FD = Some II.g_free ∨
    getIdentifier FD = Some II.kfree →
  getNumArgs CE ≠ 0 →
  contains (FunctionStr Site) "__isl_" = true →
  ∃ st',
    checkPostStmt this MemFunctionInfo CE C Site
      = mkPostStmt (Some (Some st')) [] (KernelZeroFlagVal this) ∧
    core st' = core (getState C) ∧
    ReallocPairs st' = ReallocPairs (getState C) ∧
    FreeReturnValue st' = FreeReturnValue (getState C) ∧
    ReallocSizeZeroSymbols st' = ReallocSizeZeroSymbols (getState C) ∧
    (∀ sym i,
       i < getNumArgs CE →
       getAsSymbol (getSVal C (getArg CE i)) = Some sym →
       RegionState st' !! sym
       = RefState.getEscaped <$> (RegionState (getState C) !! sym)) ∧
    (∀ sym,
       (∀ i, i < getNumArgs CE →
             getAsSymbol (getSVal C (getArg CE i)) ≠ Some sym) →
       RegionState st' !! sym = RegionState (getState C) !! sym).
Proof.
  intros HI HFD HD Hname Hn Hisl.
  unfold checkPostStmt. rewrite HI, HFD, HD.
  unfold checkPostStmt_Function. cbn zeta.
  unfold suppressDeallocationsInSuspiciousContexts. rewrite Hisl.
  assert (Nat.eqb (getNumArgs CE) 0 = false) as -> by by apply Nat.eqb_neq.
  cbn [negb].
  destruct (suppressDeallocations_fold C (getArg CE <$> seq 0 (getNumArgs CE))
              (getState C)) as (Hc & Hp & Hf & Hz & Hrs).
  eexists. split.
  { destruct Hname as [->|[->| ->]]; by vm_compute. }
  do 4 (split; [done|]). split.
  - intros sym i Hi Hs. rewrite Hrs, bool_decide_eq_true_2; [done|].
    rewrite <- list_fmap_compose. apply list_elem_of_fmap. exists i.
    split; [by cbn|]. apply elem_of_seq. lia.
  - intros sym Hno. rewrite Hrs, bool_decide_eq_false_2; [done|].
    rewrite <- list_fmap_compose. intros (i & Hi & Hin)%list_elem_of_fmap.
    apply elem_of_seq in Hin. apply (Hno i); [lia|]. by cbn in Hi.
Qed.

(** X26. [markReleased], then use.  In the state that
    [allocation_state::markReleased] returns only the record of the given
    symbol has changed: it is [Released], of the inner-buffer family, with
    the given origin.  [checkUseAfterFree] on that symbol answers [true],
    and reports the use under the inner-pointer sub-checker, with the
    inner-buffer family, when that sub-checker is on, the symbol is not
    marked as a zero-size reallocation and the engine yields an error
    node; with the inner-pointer sub-checker off it reports nothing. *)
Theorem markReleased_then_use this (State : State) Sym Origin
    (C' : CheckerContext) :
  getState C' = markReleased State Sym Origin →
  Sym ∉ ReallocSizeZeroSymbols State →
  (∀ sym, sym ≠ Sym →
          RegionState (markReleased State Sym Origin) !! sym
          = RegionState State !! sym) ∧
  RegionState (markReleased State Sym Origin) !! Sym
    = Some (RefState.mk Origin RefState.Released AF_InnerBuffer) ∧
  checkUseAfterFree this Sym C' =
    Some (true,
          if ChecksEnabled this CK_InnerPointerChecker && generateErrorNode C'
          then [emitUseFree CK_InnerPointerChecker Sym AF_InnerBuffer]
          else []).
Proof.
  intros HC' Hnz. split; [|split].
  - intros sym Hne. cbn. by rewrite lookup_insert_ne.
  - cbn. by rewrite lookup_insert_eq.
  - unfold checkUseAfterFree, isReleased, ReportUseAfterFree,
      getCheckIfTracked_Sym.
    rewrite HC'. cbn [markReleased set_RegionState set_RegionStateMap
                      RegionState ReallocSizeZeroSymbols].
    rewrite lookup_insert_eq, bool_decide_eq_false_2 by done.
    cbn.
    destruct (ChecksEnabled this CK_InnerPointerChecker);
      [|by destruct (negb _ && negb _ && _)].
    rewrite !andb_false_r. cbn. by destruct (generateErrorNode C').
Qed.

(** ** Leaks, end to end *)

(** No event of [checkDeadSymbols] is a leak report on a symbol whose
    record is not live. *)
Lemma checkDeadSymbols_no_leak_on this isDead (C : CheckerContext) Sym :
  isLive (RegionState (getState C) !! Sym) = false →
  ∀ e, e ∈ (checkDeadSymbols this isDead C).2 → isLeakReportOn Sym e = false.
Proof.
  intros Hnl e He.
  apply checkDeadSymbols_event_sound in He
    as (sym & RS & CK & -> & HRs & _ & Hlive & _).
  cbn. case_bool_decide as Heq; [|done]. subst sym.
  rewrite HRs in Hnl. cbn in Hnl. congruence.
Qed.

(** No dead symbol has a record in the state that [checkDeadSymbols]
    adds. *)
Lemma checkDeadSymbols_Some_clean this isDead (C : CheckerContext) state'
    evs sym :
  checkDeadSymbols this isDead C = (Some state', evs) →
  isDead sym = true → RegionState state' !! sym = None.
Proof.
  intros E Hd. apply checkDeadSymbols_Some in E as (_ & _ & _ & Hrs & _).
  rewrite Hrs.
  pose proof (checkDeadSymbols_RegionState_loop_spec isDead
                (RegionState (getState C))) as Hl.
  destruct (checkDeadSymbols_RegionState_loop isDead
              (RegionState (getState C))) as [RS Errors].
  destruct Hl as [Hl _]. cbn [fst]. by rewrite Hl, Hd.
Qed.

(** X27. Dead symbols are cleaned, and leaks reported, once.  In the state
    of the transition that [checkDeadSymbols] adds, no dead symbol has a
    record, so the callback run again on that state with the same dead
    symbols finds nothing to do: it adds no transition and reports
    nothing. *)
Theorem checkDeadSymbols_twice this isDead (C : CheckerContext) state' evs
    (C' : CheckerContext) :
  checkDeadSymbols this isDead C = (Some state', evs) →
  getState C' = state' →
  (∀ sym, isDead sym = true → RegionState state' !! sym = None) ∧
  checkDeadSymbols this isDead C' = (None, []).
Proof.
  intros E HC'.
  assert (∀ sym, isDead sym = true → RegionState state' !! sym = None)
    as Hclean.
  { intros sym. by apply (checkDeadSymbols_Some_clean this isDead C state'
                           evs sym). }
  split; [done|].
  unfold checkDeadSymbols. cbn zeta. rewrite HC'.
  pose proof (proj2 (checkDeadSymbols_unchanged_iff isDead
                       (RegionState state')) Hclean) as Hsame.
  destruct (checkDeadSymbols_RegionState_loop isDead (RegionState state'))
    as [RS Errors].
  cbn [fst] in Hsame. by rewrite bool_decide_eq_true_2.
Qed.

(** X28. Allocation, then death.  When the symbol that [MallocMemAux] made
    [Allocated] dies in the state the modeler returned, [checkDeadSymbols]
    adds a transition to a state without its record, and reports the leak
    on it under the sub-checker that tracks the family for leaks, provided
    the family is not alloca, the malloc or the new/delete-leaks
    sub-checker is on and the engine yields a node; memory of the alloca
    family is never reported as leaked. *)
Theorem malloc_then_leak this (C : CheckerContext) CE Size Init
    (State : State) Family st1 Sym (C' : CheckerContext) isDead :
  MallocMemAux C CE Size Init (Some State) Family = Some st1 →
  getAsLocSymbol (getSVal C (CE_stmt CE)) = Some Sym →
  getState C' = st1 →
  isDead Sym = true →
  let res := checkDeadSymbols this isDead C' in
  (∃ st2, res.1 = Some st2 ∧ RegionState st2 !! Sym = None) ∧
  (∀ CK,
     Family ≠ AF_Alloca →
     getCheckIfTracked this Family true = Some CK →
     ChecksEnabled this CK_MallocChecker ||
       ChecksEnabled this CK_NewDeleteLeaksChecker = true →
     generateNonFatalErrorNode C' = true →
     emitReport BT_Leak CK (Some Sym) ∈ res.2) ∧
  (Family = AF_Alloca →
   ∀ e, e ∈ res.2 → isLeakReportOn Sym e = false).
Proof.
  intros HM HSym HC' Hd. cbn zeta.
  apply MallocMemAux_Some in HM as (_ & Sym' & st0 & HSym' & -> & _).
  assert (Sym' = Sym) as -> by congruence.
  assert (RegionState (getState C') !! Sym
          = Some (RefState.getAllocated Family (CE_stmt CE))) as HRs.
  { rewrite HC'. apply lookup_insert_eq. }
  split; [|split].
  - destruct (checkDeadSymbols this isDead C') as [[st2|] evs] eqn:E.
    + exists st2. split; [done|].
      by apply (checkDeadSymbols_Some_clean this isDead C' st2 evs Sym E).
    + exfalso.
      destruct (checkDeadSymbols_transition this isDead C') as (st' & E' & _).
      { exists Sym. by rewrite HRs. }
      congruence.
  - intros CK HF Hck Hg Hnode.
    by apply (checkDeadSymbols_event_complete this isDead C' Sym
                (RefState.getAllocated Family (CE_stmt CE)) CK).
  - intros HF e He.
    apply checkDeadSymbols_event_sound in He
      as (sym & RS & CK & -> & HRs' & _ & _ & Hfam & _).
    cbn. case_bool_decide as Heq; [|done]. subst sym.
    rewrite HRs in HRs'. injection HRs' as <-. done.
Qed.

(** X29. No leak after a free or an escape.  When a symbol dies in the
    state returned by a successful [FreeMemAux] on a pointer based on it,
    or in the state returned by [checkPointerEscapeAux] for a regular
    (non-const) escape in which the symbol escaped, [checkDeadSymbols]
    reports no leak on it. *)
Theorem free_or_escape_then_dead this isDead (C : CheckerContext) ArgExpr
    ParentExpr (State : State) Hold k RNF st' k' evs R SymBase
    Escaped Call Kind sym (C1 C2 : CheckerContext) :
  (FreeMemAux_Expr this C ArgExpr ParentExpr (Some State) Hold k RNF
     = (Some st', k', evs) →
   reachesSymBase C ArgExpr State R SymBase →
   getState C1 = st' →
   ∀ e, e ∈ (checkDeadSymbols this isDead C1).2 →
        isLeakReportOn SymBase e = false) ∧
  (sym ∈ Escaped →
   bool_decide (Kind = PSK_DirectEscapeOnCall) &&
     negb (mayFreeAnyEscapedMemoryOrIsModeledExplicitly Call) &&
     negb (bool_decide (is_Some (EscapingSymbol Call))) = false →
   isEscaping (if bool_decide (Kind = PSK_DirectEscapeOnCall)
               then EscapingSymbol Call else None) sym = true →
   getState C2 = checkPointerEscape State Escaped Call Kind →
   ∀ e, e ∈ (checkDeadSymbols this isDead C2).2 →
        isLeakReportOn sym e = false).
Proof.
  split.
  - intros HF Hreach HC1. apply checkDeadSymbols_no_leak_on.
    rewrite (FreeMemAux_Expr_reach _ _ _ _ _ _ _ _ _ _ Hreach) in HF.
    apply FreeMemAux_SymBase_Some in HF as (_ & _ & _ & HRs & _).
    cbn zeta in HRs. rewrite HC1, HRs, lookup_insert_eq.
    by destruct Hold.
  - intros Hin Hgo Hesc HC2. apply checkDeadSymbols_no_leak_on.
    rewrite HC2. unfold checkPointerEscape, checkPointerEscapeAux.
    destruct (bool_decide (Kind = PSK_DirectEscapeOnCall)) eqn:EK.
    + rewrite Hgo. rewrite checkPointerEscapeAux_fold_lookup.
      rewrite (bool_decide_eq_true_2 _ Hin), Hesc. cbn [andb].
      destruct (RegionState State !! sym) as [[s k0 f]|]; [|done].
      cbn. unfold RefState.isAllocated, RefState.isAllocatedOfSizeZero.
      cbn. by destruct k0.
    + cbn [andb]. rewrite checkPointerEscapeAux_fold_lookup.
      rewrite (bool_decide_eq_true_2 _ Hin), Hesc. cbn [andb].
      destruct (RegionState State !! sym) as [[s k0 f]|]; [|done].
      cbn. unfold RefState.isAllocated, RefState.isAllocatedOfSizeZero.
      cbn. by destruct k0.
Qed.

End CheckerInvariants2.

(** * The callbacks on concrete inputs

    The statements of this part run the callbacks on the small engine. *)

#[local] Existing Instance toyEngine.

(** ** The assumption hook *)


(** The from-pointer 1 is [Released] but known to be null itself: the first
    loop drops its record and the policy of the failed pair does not bring
    it back. *)
Lemma evalAssume_null_from_pointer :
  let state :=
    toyState {[1%positive := true; 2%positive := true]}
             {[1%positive := RefState.getReleased AF_Malloc 30;
               2%positive := RefState.getAllocated AF_Malloc 30]}
             {[2%positive := mkReallocPair 1 OAR_ToBeFreedAfterFailure]} ∅ in
  evalAssume state UnknownVal true
    = toyState {[1%positive := true; 2%positive := true]} ∅ ∅ ∅.
Proof. cbn zeta. vm_compute. reflexivity. Qed.


Lemma evalAssume_restores_only_Released_witness :
  let state :=
    toyState {[2%positive := true]}
             {[1%positive := RefState.getRelinquished AF_Malloc 10]}
             {[2%positive := mkReallocPair 1 OAR_ToBeFreedAfterFailure]} ∅ in
  RegionState (evalAssume state UnknownVal true) !! 1%positive
    = Some (RefState.getRelinquished AF_Malloc 10) ∧
  ReallocPairs (evalAssume state UnknownVal true) !! 2%positive = None.
Proof.
  intros state.
  destruct (evalAssume_restores_only_Released state UnknownVal true)
    as (_ & Hkeep & Hpairs & _).
  split.
  - rewrite Hkeep; [by vm_compute|].
    intros RS H. vm_compute in H. by injection H as <-.
  - rewrite Hpairs. by vm_compute.
Defined.

(** ** Deallocation *)



(** The test of the alloca family comes first: on a record of that family
    the report is the one of a free of alloca memory, whatever the state of
    the record. *)
Lemma FreeMemAux_alloca_first :
  let State :=
    toyState ∅ {[1%positive := RefState.getReleased AF_Alloca 10]} ∅ ∅ in
  let C := toyContext State ∅ AF_Malloc Linux in
  FreeMemAux_Expr allChecks C 1 20 (Some State) false false false
    = (None, false, [emitReport BT_FreeAlloca CK_MallocChecker None]).
Proof. cbn zeta. vm_compute. reflexivity. Qed.

(** [free(p); free(p);] with all sub-checkers on: the first free releases
    symbol 1, the second reports the double free once and returns no
    state. *)
Lemma FreeMemAux_twice :
  let State :=
    toyState ∅ {[1%positive := RefState.getAllocated AF_Malloc 10]} ∅ ∅ in
  let st1 :=
    toyState ∅ {[1%positive := RefState.getReleased AF_Malloc 20]} ∅ ∅ in
  FreeMemAux_Expr allChecks (toyContext State ∅ AF_Malloc Linux) 1 20
                  (Some State) false false false = (Some st1, true, []) ∧
  FreeMemAux_Expr allChecks (toyContext st1 ∅ AF_Malloc Linux) 1 21
                  (Some st1) false false false
    = (None, false, [emitReport BT_DoubleFree CK_MallocChecker (Some 1%positive)]).
Proof. cbn zeta. split; vm_compute; reflexivity. Qed.

(** ** Allocation *)

(** The call has no pointer type: [MallocMemAux] returns the null state
    reference, not the state it was given. *)
Lemma MallocMemAux_not_pointer_returns_null :
  let State := toyState ∅ ∅ ∅ ∅ in
  let C := toyContext State ∅ AF_Malloc Linux in
  let CE := mkCallExpr 5 1 (λ _, 6%positive) false in
  MallocMemAux C CE (nonloc_ConcreteInt 8) UndefinedVal (Some State) AF_Malloc
    = None ∧
  MallocMemAux C CE (nonloc_ConcreteInt 8) UndefinedVal (Some State) AF_Malloc
    ≠ Some State.
Proof. cbn zeta. split; [by vm_compute|]. by vm_compute. Qed.

Lemma MallocMemAux_not_pointer_witness :
  let State := toyState ∅ ∅ ∅ ∅ in
  let C := toyContext State ∅ AF_Malloc Linux in
  let CE := mkCallExpr 5 1 (λ _, 6%positive) false in
  isLocType CE = false ∧
  MallocMemAux C CE (nonloc_ConcreteInt 8) UndefinedVal (Some State) AF_Malloc
    = None.
Proof.
  intros State C CE. split; [reflexivity|].
  apply (MallocMemAux_not_pointer C CE (nonloc_ConcreteInt 8) UndefinedVal
           (Some State) AF_Malloc 6%positive).
  reflexivity.
Defined.

(** With a pointer type the same call tracks the conjured symbol. *)
Lemma MallocMemAux_pointer :
  let State := toyState ∅ ∅ ∅ ∅ in
  let C := toyContext State ∅ AF_Malloc Linux in
  let CE := mkCallExpr 5 1 (λ _, 6%positive) true in
  MallocMemAux C CE (nonloc_ConcreteInt 8) UndefinedVal (Some State) AF_Malloc
    = Some (toyState ∅ {[5%positive := RefState.getAllocated AF_Malloc 5]}
                     ∅ ∅).
Proof. cbn zeta. vm_compute. reflexivity. Qed.

(** ** Dead symbols *)

(** No dead symbol has a record, the realloc pair of the dead symbols 1 and
    2 and the free-return-value entry of the dead symbols 3 and 4 are
    there: the callback returns at once and the state keeps both entries. *)
Lemma checkDeadSymbols_keeps_dangling :
  let State :=
    toyState ∅ ∅ {[2%positive := mkReallocPair 1 OAR_ToBeFreedAfterFailure]}
             {[3%positive := 4%positive]} in
  let C := toyContext State ∅ AF_Malloc Linux in
  let isDead := λ _ : SymbolRef, true in
  checkDeadSymbols allChecks isDead C = (None, []) ∧
  ReallocPairs (getState C) !! 2%positive
    = Some (mkReallocPair 1 OAR_ToBeFreedAfterFailure) ∧
  FreeReturnValue (getState C) !! 3%positive = Some 4%positive ∧
  isDead 1%positive = true ∧ isDead 2%positive = true ∧
  isDead 3%positive = true ∧ isDead 4%positive = true.
Proof. cbn zeta. repeat split; vm_compute; reflexivity. Qed.

Lemma checkDeadSymbols_no_dangling_witness :
  let State :=
    toyState ∅ {[1%positive := RefState.getReleased AF_Malloc 10]}
             {[2%positive := mkReallocPair 1 OAR_ToBeFreedAfterFailure]}
             {[3%positive := 4%positive]} in
  let C := toyContext State ∅ AF_Malloc Linux in
  let isDead := λ sym : SymbolRef, bool_decide (sym ≠ 3%positive) in
  ∃ state', (checkDeadSymbols allChecks isDead C).1 = Some state' ∧
    (∀ to p, ReallocPairs state' !! to = Some p →
             isDead to = false ∧ isDead (ReallocatedSym p) = false) ∧
    (∀ sym ret, FreeReturnValue state' !! sym = Some ret →
                isDead sym = false ∧ isDead ret = false).
Proof.
  intros State C isDead.
  apply (proj1 (checkDeadSymbols_no_dangling allChecks isDead C)).
  exists 1%positive. split; [reflexivity|]. vm_compute. by eexists.
Defined.

(** Five tracked symbols, all dead but symbol 5: 1 from alloca, 2 from
    malloc, 3 freed, 4 from [new] with size zero, 5 from malloc.  The
    records of the dead ones are removed, that of 5 is kept; the leaks of 2
    and 4 are reported, under the malloc and the leaks sub-checker; the
    alloca candidate 1 and the freed 3 are not reported. *)
Lemma checkDeadSymbols_collects_leaks_witness :
  let State :=
    toyState ∅ {[1%positive := RefState.mk 10 RefState.Allocated AF_Alloca;
                 2%positive := RefState.mk 11 RefState.Allocated AF_Malloc;
                 3%positive := RefState.mk 12 RefState.Released AF_Malloc;
                 4%positive :=
                   RefState.mk 13 RefState.AllocatedOfSizeZero AF_CXXNew;
                 5%positive := RefState.mk 14 RefState.Allocated AF_Malloc]}
             ∅ ∅ in
  let C := toyContext State ∅ AF_Malloc Linux in
  let isDead := λ s : SymbolRef, negb (bool_decide (s = 5%positive)) in
  let res := checkDeadSymbols allChecks isDead C in
  (∃ state',
     res.1 = Some state' ∧
     RegionState state' !! 1%positive = None ∧
     RegionState state' !! 2%positive = None ∧
     RegionState state' !! 3%positive = None ∧
     RegionState state' !! 4%positive = None ∧
     RegionState state' !! 5%positive
       = Some (RefState.mk 14 RefState.Allocated AF_Malloc)) ∧
  emitReport BT_Leak CK_MallocChecker (Some 2%positive) ∈ res.2 ∧
  emitReport BT_Leak CK_NewDeleteLeaksChecker (Some 4%positive) ∈ res.2 ∧
  (∀ e, e ∈ res.2 → isLeakReportOn 1 e = false) ∧
  (∀ CK, emitReport BT_Leak CK (Some 3%positive) ∉ res.2).
Proof.
  intros State C isDead res.
  destruct (checkDeadSymbols_collects_leaks allChecks isDead C 1%positive
              (RefState.mk 10 RefState.Allocated AF_Alloca))
    as (Hc1 & _ & (st & Hst & Hrs) & _ & Hq1); [reflexivity|reflexivity|].
  destruct (checkDeadSymbols_collects_leaks allChecks isDead C 2%positive
              (RefState.mk 11 RefState.Allocated AF_Malloc))
    as (_ & _ & _ & Hrep2 & _); [reflexivity|reflexivity|].
  destruct (checkDeadSymbols_collects_leaks allChecks isDead C 3%positive
              (RefState.mk 12 RefState.Released AF_Malloc))
    as (_ & _ & _ & Hrep3 & _); [reflexivity|reflexivity|].
  destruct (checkDeadSymbols_collects_leaks allChecks isDead C 4%positive
              (RefState.mk 13 RefState.AllocatedOfSizeZero AF_CXXNew))
    as (_ & _ & _ & Hrep4 & _); [reflexivity|reflexivity|].
  split; [|split; [|split; [|split]]].
  - exists st. split; [exact Hst|]. rewrite !Hrs. repeat split.
  - apply Hrep2. split; [by left|]. split; [reflexivity|].
    split; [by left|]. split; [discriminate|reflexivity].
  - apply Hrep4. split; [by right|]. split; [reflexivity|].
    split; [by left|]. split; [discriminate|reflexivity].
  - apply Hq1; [|reflexivity]. apply Hc1. by left.
  - intros CK [[Hl|Hl] _]%Hrep3; discriminate Hl.
Defined.

(** The same cleanup, run: symbols 1 and 2 are candidates, 3 is not; only
    the leak of 2 is reported. *)
Lemma checkDeadSymbols_run :
  let State :=
    toyState ∅ {[1%positive := RefState.getAllocated AF_Alloca 10;
                 2%positive := RefState.getAllocated AF_Malloc 11;
                 3%positive := RefState.getReleased AF_Malloc 12]} ∅ ∅ in
  let C := toyContext State ∅ AF_Malloc Linux in
  checkDeadSymbols allChecks (λ _, true) C
    = (Some (toyState ∅ ∅ ∅ ∅),
       [emitReport BT_Leak CK_MallocChecker (Some 2%positive)]).
Proof. cbn zeta. vm_compute. reflexivity. Qed.

(** ** Reallocation *)

(** [q = realloc(p, n)] with [p] (symbol 1) allocated, an unknown size
    (expression 40, symbol 41) and [q] the value of the call (expression
    30). *)
Lemma ReallocMemAux_run :
  let State :=
    toyState ∅ {[1%positive := RefState.getAllocated AF_Malloc 10]} ∅ ∅ in
  let C :=
    toyContext State {[40%positive := nonloc_SymbolVal 41]} AF_Malloc Linux in
  let CE :=
    mkCallExpr 30 2 (λ i, if i is 0 then 1%positive else 40%positive) true in
  ReallocMemAux allChecks C CE false (Some State) false
    = (Some (toyState ∅
               {[1%positive := RefState.getReleased AF_Malloc 30;
                 30%positive := RefState.getAllocated AF_Malloc 30]}
               {[30%positive :=
                   mkReallocPair 1 OAR_ToBeFreedAfterFailure]} ∅),
       [addSymbolDependency 30 1]).
Proof. cbn zeta. vm_compute. reflexivity. Qed.

Lemma ReallocMemAux_records_pair_witness :
  let State :=
    toyState ∅ {[1%positive := RefState.getAllocated AF_Malloc 10]} ∅ ∅ in
  let C :=
    toyContext State {[40%positive := nonloc_SymbolVal 41]} AF_Malloc Linux in
  let CE :=
    mkCallExpr 30 2 (λ i, if i is 0 then 1%positive else 40%positive) true in
  ∃ state' evs FromPtr ToPtr,
    ReallocMemAux allChecks C CE false (Some State) false
      = (Some state', evs) ∧
    ReallocPairs state' !! ToPtr
      = Some (mkReallocPair FromPtr OAR_ToBeFreedAfterFailure) ∧
    addSymbolDependency ToPtr FromPtr ∈ evs.
Proof.
  intros State C CE.
  destruct (ReallocMemAux allChecks C CE false (Some State) false)
    as [[state'|] evs] eqn:HR; [|by vm_compute in HR].
  destruct (ReallocMemAux_records_pair allChecks C CE false State false
              state' evs)
    as (FromPtr & ToPtr & R & _ & _ & _ & Hpair & _ & Hdep);
    [vm_compute; reflexivity|vm_compute; reflexivity|exact HR|].
  exists state', evs, FromPtr, ToPtr. split; [reflexivity|].
  split; [exact Hpair|exact Hdep].
Defined.

(** ** Kernel allocators *)

(** [kmalloc(16, flags)] on Linux, on the engine with a store, the value
    of the call (expression 30) being the pointer that the callback
    conjures.  With [GFP_KERNEL | __GFP_ZERO], the flags 0x80d0 masked by
    0x8000 are non-zero: the callback binds the call to the region of
    symbol 30, binds the contents of that region to zero, and tracks the
    symbol as allocated by malloc.  With [GFP_KERNEL] alone (0x00d0) the
    contents are undefined. *)
Lemma performKernelMalloc_zero_flag_witness :
  let CE :=
    mkCallExpr 30 2 (λ i, if i is 0 then 40%positive else 41%positive) true in
  let kmalloc flags :=
    (checkPostStmt_KernelMalloc allChecks CE
       (storeContext emptyStoreState
          {[40%positive := nonloc_ConcreteInt 16;
            41%positive := nonloc_ConcreteInt flags]}
          AF_Malloc Linux)
       emptyStoreState).1 in
  let modelled Init :=
    Some (mkProgramState
            (mkStoreCore ∅ {[30%positive := loc_MemRegionVal (toyRegion 30)]}
                         {[30%positive := Init]})
            {[30%positive := RefState.mk 30 RefState.Allocated AF_Malloc]}
            ∅ ∅ ∅) in
  kmalloc 0x80d0%Z = modelled (nonloc_ConcreteInt 0) ∧
  kmalloc 0x00d0%Z = modelled UndefinedVal.
Proof.
  intros CE kmalloc modelled. split.
  - destruct (performKernelMalloc_zero_flag (eng := storeEngine) allChecks CE
                (storeContext emptyStoreState
                   {[40%positive := nonloc_ConcreteInt 16;
                     41%positive := nonloc_ConcreteInt 0x80d0]}
                   AF_Malloc Linux) emptyStoreState)
      as (_ & _ & [Hzero _] & _); [by left|].
    unfold kmalloc. rewrite (Hzero emptyStoreState eq_refl eq_refl).
    by vm_compute.
  - destruct (performKernelMalloc_zero_flag (eng := storeEngine) allChecks CE
                (storeContext emptyStoreState
                   {[40%positive := nonloc_ConcreteInt 16;
                     41%positive := nonloc_ConcreteInt 0x00d0]}
                   AF_Malloc Linux) emptyStoreState)
      as (_ & _ & [_ Hordinary] & _); [by left|].
    unfold kmalloc. rewrite Hordinary; [by vm_compute|].
    right. intros TrueState. by vm_compute.
Defined.

(** The same call without [__GFP_ZERO], and the same call on another
    system. *)
Lemma performKernelMalloc_run :
  let State := toyState ∅ ∅ ∅ ∅ in
  let CE :=
    mkCallExpr 30 2 (λ i, if i is 0 then 40%positive else 41%positive) true in
  let zeroed OS flags :=
    performKernelMalloc allChecks CE
      (toyContext State {[41%positive := nonloc_ConcreteInt flags]}
                  AF_Malloc OS) State in
  is_Some (zeroed Linux 0x80d0%Z).1 ∧
  (zeroed Linux 0x00d0%Z).1 = None ∧
  (zeroed OtherOS 0x80d0%Z).1 = None ∧
  is_Some (zeroed FreeBSD 0x0102%Z).1 ∧
  (zeroed FreeBSD 0x0002%Z).1 = None ∧
  is_Some (zeroed NetBSD 0x0002%Z).1 ∧
  is_Some (zeroed OpenBSD 0x0008%Z).1.
Proof. cbn zeta. repeat split; vm_compute; try reflexivity; by eexists. Qed.

(** ** Pointer escape *)

(** Pointers from [malloc] (symbol 1), from [new] (symbol 2), from
    [new[]] with size zero (symbol 3) and a freed one (symbol 4) escape in a
    call: a regular escape makes the first three [Escaped], a const escape
    only the two from [new] and [new[]]; the freed one stays [Released]. *)
Lemma checkPointerEscapeAux_escapes_witness :
  let State :=
    toyState ∅ {[1%positive := RefState.mk 10 RefState.Allocated AF_Malloc;
                 2%positive := RefState.mk 11 RefState.Allocated AF_CXXNew;
                 3%positive :=
                   RefState.mk 12 RefState.AllocatedOfSizeZero AF_CXXNewArray;
                 4%positive := RefState.mk 13 RefState.Released AF_Malloc]}
             ∅ ∅ in
  let Call := mkEscapePolicy true None in
  let Escaped := [1; 2; 3; 4]%positive in
  let regular :=
    RegionState (checkPointerEscape State Escaped Call
                   PSK_DirectEscapeOnCall) in
  let const :=
    RegionState (checkConstPointerEscape State Escaped Call
                   PSK_DirectEscapeOnCall) in
  regular !! 1%positive = Some (RefState.mk 10 RefState.Escaped AF_Malloc) ∧
  const !! 1%positive = Some (RefState.mk 10 RefState.Allocated AF_Malloc) ∧
  regular !! 2%positive = Some (RefState.mk 11 RefState.Escaped AF_CXXNew) ∧
  const !! 2%positive = Some (RefState.mk 11 RefState.Escaped AF_CXXNew) ∧
  const !! 3%positive
    = Some (RefState.mk 12 RefState.Escaped AF_CXXNewArray) ∧
  regular !! 4%positive = Some (RefState.mk 13 RefState.Released AF_Malloc) ∧
  const !! 4%positive = Some (RefState.mk 13 RefState.Released AF_Malloc).
Proof.
  intros State Call Escaped regular const.
  assert (∀ s, s = 1%positive ∨ s = 2%positive ∨ s = 3%positive →
               s ∈ Escaped) as Hin.
  { intros s. unfold Escaped. rewrite !elem_of_cons. tauto. }
  destruct (checkPointerEscapeAux_escapes State Escaped Call
              PSK_DirectEscapeOnCall 1%positive
              (RefState.mk 10 RefState.Allocated AF_Malloc) eq_refl)
    as [H1 _].
  destruct (checkPointerEscapeAux_escapes State Escaped Call
              PSK_DirectEscapeOnCall 2%positive
              (RefState.mk 11 RefState.Allocated AF_CXXNew) eq_refl)
    as [H2 _].
  destruct (checkPointerEscapeAux_escapes State Escaped Call
              PSK_DirectEscapeOnCall 3%positive
              (RefState.mk 12 RefState.AllocatedOfSizeZero AF_CXXNewArray)
              eq_refl) as [H3 _].
  destruct (checkPointerEscapeAux_escapes State Escaped Call
              PSK_DirectEscapeOnCall 4%positive
              (RefState.mk 13 RefState.Released AF_Malloc) eq_refl)
    as [_ H4].
  destruct (H1 (Hin 1%positive (or_introl eq_refl)) eq_refl eq_refl
              (or_introl eq_refl)) as (R1 & _ & C1).
  destruct (H2 (Hin 2%positive (or_intror (or_introl eq_refl))) eq_refl
              eq_refl (or_introl eq_refl)) as (R2 & C2 & _).
  destruct (H3 (Hin 3%positive (or_intror (or_intror eq_refl))) eq_refl
              eq_refl (or_intror eq_refl)) as (_ & C3 & _).
  destruct H4 as [R4 C4].
  { cbn. intros [?|?]; discriminate. }
  split; [exact R1|]. split.
  { apply C1. cbn. intros [?|?]; discriminate. }
  split; [exact R2|]. split; [exact (C2 (or_introl eq_refl))|].
  split; [exact (C3 (or_intror eq_refl))|]. split; [exact R4|exact C4].
Defined.

(** The escape of a const pointer, run: the [new] record escapes, the
    [malloc] record stays. *)
Lemma checkConstPointerEscape_run :
  let State :=
    toyState ∅ {[1%positive := RefState.getAllocated AF_Malloc 10;
                 2%positive := RefState.getAllocated AF_CXXNew 11]} ∅ ∅ in
  checkConstPointerEscape State [1; 2]%positive (mkEscapePolicy true None)
                          PSK_DirectEscapeOnCall
    = toyState ∅ {[1%positive := RefState.getAllocated AF_Malloc 10;
                   2%positive := RefState.mk 11 RefState.Escaped AF_CXXNew]}
               ∅ ∅.
Proof. cbn zeta. vm_compute. reflexivity. Qed.

(** ** The zero-size check *)

(** [malloc(0)]: the size (expression 40) is the constant 0, the record of
    the returned symbol 30 becomes [AllocatedOfSizeZero]. *)
Lemma ProcessZeroAllocCheck_branches_witness :
  let State :=
    toyState ∅ {[30%positive := RefState.getAllocated AF_Malloc 30]} ∅ ∅ in
  let C :=
    toyContext State {[40%positive := nonloc_ConcreteInt 0]} AF_Malloc Linux in
  let CE := mkCallExpr 30 1 (λ _, 40%positive) true in
  ProcessZeroAllocCheck C (E_CallExpr CE) 0 (Some State) None
    = Some (toyState ∅
              {[30%positive := RefState.mk 30 RefState.AllocatedOfSizeZero
                                           AF_Malloc]} ∅ ∅).
Proof.
  intros State C CE.
  rewrite (proj2 (ProcessZeroAllocCheck_branches C (E_CallExpr CE) 0 State
                    None 40%positive eq_refl eq_refl)
             State 30%positive (RefState.getAllocated AF_Malloc 30));
    vm_compute; reflexivity.
Defined.

(** [malloc(8)]: the size is not zero, the check returns the non-zero
    branch. *)
Lemma ProcessZeroAllocCheck_nonzero :
  let State :=
    toyState ∅ {[30%positive := RefState.getAllocated AF_Malloc 30]} ∅ ∅ in
  let C :=
    toyContext State {[40%positive := nonloc_ConcreteInt 8]} AF_Malloc Linux in
  let CE := mkCallExpr 30 1 (λ _, 40%positive) true in
  ProcessZeroAllocCheck C (E_CallExpr CE) 0 (Some State) None = Some State.
Proof. cbn zeta. vm_compute. reflexivity. Qed.

(** ** Further runs *)

(** Symbol 1 dies [Allocated], symbol 2 lives: the record of 2 is kept. *)
Lemma checkDeadSymbols_keeps_live_witness :
  let State :=
    toyState ∅ {[1%positive := RefState.getAllocated AF_Malloc 10;
                 2%positive := RefState.getAllocated AF_Malloc 11]} ∅ ∅ in
  let C := toyContext State ∅ AF_Malloc Linux in
  let isDead := λ s : SymbolRef, bool_decide (s = 1%positive) in
  ∃ state' evs,
    checkDeadSymbols allChecks isDead C = (Some state', evs) ∧
    RegionState state' !! 2%positive
      = Some (RefState.getAllocated AF_Malloc 11).
Proof.
  intros State C isDead.
  destruct (checkDeadSymbols allChecks isDead C) as [[state'|] evs] eqn:E;
    [|by vm_compute in E].
  exists state', evs. split; [reflexivity|].
  destruct (checkDeadSymbols_keeps_live allChecks isDead C state' evs E)
    as (_ & _ & Hlive & _).
  rewrite (Hlive 2%positive); [|by vm_compute]. by vm_compute.
Defined.

(** [free(p)] on an allocated pointer: its base symbol 1 is [Released]
    afterwards. *)
Lemma FreeMemAux_Expr_success_witness :
  let State :=
    toyState ∅ {[1%positive := RefState.getAllocated AF_Malloc 10]} ∅ ∅ in
  let C := toyContext State ∅ AF_Malloc Linux in
  ∃ st' R SymBase rec,
    (FreeMemAux_Expr allChecks C 1 20 (Some State) false false false).1.1
      = Some st' ∧
    reachesSymBase C 1 State R SymBase ∧
    RegionState st' !! SymBase = Some rec ∧
    RefState.K rec = RefState.Released.
Proof.
  intros State C.
  destruct (FreeMemAux_Expr allChecks C 1 20 (Some State) false false false)
    as [[[st'|] k'] evs] eqn:E; [|by vm_compute in E].
  destruct (FreeMemAux_Expr_success allChecks C 1 20 State false false false
              st' k' evs E)
    as (R & SymBase & rec & Hreach & _ & Hrec & HK & _).
  by exists st', R, SymBase, rec.
Defined.

(** The same free, decided by the characterisation for live records. *)
Lemma FreeMemAux_Expr_live_record_witness :
  let State :=
    toyState ∅ {[1%positive := RefState.getAllocated AF_Malloc 10]} ∅ ∅ in
  let C := toyContext State ∅ AF_Malloc Linux in
  is_Some
    (FreeMemAux_Expr allChecks C 1 20 (Some State) false false false).1.1.
Proof.
  intros State C.
  assert (reachesSymBase C 1 State (toyRegion 1) 1) as Hreach.
  { repeat split; try (vm_compute; reflexivity). by vm_compute. }
  apply (proj1 (FreeMemAux_Expr_live_record allChecks C 1 20 State false false
                  false (toyRegion 1) 1 (RefState.getAllocated AF_Malloc 10)
                  Hreach eq_refl eq_refl)).
  repeat split; by vm_compute.
Defined.


(** The escaped symbols in two orders, one with a repetition. *)
Lemma checkPointerEscapeAux_set_witness :
  let State :=
    toyState ∅ {[1%positive := RefState.getAllocated AF_Malloc 10;
                 2%positive := RefState.getAllocated AF_CXXNew 11]} ∅ ∅ in
  let Call := mkEscapePolicy true None in
  checkPointerEscapeAux State [1; 2]%positive Call PSK_DirectEscapeOnCall
                        false
  = checkPointerEscapeAux State [2; 1; 1]%positive Call
                          PSK_DirectEscapeOnCall false.
Proof.
  intros State Call.
  apply (checkPointerEscapeAux_set State [1; 2]%positive [2; 1; 1]%positive
           Call PSK_DirectEscapeOnCall false).
  intros s. rewrite !elem_of_cons, !elem_of_nil. tauto.
Defined.


(** [malloc] is of the malloc family and of no other. *)
Lemma isCMemFunction_family_unique_witness :
  let D := mkFunctionDecl true (Some II.malloc) [] OO_None true false in
  let MemFunctionInfo := mkMemFunctionInfoTy false false in
  getAllocationFamilyOf MemFunctionInfo (Some (S_CallExpr (Some D) None))
    = AF_Malloc ∧
  isCMemFunction MemFunctionInfo (Some D) AF_Alloca MOK_Any = false.
Proof.
  intros D MemFunctionInfo. split.
  - apply (proj1 (isCMemFunction_family_unique MemFunctionInfo D None
                    AF_Malloc eq_refl (or_introl eq_refl))).
    by vm_compute.
  - by vm_compute.
Defined.

(** [free(p)], then a use of [p]: the use is reported by the malloc
    sub-checker. *)
Lemma free_then_use_witness :
  let State :=
    toyState ∅ {[1%positive := RefState.getAllocated AF_Malloc 10]} ∅ ∅ in
  let C := toyContext State ∅ AF_Malloc Linux in
  ∃ st',
    (FreeMemAux_Expr allChecks C 1 20 (Some State) false false false).1.1
      = Some st' ∧
    checkUseAfterFree allChecks 1 (toyContext st' ∅ AF_Malloc Linux)
      = Some (true, [emitUseFree CK_MallocChecker 1 AF_Malloc]).
Proof.
  intros State C.
  destruct (FreeMemAux_Expr allChecks C 1 20 (Some State) false false false)
    as [[[st'|] k'] evs] eqn:E; [|by vm_compute in E].
  exists st'. split; [reflexivity|].
  assert (reachesSymBase C 1 State (toyRegion 1) 1) as Hreach.
  { repeat split; try (vm_compute; reflexivity). by vm_compute. }
  destruct (free_then_use allChecks C 1 20 State false false false st' k' evs
              (toyContext st' ∅ AF_Malloc Linux) (toyRegion 1) 1 E Hreach
              eq_refl) as (evs' & Huse & Hevs).
  rewrite Huse. f_equal. f_equal.
  apply (Hevs CK_MallocChecker); try reflexivity. set_solver.
Defined.

(** [p = malloc(0)], then a use of [p]. *)
Lemma zero_alloc_then_use_witness :
  let State :=
    toyState ∅ {[30%positive := RefState.getAllocated AF_Malloc 30]} ∅ ∅ in
  let C :=
    toyContext State {[40%positive := nonloc_ConcreteInt 0]} AF_Malloc Linux in
  let CE := mkCallExpr 30 1 (λ _, 40%positive) true in
  ∃ st',
    ProcessZeroAllocCheck C (E_CallExpr CE) 0 (Some State) None = Some st' ∧
    checkUseZeroAllocated allChecks 30 (toyContext st' ∅ AF_Malloc Linux)
      = [emitUseZeroAllocated CK_MallocChecker 30].
Proof.
  intros State C CE.
  destruct (ProcessZeroAllocCheck C (E_CallExpr CE) 0 (Some State) None)
    as [st'|] eqn:E; [|by vm_compute in E].
  exists st'. split; [reflexivity|].
  destruct (zero_alloc_then_use allChecks C (E_CallExpr CE) 0 State None
              40%positive State 30%positive st'
              (toyContext st' ∅ AF_Malloc Linux))
    as (Huse & Hrec); try (by vm_compute).
  rewrite Huse. vm_compute in E. injection E as <-. by vm_compute.
Defined.

(** [my_free(p)] with [ownership_takes(malloc, 1)] and [p] (symbol 1)
    allocated by malloc, handed to [FreeMemAttr]: the record becomes
    [Released] once the identifier cache is set, and the state is given up
    while it is not. *)
Lemma FreeMemAttr_keeps_state_witness :
  let State :=
    toyState ∅ {[1%positive := RefState.getAllocated AF_Malloc 10]} ∅ ∅ in
  let C := toyContext State ∅ AF_Malloc Linux in
  let CE := mkCallExpr 30 1 (λ _, 1%positive) true in
  let Att := mkOwnershipAttr Takes II.malloc [0] in
  FreeMemAttr allChecks (mkMemFunctionInfoTy false true) C CE Att (Some State)
    = (Some (toyState ∅
               {[1%positive := RefState.mk 30 RefState.Released AF_Malloc]}
               ∅ ∅), []) ∧
  FreeMemAttr allChecks (mkMemFunctionInfoTy false false) C CE Att
              (Some State)
    = (None, []).
Proof.
  intros State C CE Att.
  assert (∀ sym RS,
            RegionState State !! sym = Some RS →
            RefState.Family RS ≠ AF_None ∧
            getAllocationFamily C (RefState.Stmt RS) ≠ AF_None ∧
            ∃ RS0, RegionState (getState C) !! sym = Some RS0 ∧
                   RefState.Family RS0 ≠ AF_None) as Htracked.
  { intros sym RS H. cbn [RegionState toyState State] in H.
    apply lookup_singleton_Some in H as [<- <-].
    split; [done|]. split; [done|]. eexists. split; [reflexivity|done]. }
  split.
  - destruct (FreeMemAttr_keeps_state allChecks
                (mkMemFunctionInfoTy false true) C CE Att 0 State eq_refl)
      as [_ Hkeep]; [done|done|exact Htracked|].
    destruct (Hkeep eq_refl) as (st' & -> & -> & _). by vm_compute.
  - destruct (FreeMemAttr_keeps_state allChecks
                (mkMemFunctionInfoTy false false) C CE Att 0 State eq_refl)
      as [Hnull _]; [done|done|exact Htracked|].
    by apply Hnull.
Defined.

(** A call of a function the checker does not know. *)
Lemma checkPostStmt_unknown_function_witness :
  let State :=
    toyState ∅ {[1%positive := RefState.getAllocated AF_Malloc 10]} ∅ ∅ in
  let C := toyContext State ∅ AF_None Linux in
  let FD := mkFunctionDecl true (Some "memcpy") [] OO_None true false in
  let CE := mkCallExpr 30 1 (λ _, 1%positive) true in
  checkPostStmt allChecks (mkMemFunctionInfoTy true false) CE C
                (mkCallSite false (Some FD) "")
  = mkPostStmt (Some (Some State)) [] None.
Proof.
  intros State C FD CE.
  apply (checkPostStmt_unknown_function allChecks (mkMemFunctionInfoTy true false)
           CE C (mkCallSite false (Some FD) "") FD eq_refl eq_refl);
    [by vm_compute|by left].
Defined.

(** A function called [malloc] that carries [ownership_returns] of another
    module is not modelled. *)
Lemma checkPostStmt_foreign_module_witness :
  let State := toyState ∅ ∅ ∅ ∅ in
  let C := toyContext State ∅ AF_Malloc Linux in
  let Att := mkOwnershipAttr Returns "pool" [] in
  let FD :=
    mkFunctionDecl true (Some II.malloc) [A_Ownership Att] OO_None true
                   false in
  let CE := mkCallExpr 30 1 (λ _, 40%positive) true in
  let res :=
    checkPostStmt allChecks (mkMemFunctionInfoTy true false) CE C
                  (mkCallSite false (Some FD) "") in
  transition res = None ∨ transition res = Some None.
Proof.
  intros State C Att FD CE.
  apply (checkPostStmt_foreign_module allChecks (mkMemFunctionInfoTy true false) CE
           C (mkCallSite false (Some FD) "") FD Att eq_refl eq_refl eq_refl);
    [set_solver|by vm_compute|by vm_compute].
Defined.

(** [my_free(p)] with [ownership_takes(malloc, 1)] in optimistic mode, on
    a checker whose identifier cache is not set yet.  For the function
    [my_free] the untracked symbol 1 gets a [Released] record of the malloc
    family; for a method with the same attribute the callback adds the
    null state. *)
Lemma checkPostStmt_untracked_takes_witness :
  let State := toyState ∅ ∅ ∅ ∅ in
  let C := toyContext State ∅ AF_Malloc Linux in
  let Att := mkOwnershipAttr Takes II.malloc [0] in
  let FD :=
    mkFunctionDecl true (Some "my_free") [A_Ownership Att] OO_None true
                   false in
  let MD :=
    mkFunctionDecl false (Some "my_free") [A_Ownership Att] OO_None true
                   false in
  let CE := mkCallExpr 30 1 (λ _, 1%positive) true in
  let fresh := mkMemFunctionInfoTy true false in
  checkPostStmt allChecks fresh CE C (mkCallSite false (Some FD) "")
    = mkPostStmt
        (Some (Some (toyState ∅
                       {[1%positive :=
                           RefState.mk 30 RefState.Released AF_Malloc]}
                       ∅ ∅)))
        [] None ∧
  transition (checkPostStmt allChecks fresh CE C
                (mkCallSite false (Some MD) ""))
    = Some None.
Proof.
  intros State C Att FD MD CE fresh. split.
  - destruct (checkPostStmt_untracked_takes allChecks fresh CE C
                (mkCallSite false (Some FD) "") FD Att 0 (toyRegion 1) 1)
      as (_ & Hevs & Hcache & Hset & _); [by vm_compute..|].
    specialize (Hset (or_introl eq_refl)).
    destruct (checkPostStmt allChecks fresh CE C
                (mkCallSite false (Some FD) "")) as [tr evs cache].
    cbn [transition events zeroFlagCache] in *. subst tr evs cache.
    by vm_compute.
  - destruct (checkPostStmt_untracked_takes allChecks fresh CE C
                (mkCallSite false (Some MD) "") MD Att 0 (toyRegion 1) 1)
      as (_ & _ & _ & _ & Hunset); [by vm_compute..|].
    by apply Hunset.
Defined.

(** [free(p)] inside a function of the Integer Set Library: the released
    record of symbol 1 becomes [Escaped], no double free is reported. *)
Lemma checkPostStmt_isl_free_witness :
  let State :=
    toyState ∅ {[1%positive := RefState.getReleased AF_Malloc 10]} ∅ ∅ in
  let C := toyContext State ∅ AF_Malloc Linux in
  let FD := mkFunctionDecl true (Some II.free) [] OO_None true false in
  let CE := mkCallExpr 30 1 (λ _, 1%positive) true in
  let Site :=
    mkCallSite false (Some FD) "__isl_give isl_set *isl_set_copy(" in
  ∃ st',
    checkPostStmt allChecks (mkMemFunctionInfoTy false false) CE C Site
      = mkPostStmt (Some (Some st')) [] None ∧
    RegionState st' !! 1%positive
      = Some (RefState.mk 10 RefState.Escaped AF_Malloc).
Proof.
  intros State C FD CE Site.
  destruct (checkPostStmt_isl_free allChecks (mkMemFunctionInfoTy false false) CE C
              Site FD) as (st' & Hres & _ & _ & _ & _ & Hesc & _);
    try (by vm_compute).
  - by left.
  - exists st'. split; [exact Hres|].
    rewrite (Hesc 1%positive 0); by vm_compute.
Defined.

(** A container releases its inner buffer (symbol 1, at statement 20); the
    pointer is used afterwards. *)
Lemma markReleased_then_use_witness :
  let State := toyState ∅ ∅ ∅ ∅ in
  let C' := toyContext (markReleased State 1 20) ∅ AF_None Linux in
  checkUseAfterFree allChecks 1 C'
    = Some (true, [emitUseFree CK_InnerPointerChecker 1 AF_InnerBuffer]).
Proof.
  intros State C'.
  destruct (markReleased_then_use allChecks State 1 20 C' eq_refl)
    as (_ & _ & Huse); [set_solver|].
  rewrite Huse. reflexivity.
Defined.

(** Symbol 1 dies [Allocated]: the first run cleans it up and reports the
    leak, a second run on the new state does nothing. *)
Lemma checkDeadSymbols_twice_witness :
  let State :=
    toyState ∅ {[1%positive := RefState.getAllocated AF_Malloc 10;
                 2%positive := RefState.getAllocated AF_Malloc 11]} ∅ ∅ in
  let C := toyContext State ∅ AF_Malloc Linux in
  let isDead := λ s : SymbolRef, bool_decide (s = 1%positive) in
  ∃ state',
    checkDeadSymbols allChecks isDead C
      = (Some state', [emitReport BT_Leak CK_MallocChecker (Some 1%positive)]) ∧
    checkDeadSymbols allChecks isDead (toyContext state' ∅ AF_Malloc Linux)
      = (None, []).
Proof.
  intros State C isDead.
  destruct (checkDeadSymbols allChecks isDead C) as [[state'|] evs] eqn:E;
    [|by vm_compute in E].
  exists state'. split.
  - vm_compute in E. injection E as <- <-. reflexivity.
  - by apply (checkDeadSymbols_twice allChecks isDead C state' evs
                (toyContext state' ∅ AF_Malloc Linux) E).
Defined.

(** [p = malloc(n)] (call 5), and [p] dies: the leak is reported. *)
Lemma malloc_then_leak_witness :
  let State := toyState ∅ ∅ ∅ ∅ in
  let C := toyContext State ∅ AF_Malloc Linux in
  let CE := mkCallExpr 5 1 (λ _, 6%positive) true in
  let isDead := λ s : SymbolRef, bool_decide (s = 5%positive) in
  ∃ st1,
    MallocMemAux C CE UnknownVal UndefinedVal (Some State) AF_Malloc
      = Some st1 ∧
    emitReport BT_Leak CK_MallocChecker (Some 5%positive)
      ∈ (checkDeadSymbols allChecks isDead
           (toyContext st1 ∅ AF_Malloc Linux)).2.
Proof.
  intros State C CE isDead.
  destruct (MallocMemAux C CE UnknownVal UndefinedVal (Some State) AF_Malloc)
    as [st1|] eqn:E; [|by vm_compute in E].
  exists st1. split; [reflexivity|].
  destruct (malloc_then_leak allChecks C CE UnknownVal UndefinedVal State
              AF_Malloc st1 5 (toyContext st1 ∅ AF_Malloc Linux) isDead E)
    as (_ & Hleak & _); try reflexivity.
  by apply Hleak.
Defined.

(** ** The classification of callees, run *)

Lemma getAllocationFamilyOf_run :
  let pessimistic := mkMemFunctionInfoTy false false in
  let optimistic := mkMemFunctionInfoTy true false in
  let plain name := mkFunctionDecl true (Some name) [] OO_None true false in
  let call info FD := getAllocationFamilyOf info (Some (S_CallExpr (Some FD) None)) in
  let annotated :=
    mkFunctionDecl true (Some "my_free")
      [A_Ownership (mkOwnershipAttr Takes II.malloc [0])] OO_None true false in
  call pessimistic (plain II.g_try_realloc_n) = AF_Malloc ∧
  call pessimistic (plain II.if_freenameindex) = AF_IfNameIndex ∧
  call pessimistic (plain II.win_alloca) = AF_Alloca ∧
  call pessimistic (mkFunctionDecl true None [] OO_Array_Delete false false)
    = AF_CXXNewArray ∧
  call pessimistic (mkFunctionDecl true None [] OO_New true false) = AF_None ∧
  call pessimistic annotated = AF_None ∧
  call optimistic annotated = AF_Malloc ∧
  isCMemFunction pessimistic (Some (plain II.g_realloc)) AF_Malloc MOK_Free
    = false ∧
  isCMemFunction pessimistic (Some (plain II.realloc)) AF_Malloc MOK_Free
    = true.
Proof. cbn zeta. repeat split; vm_compute; reflexivity. Qed.
